(** * multimodal-molecules: condition evaluator, modality combinations,
      deterministic split and experiment report

    A shallow embedding of [multimodal_molecules/data.py] and
    [multimodal_molecules/models.py], followed by the properties of the
    condition evaluator, the dataset assembler, the combination enumerator,
    the train/test split and the experiment runner.

    Conventions of the embedding.
    - A Python call that can raise is a function into [result A]: [inl e] is
      the raised exception, [inr a] the returned value.
    - Python floats are IEEE binary64 values ([spec_float] with precision 53
      and maximal exponent 1024), with the operations of [SpecFloat].
    - Python [dict]s whose iteration order is used are association lists in
      insertion order; the report and the model store, which are only
      looked up and written by key, are [gmap]s.
    - The collaborators outside the repository (the random generator of
      numpy, the classifier and the metrics of scikit-learn) are fields of
      interface records; the code is modelled over any implementation. *)

From Stdlib Require Import ZArith Lia Ascii String List.
From Stdlib Require Import Floats.SpecFloat.
From stdpp Require Import base tactics option list sorting gmap strings.

(** ** Exceptions and results *)

Inductive exn : Type :=
  | KeyError
  | IndexError
  | ValueError
  | TypeError
  | OverflowError
  | RuntimeError
  | AssertionError
  | AttributeError
  | ZeroDivisionError.

Definition result (A : Type) : Type := exn + A.

Definition raise {A} (e : exn) : result A := inl e.

Global Instance result_ret : MRet result := fun A a => inr a.
Global Instance result_bind : MBind result := fun A B k m =>
  match m with
  | inl e => inl e
  | inr a => k a
  end.

(** [assert c]. *)
Definition py_assert (c : bool) : result unit :=
  if c then mret tt else raise AssertionError.

(** A list comprehension whose element expression can raise: the first
    exception ends the comprehension. *)
Fixpoint map_result {A B} (f : A -> result B) (l : list A) : result (list B) :=
  match l with
  | [] => mret []
  | a :: l' => b ← f a; bs ← map_result f l'; mret (b :: bs)
  end.

(** ** Floats: IEEE binary64 *)

Definition float : Type := spec_float.
Definition prec : Z := 53.
Definition emax : Z := 1024.

(** Conversion of a Python [int] to [float]: correctly rounded; an integer
    beyond the range of binary64 raises. *)
Definition float_of_int (n : Z) : result float :=
  match binary_normalize prec emax n 0 false with
  | S754_infinity _ => raise OverflowError
  | x => mret x
  end.

Definition float_mul : float -> float -> float := SFmul prec emax.
Definition float_div : float -> float -> float := SFdiv prec emax.
Definition float_lt : float -> float -> bool := SFltb.

(** The float nearest to the fraction [a / b], as a decimal literal such as
    [0.02] (= 2/100) denotes. *)
Definition float_of_ratio (a b : Z) : float :=
  float_div (binary_normalize prec emax a 0 false)
            (binary_normalize prec emax b 0 false).

(** [int(x)]: truncation toward zero; [nan] and the infinities raise. *)
Definition py_int (x : float) : result Z :=
  match x with
  | S754_zero _ => mret 0%Z
  | S754_infinity _ => raise OverflowError
  | S754_nan => raise ValueError
  | S754_finite s m e =>
      let a := (if 0 <=? e then Z.pos m * 2 ^ e else Z.pos m / 2 ^ (- e))%Z in
      mret (if s then - a else a)%Z
  end.

(** [x * n] for a float [x] and an int [n]. *)
Definition float_mul_int (x : float) (n : Z) : result float :=
  fn ← float_of_int n; mret (float_mul x fn).

(** [a / b] for two integers under numpy's true division: both operands are
    converted to binary64; a zero divisor gives [nan] or an infinity and
    does not raise. *)
Definition np_true_divide (a b : Z) : float :=
  float_div (binary_normalize prec emax a 0 false)
            (binary_normalize prec emax b 0 false).

(** ** Strings *)

(** [s.split(sep)] for a one-character separator. *)
Fixpoint py_split (sep : ascii) (s : string) : list string :=
  match s with
  | EmptyString => [EmptyString]
  | String c s' =>
      if Ascii.eqb c sep then EmptyString :: py_split sep s'
      else
        match py_split sep s' with
        | [] => [String c EmptyString]
        | w :: ws => String c w :: ws
        end
  end.

(** [sep.join(l)]. *)
Definition py_join (sep : string) (l : list string) : string :=
  String.concat sep l.

(** [sub in s]. *)
Fixpoint py_in (sub s : string) : bool :=
  String.prefix sub s ||
  match s with
  | EmptyString => false
  | String _ s' => py_in sub s'
  end.

(** [s.replace(a, b)] for one-character [a] and [b]. *)
Fixpoint py_replace (a b : ascii) (s : string) : string :=
  match s with
  | EmptyString => EmptyString
  | String c s' => String (if Ascii.eqb c a then b else c) (py_replace a b s')
  end.

(** [sorted(l)] on strings: ascending in the lexicographic order of the
    characters' codes. *)
Definition sorted_str (l : list string) : list string :=
  merge_sort String.le l.

(** [sorted(l)] on integers. *)
Definition sorted_nat (l : list nat) : list nat :=
  merge_sort Nat.le l.

(** [l[o1:o2]] with optional, possibly negative, bounds. *)
Definition py_slice_bound (len default : Z) (o : option Z) : Z :=
  match o with
  | None => default
  | Some i => if (i <? 0)%Z then Z.max 0 (len + i) else Z.min i len
  end.

Definition py_slice {A} (o1 o2 : option Z) (l : list A) : list A :=
  let n := Z.of_nat (length l) in
  let lo := py_slice_bound n 0 o1 in
  let hi := py_slice_bound n n o2 in
  take (Z.to_nat (hi - lo)) (drop (Z.to_nat lo) l).

(** A [dict] in insertion order: assigning an existing key keeps its place
    and replaces its value. *)
Fixpoint dict_set {V} (k : string) (v : V) (d : list (string * V))
  : list (string * V) :=
  match d with
  | [] => [(k, v)]
  | (k', v') :: d' =>
      if decide (k' = k) then (k, v) :: d' else (k', v') :: dict_set k v d'
  end.

Fixpoint dict_get {V} (k : string) (d : list (string * V)) : result V :=
  match d with
  | [] => raise KeyError
  | (k', v) :: d' => if decide (k' = k) then mret v else dict_get k d'
  end.

(** ** [itertools.combinations] and [get_all_combinations] *)

(** [combinations(pool, r)]: the [r]-length subsequences of [pool], emitted
    in lexicographic order of the positions they take. *)
Fixpoint combinations {A} (pool : list A) (r : nat) : list (list A) :=
  match r with
  | O => [[]]
  | S r' =>
      match pool with
      | [] => []
      | x :: pool' =>
          List.map (cons x) (combinations pool' r') ++ combinations pool' r
      end
  end.

(** [L = [ii for ii in range(n)]]; then for [nn] in [range(len(L))] the
    combinations of length [nn + 1] are appended. *)
Definition get_all_combinations (n : nat) : list (list nat) :=
  let L := seq 0 n in
  List.fold_left
    (fun combos nn => combos ++ combinations L (nn + 1))
    (seq 0 (length L)) [].

(** ** [data.py]: the index table, the spectral store, [get_dataset] *)

(** A column of the index table, typed as pandas types it: text or
    integers. *)
Inductive column : Type :=
  | ColStr (l : list string)
  | ColInt (l : list Z).

(** The index table: its columns in order, each under its label. The labels
    [read_csv] produces are distinct; a lookup by label takes the first. *)
Definition DataFrame : Type := list (string * column).

(** [df[name]]. *)
Definition df_getitem (df : DataFrame) (name : string) : result column :=
  dict_get name df.

(** [col == v] for an integer [v]: a text cell is never equal to it. *)
Definition eq_mask (c : column) (v : Z) : list bool :=
  match c with
  | ColStr l => List.map (fun _ => false) l
  | ColInt l => List.map (fun x => Z.eqb x v) l
  end.

(** Selection of the rows a boolean mask marks. *)
Fixpoint select {A} (mask : list bool) (l : list A) : list A :=
  match mask, l with
  | b :: mask', x :: l' => if b then x :: select mask' l' else select mask' l'
  | _, _ => []
  end.

Definition col_select (mask : list bool) (c : column) : column :=
  match c with
  | ColStr l => ColStr (select mask l)
  | ColInt l => ColInt (select mask l)
  end.

(** [df[mask]]. *)
Definition df_select (mask : list bool) (df : DataFrame) : DataFrame :=
  List.map (fun nc => (fst nc, col_select mask (snd nc))) df.

(** The pickled spectral store: ["data"] maps a sample identity to its
    spectra by modality tag, ["grids"] maps an element to its energy grid. *)
Record xanes_store : Type := {
  xs_data : gmap string (gmap string (list float));
  xs_grids : gmap string (list float)
}.

(** A two-dimensional array, as the list of its rows. *)
Definition matrix : Type := list (list float).

(** The dictionary [get_dataset] returns: the spectra by modality tag, the
    entries ["grid"], ["FG"] (in insertion order) and ["index"]. *)
Record dataset : Type := {
  ds_xanes : gmap string matrix;
  ds_grid : gmap string (list float);
  ds_FG : list (string * list Z);
  ds_index : DataFrame
}.

(** [d[k]] on a dictionary that is only looked up. *)
Definition map_getitem {V} (d : gmap string V) (k : string) : result V :=
  match d !! k with
  | Some v => mret v
  | None => raise KeyError
  end.

(** A loop whose body can raise: the first exception ends it. *)
Fixpoint fold_result {A S} (f : S -> A -> result S) (l : list A) (s : S)
  : result S :=
  match l with
  | [] => mret s
  | a :: l' => s' ← f s a; fold_result f l' s'
  end.

(** ["XANES" in xx]. *)
Definition has_xanes (xx : string) : bool := py_in "XANES" xx.

(** [xx.split("-")[0]]. *)
Definition cc_of (xx : string) : string :=
  match py_split "-" xx with
  | [] => EmptyString
  | w :: _ => w
  end.

(** Lines 57-62: the tokens of the expression, followed by the
    complementary conditions of the tokens that contain ["XANES"]. *)
Definition cc_conditions (conditions : list string) : list string :=
  List.map cc_of (List.filter has_xanes conditions).

Definition expand_conditions (conditions : string) : list string :=
  let conditions := py_split "," conditions in
  conditions ++ cc_conditions conditions.

(** Lines 73-76: one step of the refinement of the index. [condition[0]]
    raises on the empty token. *)
Definition apply_condition (index : DataFrame) (condition : string)
  : result DataFrame :=
  match condition with
  | EmptyString => raise IndexError
  | String c rest =>
      if negb (Ascii.eqb "!" c) then
        col ← df_getitem index condition;
        mret (df_select (eq_mask col 1) index)
      else
        col ← df_getitem index rest;
        mret (df_select (eq_mask col 0) index)
  end.

(** [index["SMILES"].to_list()]: the keys used in the spectral store, which
    is keyed by text; an integer is a key the store does not have. *)
Definition to_keys (c : column) : list (option string) :=
  match c with
  | ColStr l => List.map Some l
  | ColInt l => List.map (fun _ => None) l
  end.

(** [xanes["data"][smile][key]]. *)
Definition spectrum_of (xanes : xanes_store) (key : string)
  (smile : option string) : result (list float) :=
  match smile with
  | None => raise KeyError
  | Some sm => spectra ← map_getitem (xs_data xanes) sm; map_getitem spectra key
  end.

(** [dat.sum() > 0]: the sum of integers; on text, [sum] of no cell is 0 and
    the comparison of a non-empty text sum with 0 raises. *)
Definition sum_Z (l : list Z) : Z := List.fold_right Z.add 0%Z l.

Definition col_sum_positive (c : column) : result bool :=
  match c with
  | ColInt l => mret (0 <? sum_Z l)%Z
  | ColStr [] => mret false
  | ColStr (_ :: _) => raise TypeError
  end.

Definition col_ints (c : column) : list Z :=
  match c with
  | ColInt l => l
  | ColStr _ => []
  end.

(** Lines 92-97: the functional groups are the columns from position 7 on;
    a column is kept when its sum is positive. *)
Definition get_functional_groups (index : DataFrame)
  : result (list (string * list Z)) :=
  let fg_index := drop 7 index in
  fold_result
    (fun FG fg =>
       dat ← df_getitem fg_index fg;
       positive ← col_sum_positive dat;
       if (positive : bool) then mret (dict_set fg (col_ints dat) FG)
       else mret FG)
    (List.map fst fg_index) [].

(** Lines 72-76: all conditions applied in order. *)
Definition refine_index (conditions : list string) (index : DataFrame)
  : result DataFrame :=
  fold_result apply_condition conditions index.

Definition get_dataset (xanes : xanes_store) (index : DataFrame)
  (conditions : string) : result dataset :=
  let conditions := expand_conditions conditions in
  let grids := xs_grids xanes in
  index ← refine_index conditions index;
  smiles_col ← df_getitem index "SMILES";
  let smiles := to_keys smiles_col in
  let xanes_conditions := List.filter has_xanes conditions in
  final_xanes ←
    fold_result
      (fun d key =>
         rows ← map_result (spectrum_of xanes key) smiles;
         mret (<[key := rows]> d))
      xanes_conditions (∅ : gmap string matrix);
  final_grid ←
    fold_result
      (fun d key => g ← map_getitem grids (cc_of key); mret (<[key := g]> d))
      xanes_conditions (∅ : gmap string (list float));
  FG ← get_functional_groups index;
  mret {| ds_xanes := final_xanes; ds_grid := final_grid;
          ds_FG := FG; ds_index := index |}.

(** ** Stateful computations that can raise *)

(** A computation over a state [S]: it returns the state it leaves behind
    together with its value or the exception it raised. What was written to
    the state before an exception stays written. *)
Definition stateful (S A : Type) : Type := S -> S * result A.

Global Instance stateful_ret {S} : MRet (stateful S) :=
  fun A a st => (st, inr a).
Global Instance stateful_bind {S} : MBind (stateful S) :=
  fun A B k m st =>
    match m st with
    | (st', inl e) => (st', inl e)
    | (st', inr a) => k a st'
    end.

Definition lift {S A} (r : result A) : stateful S A := fun st => (st, r).
Definition get_state {S} : stateful S S := fun st => (st, inr st).

(** ** numpy's global random generator *)

(** The generator behind [np.random]: the state a seed initialises, and the
    shuffled range [permutation(n)], which is a rearrangement of
    [0, ..., n-1] and advances the state. *)
Class RandomState : Type := {
  rng : Type;
  mt_seed : Z -> rng;
  mt_permutation : nat -> rng -> list nat * rng;
  mt_permutation_Permutation :
    forall n g, Permutation (fst (mt_permutation n g)) (seq 0 n)
}.

Section NumpyRandom.
Context {RS : RandomState}.

(** [np.random.seed(seed)]: the seed must lie between 0 and 2**32 - 1. *)
Definition np_random_seed (seed : Z) : stateful rng unit :=
  fun g =>
    if ((0 <=? seed) && (seed <? 2 ^ 32))%Z then (mt_seed seed, inr tt)
    else (g, inl ValueError).

(** [np.random.choice(a, size=size, replace=False)] for integers [a] and
    [size]: an empty population with samples to take, a sample larger
    than the population and a negative size raise; otherwise the first
    [size] entries of [permutation(a)]. *)
Definition np_random_choice (a size : Z) : stateful rng (list nat) :=
  fun g =>
    if ((a <=? 0) && negb (size =? 0))%Z then (g, inl ValueError)
    else if (a <? size)%Z then (g, inl ValueError)
    else if (size <? 0)%Z then (g, inl ValueError)
    else
      let (p, g') := mt_permutation (Z.to_nat a) g in
      (g', inr (take (Z.to_nat size) p)).
End NumpyRandom.

(** [np.unique(l)]: the distinct values, sorted. *)
Definition np_unique (l : list nat) : list nat :=
  sorted_nat (remove_dups l).

(** [np.arange(N).tolist()]. *)
Definition np_arange (N : Z) : list nat := seq 0 (Z.to_nat N).

(** ** [models.py]: the report and the [Results] object *)

(** The entry of the report for one experiment. *)
Record experiment_record : Type := {
  p_total : float;
  p_train : float;
  p_test : float;
  test_accuracy : float;
  train_accuracy : float;
  test_balanced_accuracy : float;
  train_balanced_accuracy : float;
  feature_importance : option (list float * list float);
  permutation_feature_importance : option (list float * list float)
}.

(** The attributes [__init__] sets, and the slot in which [cached_property]
    keeps the value of [train_test_indexes] once computed. *)
Record Results : Type := {
  _conditions : string;
  _xanes_data_name : string;
  _index_data_name : string;
  _offset_left : option Z;
  _offset_right : option Z;
  _test_size : float;
  _random_state : Z;
  _min_fg_occurrence : float;
  _max_fg_occurrence : float;
  _data_size : option Z;
  _data_loaded_from : option string;
  _report : gmap string experiment_record;
  cached_train_test_indexes : option (list nat * list nat)
}.

(** [Results.__init__]: the conditions are stored sorted; a missing report
    is the empty one. *)
Definition Results_init (conditions xanes_data_name index_data_name : string)
  (offset_left offset_right : option Z) (test_size : float)
  (random_state : Z) (min_fg_occurrence max_fg_occurrence : float)
  (data_size : option Z) (data_loaded_from : option string)
  (report : option (gmap string experiment_record)) : Results :=
  {| _conditions := py_join "," (sorted_str (py_split "," conditions));
     _xanes_data_name := xanes_data_name;
     _index_data_name := index_data_name;
     _offset_left := offset_left;
     _offset_right := offset_right;
     _test_size := test_size;
     _random_state := random_state;
     _min_fg_occurrence := min_fg_occurrence;
     _max_fg_occurrence := max_fg_occurrence;
     _data_size := data_size;
     _data_loaded_from := data_loaded_from;
     _report := match report with None => ∅ | Some r => r end;
     cached_train_test_indexes := None |}.

(** [Results(conditions)], with the defaults of [__init__]. *)
Definition Results_default (conditions : string) : Results :=
  Results_init conditions "221205_xanes.pkl" "221205_index.csv" None None
    (float_of_ratio 6 10) 42 (float_of_ratio 2 100) (float_of_ratio 98 100)
    None None None.

Definition set_data_size (N : Z) (self : Results) : Results :=
  {| _conditions := _conditions self;
     _xanes_data_name := _xanes_data_name self;
     _index_data_name := _index_data_name self;
     _offset_left := _offset_left self;
     _offset_right := _offset_right self;
     _test_size := _test_size self;
     _random_state := _random_state self;
     _min_fg_occurrence := _min_fg_occurrence self;
     _max_fg_occurrence := _max_fg_occurrence self;
     _data_size := Some N;
     _data_loaded_from := _data_loaded_from self;
     _report := _report self;
     cached_train_test_indexes := cached_train_test_indexes self |}.

Definition set_report (r : gmap string experiment_record) (self : Results)
  : Results :=
  {| _conditions := _conditions self;
     _xanes_data_name := _xanes_data_name self;
     _index_data_name := _index_data_name self;
     _offset_left := _offset_left self;
     _offset_right := _offset_right self;
     _test_size := _test_size self;
     _random_state := _random_state self;
     _min_fg_occurrence := _min_fg_occurrence self;
     _max_fg_occurrence := _max_fg_occurrence self;
     _data_size := _data_size self;
     _data_loaded_from := _data_loaded_from self;
     _report := r;
     cached_train_test_indexes := cached_train_test_indexes self |}.

Definition set_cached_train_test_indexes (v : list nat * list nat)
  (self : Results) : Results :=
  {| _conditions := _conditions self;
     _xanes_data_name := _xanes_data_name self;
     _index_data_name := _index_data_name self;
     _offset_left := _offset_left self;
     _offset_right := _offset_right self;
     _test_size := _test_size self;
     _random_state := _random_state self;
     _min_fg_occurrence := _min_fg_occurrence self;
     _max_fg_occurrence := _max_fg_occurrence self;
     _data_size := _data_size self;
     _data_loaded_from := _data_loaded_from self;
     _report := _report self;
     cached_train_test_indexes := Some v |}.

Section Split.
Context {RS : RandomState}.

(** Lines 149-159, the function under [@cached_property]. The state is
    numpy's global generator. *)
Definition train_test_indexes (self : Results)
  : stateful rng (list nat * list nat) :=
  match _data_size self with
  | None => lift (raise RuntimeError)
  | Some N =>
      _ ← np_random_seed (_random_state self);
      size ← lift (x ← float_mul_int (_test_size self) N; py_int x);
      test_indexes ← np_random_choice N size;
      _ ← lift (py_assert
                  (length test_indexes =? length (np_unique test_indexes)));
      let train_indexes :=
        elements ((list_to_set (np_arange N) : gset nat)
                    ∖ list_to_set test_indexes) in
      _ ← lift (py_assert
                  (bool_decide ((list_to_set test_indexes : gset nat)
                                  ## list_to_set train_indexes)));
      mret (sorted_nat train_indexes, sorted_nat test_indexes)
  end.
End Split.

(** ** scikit-learn *)

(** The dictionary-like [Bunch] that [permutation_importance] returns: its
    keys are also its attributes, its values are arrays. *)
Definition bunch : Type := gmap string matrix.

(** [b.pop(k)]. *)
Definition bunch_pop (k : string) (b : bunch) : result (matrix * bunch) :=
  match b !! k with
  | Some v => mret (v, delete k b)
  | None => raise KeyError
  end.

(** [b.name(axis=0)] for a name that is no method of [dict]: the attribute
    is looked up among the keys, and a missing one raises; one that is there
    is an array, which cannot be called. *)
Definition bunch_call (name : string) (b : bunch) : result (list float) :=
  match b !! name with
  | None => raise AttributeError
  | Some _ => raise TypeError
  end.

(** The classifier and the metrics, each of which may raise. [rf_fit n_jobs
    random_state X y] is [RandomForestClassifier(n_jobs=n_jobs,
    random_state=random_state).fit(X, y)]; [rf_feature_importances] is the
    mean and the standard deviation over the trees of their
    [feature_importances_]; [permutation_importance], called without a
    random state, draws from numpy's global generator. *)
Class Sklearn (RS : RandomState) : Type := {
  classifier : Type;
  rf_fit : Z -> Z -> matrix -> list Z -> result classifier;
  rf_predict : classifier -> matrix -> result (list Z);
  accuracy_score : list Z -> list Z -> result float;
  balanced_accuracy_score : list Z -> list Z -> result float;
  rf_feature_importances : classifier -> result (list float * list float);
  permutation_importance :
    classifier -> matrix -> list Z -> Z -> stateful rng bunch;
  train_test_split :
    matrix -> list Z -> float -> Z ->
    result (matrix * matrix * list Z * list Z)
}.

(** ** Arrays *)

(** [m[:, o1:o2]]: an array built from no row has one dimension only, and
    the two-dimensional index raises. *)
Definition slice_columns (o1 o2 : option Z) (m : matrix) : result matrix :=
  match m with
  | [] => raise IndexError
  | _ => mret (List.map (py_slice o1 o2) m)
  end.

Definition hstack (a b : matrix) : result matrix :=
  if length a =? length b then mret (zip_with app a b)
  else raise ValueError.

(** [np.concatenate(ms, axis=1)]: at least one array is needed, and all
    must have the same number of rows. *)
Definition np_concatenate_axis1 (ms : list matrix) : result matrix :=
  match ms with
  | [] => raise ValueError
  | m :: ms' => fold_result hstack ms' m
  end.

(** [m.shape[1]]. *)
Definition width (m : matrix) : nat :=
  match m with
  | [] => 0
  | row :: _ => length row
  end.

(** [m[:, lo:hi]] for bounds that are not negative. *)
Definition column_block (lo hi : nat) (m : matrix) : matrix :=
  List.map (fun row => take (hi - lo) (drop lo row)) m.

(** [a[idx]] for a list of positions. *)
Definition take_rows {A} (a : list A) (idx : list nat) : result (list A) :=
  map_result
    (fun i => match a !! i with Some x => mret x | None => raise IndexError end)
    idx.

(** [l[i]]. *)
Definition list_getitem {A} (l : list A) (i : nat) : result A :=
  match l !! i with
  | Some x => mret x
  | None => raise IndexError
  end.

(** ** [get_split] *)

(** The value [get_split] documents. *)
Record split : Type := {
  split_locals : list (string * string);
  X_train : matrix;
  X_test : matrix;
  y_train : list Z;
  y_test : list Z
}.

(** [locals()] at the first statement of [get_split]: the parameters, in
    order. Iterating over the dictionary yields these names. *)
Definition get_split_locals : list string :=
  ["data"; "functional_group"; "which_XANES"; "min_fg_occurrence";
   "max_fg_occurrence"; "test_size"; "random_state"].

(** [key, value = s] for a string [s]: it must have exactly two
    characters. *)
Definition unpack_pair (s : string) : result (string * string) :=
  match s with
  | String a (String b EmptyString) =>
      mret (String a EmptyString, String b EmptyString)
  | _ => raise ValueError
  end.

(** Line 79: [{key: value for key, value in locals() if key != "data"}]. *)
Definition get_split_loc : result (list (string * string)) :=
  fold_result
    (fun loc item =>
       kv ← unpack_pair item;
       if decide (fst kv = "data") then mret loc
       else mret (dict_set (fst kv) (snd kv) loc))
    get_split_locals [].

Section GetSplit.
Context {RS : RandomState} {SK : Sklearn RS}.

Definition get_split (data : dataset) (functional_group : string)
  (which_XANES : list string) (min_fg_occurrence max_fg_occurrence : float)
  (test_size : float) (random_state : Z) : result (option split) :=
  loc ← get_split_loc;
  blocks ← map_result (map_getitem (ds_xanes data)) which_XANES;
  X ← np_concatenate_axis1 blocks;
  y ← dict_get functional_group (ds_FG data);
  let p_total := np_true_divide (sum_Z y) (Z.of_nat (length y)) in
  if negb (float_lt min_fg_occurrence p_total
           && float_lt p_total max_fg_occurrence)
  then mret None
  else
    parts ← train_test_split X y (float_of_ratio 10 100) random_state;
    let '(X_train, X_test, y_train, y_test) := parts in
    mret (Some {| split_locals := loc;
                  X_train := X_train; X_test := X_test;
                  y_train := y_train; y_test := y_test |}).
End GetSplit.

(** ** [Results.run_experiments] *)

(** The document [to_json] produces: the arguments of [__init__], among
    them the report. *)
Record report_document : Type := {
  doc_conditions : string;
  doc_xanes_data_name : string;
  doc_index_data_name : string;
  doc_offset_left : option Z;
  doc_offset_right : option Z;
  doc_test_size : float;
  doc_random_state : Z;
  doc_min_fg_occurrence : float;
  doc_max_fg_occurrence : float;
  doc_data_size : option Z;
  doc_data_loaded_from : option string;
  doc_report : gmap string experiment_record
}.

Definition to_json (self : Results) : report_document :=
  {| doc_conditions := _conditions self;
     doc_xanes_data_name := _xanes_data_name self;
     doc_index_data_name := _index_data_name self;
     doc_offset_left := _offset_left self;
     doc_offset_right := _offset_right self;
     doc_test_size := _test_size self;
     doc_random_state := _random_state self;
     doc_min_fg_occurrence := _min_fg_occurrence self;
     doc_max_fg_occurrence := _max_fg_occurrence self;
     doc_data_size := _data_size self;
     doc_data_loaded_from := _data_loaded_from self;
     doc_report := _report self |}.

(** How an iteration of the inner loop ends: it goes on to the next label
    ([continue], or the end of the body) or leaves the loop ([break]). *)
Inductive control : Type := Next | Break.

(** [self._report[ename][field] = value] on the two optional fields. *)
Definition with_feature_importance (v : list float * list float)
  (r : experiment_record) : experiment_record :=
  {| p_total := p_total r; p_train := p_train r; p_test := p_test r;
     test_accuracy := test_accuracy r;
     train_accuracy := train_accuracy r;
     test_balanced_accuracy := test_balanced_accuracy r;
     train_balanced_accuracy := train_balanced_accuracy r;
     feature_importance := Some v;
     permutation_feature_importance := permutation_feature_importance r |}.

Definition with_permutation_feature_importance (v : list float * list float)
  (r : experiment_record) : experiment_record :=
  {| p_total := p_total r; p_train := p_train r; p_test := p_test r;
     test_accuracy := test_accuracy r;
     train_accuracy := train_accuracy r;
     test_balanced_accuracy := test_balanced_accuracy r;
     train_balanced_accuracy := train_balanced_accuracy r;
     feature_importance := feature_importance r;
     permutation_feature_importance := Some v |}.

Section RunExperiments.
Context {RS : RandomState} {SK : Sklearn RS}.

(** What a run works on: the object, the local dictionary [models] and
    numpy's global generator. *)
Record run_state : Type := {
  rs_self : Results;
  rs_models : gmap string classifier;
  rs_rng : rng
}.

(** The two files a run writes. *)
Record saved_files : Type := {
  report_path : string;
  report_json : report_document;
  model_path : string;
  models_pkl : gmap string classifier
}.

Definition modify_self (f : Results -> Results) : stateful run_state unit :=
  fun st =>
    ({| rs_self := f (rs_self st); rs_models := rs_models st;
        rs_rng := rs_rng st |}, inr tt).

Definition set_models (m : gmap string classifier)
  : stateful run_state unit :=
  fun st =>
    ({| rs_self := rs_self st; rs_models := m; rs_rng := rs_rng st |},
     inr tt).

Definition with_rng {A} (m : stateful rng A) : stateful run_state A :=
  fun st =>
    let (g, r) := m (rs_rng st) in
    ({| rs_self := rs_self st; rs_models := rs_models st; rs_rng := g |},
     r).

(** [models[ename] = deepcopy(model)]. *)
Definition models_setitem (ename : string) (model : classifier)
  : stateful run_state unit :=
  st ← get_state; set_models (<[ename := model]> (rs_models st)).

(** [self._report[ename] = record]. *)
Definition report_setitem (ename : string) (r : experiment_record)
  : stateful run_state unit :=
  modify_self (fun self => set_report (<[ename := r]> (_report self)) self).

(** [self._report[ename][...] = ...]. *)
Definition report_update (ename : string)
  (f : experiment_record -> experiment_record) : stateful run_state unit :=
  st ← get_state;
  r ← lift (map_getitem (_report (rs_self st)) ename);
  report_setitem ename (f r).

(** [self.train_test_indexes]: computed at the first access, then kept. *)
Definition self_train_test_indexes
  : stateful run_state (list nat * list nat) :=
  st ← get_state;
  match cached_train_test_indexes (rs_self st) with
  | Some v => mret v
  | None =>
      v ← with_rng (train_test_indexes (rs_self st));
      _ ← modify_self (set_cached_train_test_indexes v);
      mret v
  end.

(** [get_data]: the two files of the input directory, already read. *)
Definition get_data (self : Results) (input : xanes_store * DataFrame)
  : result dataset :=
  get_dataset (fst input) (snd input) (_conditions self).

Definition xanes_keys_avail (self : Results) : list string :=
  List.filter has_xanes (py_split "," (_conditions self)).

Definition _get_xanes_data (self : Results) (data : dataset)
  : result (matrix * nat) :=
  let xanes_keys_avail := xanes_keys_avail self in
  let o1 := _offset_left self in
  let o2 := _offset_right self in
  blocks ←
    map_result
      (fun key => m ← map_getitem (ds_xanes data) key; slice_columns o1 o2 m)
      xanes_keys_avail;
  x ← np_concatenate_axis1 blocks;
  mret (x, length xanes_keys_avail).

(** Whether the occurrence of a label lies strictly between the two
    bounds (lines 333-336). *)
Definition occurrence (binary_targets : list Z) : float :=
  np_true_divide (sum_Z binary_targets)
                 (Z.of_nat (length binary_targets)).

Definition in_sweet_spot (self : Results) (binary_targets : list Z)
  : bool :=
  float_lt (_min_fg_occurrence self) (occurrence binary_targets)
  && float_lt (occurrence binary_targets) (_max_fg_occurrence self).

(** Line 329: [f"{current_conditions_name}-{fg_name}"]. *)
Definition experiment_name (current_conditions_name fg_name : string)
  : string :=
  String.append current_conditions_name (String.append "-" fg_name).

(** Lines 329-427: the body of the inner loop. *)
Definition experiment (train_indexes test_indexes : list nat)
  (current_conditions_name : string) (current_xanes_data : matrix)
  (output_data_directory : option string) (n_jobs debug : Z)
  (compute_feature_importance : bool)
  (ii : nat) (fg_name : string) (binary_targets : list Z)
  : stateful run_state control :=
  let ename := experiment_name current_conditions_name fg_name in
  st ← get_state;
  let self := rs_self st in
  let p_total := occurrence binary_targets in
  if negb (in_sweet_spot self binary_targets) then mret Next
  else
    x_train ← lift (take_rows current_xanes_data train_indexes);
    x_test ← lift (take_rows current_xanes_data test_indexes);
    y_train ← lift (take_rows binary_targets train_indexes);
    y_test ← lift (take_rows binary_targets test_indexes);
    let p_test := occurrence y_test in
    let p_train := occurrence y_train in
    model ← lift (rf_fit n_jobs (_random_state self) x_train y_train);
    _ ← match output_data_directory with
        | Some _ => models_setitem ename model
        | None => mret tt
        end;
    y_test_pred ← lift (rf_predict model x_test);
    y_train_pred ← lift (rf_predict model x_train);
    test_acc ← lift (accuracy_score y_test y_test_pred);
    train_acc ← lift (accuracy_score y_train y_train_pred);
    test_bal ← lift (balanced_accuracy_score y_test y_test_pred);
    train_bal ← lift (balanced_accuracy_score y_train y_train_pred);
    _ ← report_setitem ename
          {| p_total := p_total; p_train := p_train; p_test := p_test;
             test_accuracy := test_acc; train_accuracy := train_acc;
             test_balanced_accuracy := test_bal;
             train_balanced_accuracy := train_bal;
             feature_importance := None;
             permutation_feature_importance := None |};
    _ ← (if compute_feature_importance then
           f_importance ← lift (rf_feature_importances model);
           _ ← report_update ename (with_feature_importance f_importance);
           p_importance ←
             with_rng (permutation_importance model x_test y_test n_jobs);
           popped ← lift (bunch_pop "importances" p_importance);
           let p_importance := snd popped in
           mean ← lift (bunch_call "mean" p_importance);
           std ← lift (bunch_call "std" p_importance);
           report_update ename
             (with_permutation_feature_importance (mean, std))
         else mret tt);
    if ((0 <? debug) && (debug <=? Z.of_nat ii))%Z then mret Break
    else mret Next.

(** The inner loop, over [enumerate(data["FG"].items())]. *)
Fixpoint for_functional_groups
  (body : nat -> string -> list Z -> stateful run_state control)
  (items : list (nat * (string * list Z))) : stateful run_state unit :=
  match items with
  | [] => mret tt
  | (ii, (fg_name, binary_targets)) :: items' =>
      c ← body ii fg_name binary_targets;
      match c with
      | Next => for_functional_groups body items'
      | Break => mret tt
      end
  end.

Definition enumerate {A} (l : list A) : list (nat * A) :=
  zip (seq 0 (length l)) l.

(** Lines 313-427: one iteration of the outer loop. *)
Definition for_combo (data : dataset) (xanes_data : matrix) (ssl : nat)
  (train_indexes test_indexes : list nat) (conditions_list : list string)
  (output_data_directory : option string) (n_jobs debug : Z)
  (compute_feature_importance : bool) (combo : list nat)
  : stateful run_state unit :=
  names ← lift (map_result (list_getitem conditions_list) combo);
  let current_conditions_name := py_join "_" names in
  current_xanes_data ←
    lift (np_concatenate_axis1
            (List.map
               (fun ii => column_block (ssl * ii) (ssl * (ii + 1)) xanes_data)
               combo));
  for_functional_groups
    (experiment train_indexes test_indexes current_conditions_name
       current_xanes_data output_data_directory n_jobs debug
       compute_feature_importance)
    (enumerate (ds_FG data)).

Fixpoint for_each {A} (body : A -> stateful run_state unit) (l : list A)
  : stateful run_state unit :=
  match l with
  | [] => mret tt
  | a :: l' => _ ← body a; for_each body l'
  end.

(** [a // b] on integers that are not negative. *)
Definition floor_div (a b : nat) : result nat :=
  if b =? 0 then raise ZeroDivisionError else mret (a / b).

Definition base_name (self : Results) : string :=
  py_replace "," "_" (_conditions self).

Definition run_experiments_body (input_data : xanes_store * DataFrame)
  (output_data_directory : option string) (n_jobs debug : Z)
  (compute_feature_importance : bool)
  : stateful run_state (option saved_files) :=
  st ← get_state;
  let self := rs_self st in
  data ← lift (get_data self input_data);
  xn ← lift (_get_xanes_data self data);
  let xanes_data := fst xn in
  let n_xanes_types := snd xn in
  _ ← modify_self (set_data_size (Z.of_nat (length xanes_data)));
  ssl ← lift (floor_div (width xanes_data) n_xanes_types);
  indexes ← self_train_test_indexes;
  let train_indexes := fst indexes in
  let test_indexes := snd indexes in
  let base_name := base_name self in
  let xanes_index_combinations := get_all_combinations n_xanes_types in
  let conditions_list := py_split "_" base_name in
  _ ← set_models ∅;
  _ ← for_each
        (for_combo data xanes_data ssl train_indexes test_indexes
           conditions_list output_data_directory n_jobs debug
           compute_feature_importance)
        xanes_index_combinations;
  match output_data_directory with
  | None => mret None
  | Some root =>
      st ← get_state;
      mret (Some {| report_path :=
                      String.append root
                        (String.append "/" (String.append base_name ".json"));
                    report_json := to_json (rs_self st);
                    model_path :=
                      String.append root
                        (String.append "/"
                           (String.append base_name "_models.pkl"));
                    models_pkl := rs_models st |})
  end.

(** A call of [run_experiments] on the object [self], with the global
    generator in state [g]: the state it leaves and the files it wrote,
    or the exception that ended it. *)
Definition run_experiments (self : Results) (g : rng)
  (input_data : xanes_store * DataFrame)
  (output_data_directory : option string) (n_jobs debug : Z)
  (compute_feature_importance : bool)
  : run_state * result (option saved_files) :=
  run_experiments_body input_data output_data_directory n_jobs debug
    compute_feature_importance
    {| rs_self := self; rs_models := ∅; rs_rng := g |}.
End RunExperiments.

(** ** [Results.get_train_test_split] *)

(** [l.index(x)]: the first position of [x]; a missing value raises. *)
Fixpoint list_index (l : list string) (x : string) : result nat :=
  match l with
  | [] => raise ValueError
  | y :: l' =>
      if decide (y = x) then mret 0 else i ← list_index l' x; mret (S i)
  end.

(** The dictionary [get_train_test_split] returns, by its keys. *)
Module TrainTestSplit.
Record t : Type := {
  x_train : matrix;
  x_test : matrix;
  y_train : list (string * list Z);
  y_test : list (string * list Z);
  unique_functional_groups : list string
}.
End TrainTestSplit.

(** [{key: functional_groups[key][idx] for key in keys}]. *)
Definition index_groups (functional_groups : list (string * list Z))
  (idx : list nat) : result (list (string * list Z)) :=
  fold_result
    (fun d key =>
       col ← dict_get key functional_groups;
       v ← take_rows col idx;
       mret (dict_set key v d))
    (List.map fst functional_groups) [].

Section GetTrainTestSplit.
Context {RS : RandomState} {SK : Sklearn RS}.

(** Lines 181-229. The method reads the cached split of the object, so it
    runs on the same state as [run_experiments]. *)
Definition get_train_test_split (data : dataset) (xanes : string)
  : stateful run_state TrainTestSplit.t :=
  st ← get_state;
  let self := rs_self st in
  let xanes :=
    List.map (fun xx => String.append xx "-XANES") (py_split "," xanes) in
  let conditions := py_split "," (_conditions self) in
  _ ← lift (py_assert
              (bool_decide ((list_to_set xanes : gset string)
                              ⊆ list_to_set conditions)));
  indexes ← lift (map_result (list_index conditions) xanes);
  idx ← self_train_test_indexes;
  let train_idx := fst idx in
  let test_idx := snd idx in
  xn ← lift (_get_xanes_data self data);
  let xanes_data := fst xn in
  let n_xanes_types := snd xn in
  ssl ← lift (floor_div (width xanes_data) n_xanes_types);
  current_xanes_data ←
    lift (np_concatenate_axis1
            (List.map
               (fun ii => column_block (ssl * ii) (ssl * (ii + 1)) xanes_data)
               indexes));
  xanes_data_train ← lift (take_rows current_xanes_data train_idx);
  xanes_data_test ← lift (take_rows current_xanes_data test_idx);
  let functional_groups := ds_FG data in
  train_fg ← lift (index_groups functional_groups train_idx);
  test_fg ← lift (index_groups functional_groups test_idx);
  mret {| TrainTestSplit.x_train := xanes_data_train;
          TrainTestSplit.x_test := xanes_data_test;
          TrainTestSplit.y_train := train_fg;
          TrainTestSplit.y_test := test_fg;
          TrainTestSplit.unique_functional_groups :=
            List.map fst functional_groups |}.
End GetTrainTestSplit.

(** ** [Results.from_file] *)

Definition set_data_loaded_from (v : option string) (self : Results)
  : Results :=
  {| _conditions := _conditions self;
     _xanes_data_name := _xanes_data_name self;
     _index_data_name := _index_data_name self;
     _offset_left := _offset_left self;
     _offset_right := _offset_right self;
     _test_size := _test_size self;
     _random_state := _random_state self;
     _min_fg_occurrence := _min_fg_occurrence self;
     _max_fg_occurrence := _max_fg_occurrence self;
     _data_size := _data_size self;
     _data_loaded_from := v;
     _report := _report self;
     cached_train_test_indexes := cached_train_test_indexes self |}.

(** Lines 108-114, on the document the file holds: [from_dict] calls
    [__init__] with the entries of the document as keyword arguments, then
    the directory of the file, [parent], is recorded. *)
Definition from_file (doc : report_document) (parent : string) : Results :=
  let klass :=
    Results_init (doc_conditions doc) (doc_xanes_data_name doc)
      (doc_index_data_name doc) (doc_offset_left doc) (doc_offset_right doc)
      (doc_test_size doc) (doc_random_state doc) (doc_min_fg_occurrence doc)
      (doc_max_fg_occurrence doc) (doc_data_size doc)
      (doc_data_loaded_from doc) (Some (doc_report doc)) in
  set_data_loaded_from (Some parent) klass.

(** ** [validate] *)

(** [s.split(sep)] for a separator of one or more characters: the text is
    cut at the occurrences of [sep] found from left to right, an occurrence
    starting where the previous one ended at the earliest. [skip] counts the
    characters of an occurrence still to pass over. *)
Fixpoint split_str_aux (sep : string) (skip : nat) (s : string)
  : list string :=
  match s with
  | EmptyString => [EmptyString]
  | String c s' =>
      match skip with
      | S k => split_str_aux sep k s'
      | O =>
          if String.prefix sep s
          then EmptyString :: split_str_aux sep (String.length sep - 1) s'
          else
            match split_str_aux sep 0 s' with
            | [] => [String c EmptyString]
            | w :: ws => String c w :: ws
            end
      end
  end.

Definition py_split_str (sep s : string) : list string :=
  split_str_aux sep 0 s.

(** [s.replace(a, "")] for a one-character [a]. *)
Fixpoint py_remove (a : ascii) (s : string) : string :=
  match s with
  | EmptyString => EmptyString
  | String c s' =>
      if Ascii.eqb c a then py_remove a s' else String c (py_remove a s')
  end.

(** Lines 471-473: the modality tags read off a key of the model store. *)
Definition validate_xanes_keys (key : string) : list string :=
  let xk := removelast (py_split_str "XANES" key) in
  let xk := List.map (fun xx => py_remove "_" (py_remove "-" xx)) xk in
  List.map (fun xx => String.append xx "-XANES") xk.

(** Line 485: [key.split("XANES-")[-1]]. *)
Definition validate_fg (key : string) : string :=
  List.last (py_split_str "XANES-" key) EmptyString.

Definition is_finite (x : float) : bool :=
  match x with
  | S754_zero _ | S754_finite _ _ _ => true
  | S754_infinity _ | S754_nan => false
  end.

(** [np.allclose(a, b)] on two floats, with the default tolerances
    [rtol = 1e-05] and [atol = 1e-08]: two finite values are close when
    [abs(a - b) <= atol + rtol * abs(b)]; otherwise they must be equal, and
    [nan] is close to nothing. *)
Definition np_allclose (a b : float) : bool :=
  if is_finite a && is_finite b then
    SFleb (SFabs (SFsub prec emax a b))
          (SFadd prec emax (float_of_ratio 1 100000000)
             (float_mul (float_of_ratio 1 100000) (SFabs b)))
  else SFeqb a b.

Section Validate.
Context {RS : RandomState} {SK : Sklearn RS}.

(** Lines 469-491: the body of the loop over the stored models. *)
Definition validate_model (results : Results) (data : dataset)
  (test_idx : list nat) (key : string) (model : classifier) : result unit :=
  let xk := validate_xanes_keys key in
  let o1 := _offset_left results in
  let o2 := _offset_right results in
  blocks ←
    map_result
      (fun key => m ← map_getitem (ds_xanes data) key; slice_columns o1 o2 m)
      xk;
  X ← np_concatenate_axis1 blocks;
  x_test ← take_rows X test_idx;
  preds ← rf_predict model x_test;
  let fg := validate_fg key in
  col ← dict_get fg (ds_FG data);
  targets ← take_rows col test_idx;
  balanced_acc ← balanced_accuracy_score targets preds;
  r ← map_getitem (_report results) key;
  let previous_balanced_acc := test_balanced_accuracy r in
  py_assert (np_allclose balanced_acc previous_balanced_acc).

(** Lines 461-491 of [validate], on what the two files held: the object
    [from_file] built is the [rs_self] of the state, [models] is the value
    of [results.models], a dictionary in the order in which it was
    written. *)
Definition validate (input_data : xanes_store * DataFrame)
  (models : list (string * classifier)) : stateful run_state unit :=
  st ← get_state;
  let results := rs_self st in
  data ← lift (get_dataset (fst input_data) (snd input_data)
                 (_conditions results));
  idx ← self_train_test_indexes;
  let test_idx := snd idx in
  lift (fold_result
          (fun _ km =>
             validate_model results data test_idx (fst km) (snd km))
          models tt).
End Validate.

(** * Vocabulary of the properties *)

(** The lexicographic order of tuples of positions. *)
Inductive lex_lt : list nat -> list nat -> Prop :=
  | lex_lt_nil y ys : lex_lt [] (y :: ys)
  | lex_lt_head x y xs ys : x < y -> lex_lt (x :: xs) (y :: ys)
  | lex_lt_tail x xs ys : lex_lt xs ys -> lex_lt (x :: xs) (x :: ys).

(** Shorter combinations first; among those of one length, the
    lexicographic order. *)
Definition combo_lt (c1 c2 : list nat) : Prop :=
  length c1 < length c2 \/ (length c1 = length c2 /\ lex_lt c1 c2).




(** An indicator column: integers, each 0 or 1. *)
Definition indicator_column (nc : string * column) : Prop :=
  exists l, snd nc = ColInt l /\ Forall (fun x => x = 0 \/ x = 1)%Z l.

Definition well_formed (index : DataFrame) : Prop :=
  NoDup (List.map fst index) /\ Forall indicator_column (drop 7 index).

(** The columns with a positive sum, in their order. *)
Fixpoint kept_groups (cols : DataFrame) : list (string * list Z) :=
  match cols with
  | [] => []
  | (name, c) :: cols' =>
      (if (0 <? sum_Z (col_ints c))%Z then [(name, col_ints c)] else [])
      ++ kept_groups cols'
  end.

(** The keys of a dictionary, sorted. *)
Definition keys {V} (d : gmap string V) : list string :=
  sorted_str (List.map fst (map_to_list d)).

Section RunVocabulary.
Context {RS : RandomState} {SK : Sklearn RS}.

Definition put_report (r : gmap string experiment_record) (st : run_state)
  : run_state :=
  {| rs_self := set_report r (rs_self st); rs_models := rs_models st;
     rs_rng := rs_rng st |}.

Definition put_models (m : gmap string classifier) (st : run_state)
  : run_state :=
  {| rs_self := rs_self st; rs_models := m; rs_rng := rs_rng st |}.



(** The keys of the report are those it had at the start of the run together
    with those of [models]. *)
Definition reconciled (R0 : gmap string experiment_record) (st : run_state)
  : Prop :=
  dom (_report (rs_self st)) = dom R0 ∪ dom (rs_models st).

(** The files a call wrote, if it returned and wrote any. *)
Definition written_files (outcome : run_state * result (option saved_files))
  : option saved_files :=
  match snd outcome with
  | inr files => files
  | inl _ => None
  end.
End RunVocabulary.

(** The number of combinations of the lengths [0, ..., m]. *)
Fixpoint count_upto {A} (pool : list A) (m : nat) : nat :=
  match m with
  | 0 => length (combinations pool 0)
  | S m' => count_upto pool m' + length (combinations pool m)
  end.

(** The character [c] occurs in [s]. *)
Fixpoint has_char (c : ascii) (s : string) : bool :=
  match s with
  | EmptyString => false
  | String c' s' => Ascii.eqb c' c || has_char c s'
  end.

(** A token read as lines 73-76 read it: the column it names and the value
    it asks for. The empty token has no first character. *)
Definition condition_test (condition : string) : result (string * Z) :=
  match condition with
  | EmptyString => raise IndexError
  | String c rest =>
      if negb (Ascii.eqb "!" c) then mret (condition, 1%Z) else mret (rest, 0%Z)
  end.

(** The rows of [index] on which a token holds, as a mask. *)
Definition condition_mask (index : DataFrame) (condition : string)
  : result (list bool) :=
  t ← condition_test condition;
  col ← df_getitem index (fst t);
  mret (eq_mask col (snd t)).

Definition col_length (c : column) : nat :=
  match c with
  | ColStr l => length l
  | ColInt l => length l
  end.

(** A table of [n] rows: every column has [n] cells. *)
Definition has_rows (n : nat) (index : DataFrame) : Prop :=
  Forall (fun nc => col_length (snd nc) = n) index.

(** A token the table can evaluate: it is not empty and the column it names
    is there. *)
Definition evaluable (index : DataFrame) (condition : string) : Prop :=
  exists t, condition_test condition = inr t /\ fst t ∈ List.map fst index.

(** The keys under which [get_dataset] stores spectra and grids (line
    81). *)
Definition xanes_conditions (conditions : string) : list string :=
  List.filter has_xanes (expand_conditions conditions).

(** The rows of an array have one length: what [np.array] needs of a list
    of lists to give a two-dimensional array. *)
Definition rectangular (m : matrix) : bool :=
  match m with
  | [] => true
  | row :: rows => forallb (fun r => length r =? length row) rows
  end.

(** An array of [n] rows and [w] columns. *)
Definition has_shape (n w : nat) (m : matrix) : Prop :=
  length m = n /\ Forall (fun row => length row = w) m.

(** The attributes of an object that a run reads and never writes. *)
Definition same_settings (a b : Results) : Prop :=
  _conditions a = _conditions b
  /\ _offset_left a = _offset_left b
  /\ _offset_right a = _offset_right b
  /\ _test_size a = _test_size b
  /\ _random_state a = _random_state b
  /\ _min_fg_occurrence a = _min_fg_occurrence b
  /\ _max_fg_occurrence a = _max_fg_occurrence b.

(** The key [k] names an experiment of a run of [self] on [data]: a
    combination of the enumerator, the name built from it, and a functional
    group of the dataset in the sweet spot. *)
Definition trained_pair (self : Results) (data : dataset) (k : string)
  : Prop :=
  exists combo names fg targets,
    combo ∈ get_all_combinations (length (xanes_keys_avail self))
    /\ map_result (list_getitem (py_split "_" (base_name self))) combo
       = inr names
    /\ (fg, targets) ∈ ds_FG data
    /\ in_sweet_spot self targets = true
    /\ k = experiment_name (py_join "_" names) fg.

(** How the body of the inner loop ends when it completes (lines 428-431):
    it leaves the loop on a label in the sweet spot whose position is at
    least a positive [debug]. *)
Definition control_of (self : Results) (debug : Z) (ii : nat)
  (targets : list Z) : control :=
  if in_sweet_spot self targets && (0 <? debug)%Z && (debug <=? Z.of_nat ii)%Z
  then Break else Next.

(** The labels the inner loop examines under [debug]: all up to and
    including the first on which the body leaves the loop. *)
Fixpoint debug_cut (self : Results) (debug : Z)
  (items : list (nat * (string * list Z))) : list (nat * (string * list Z)) :=
  match items with
  | [] => []
  | (ii, (fg_name, targets)) :: items' =>
      (ii, (fg_name, targets))
      :: match control_of self debug ii targets with
         | Break => []
         | Next => debug_cut self debug items'
         end
  end.

(** A modality tag that the decoding of [validate] reads back: it has no
    ["X"], no hyphen and no underscore. *)
Definition plain_tag (t : string) : Prop :=
  has_char "X" t = false /\ has_char "-" t = false /\ has_char "_" t = false.

(** The key under which [run_experiments] records the functional group
    [fg] for the modalities [tags] (lines 313-315 and 329). *)
Definition key_of (tags : list string) (fg : string) : string :=
  experiment_name
    (py_join "_" (List.map (fun t => String.append t "-XANES") tags)) fg.

(** [math.floor(x)], the [floor] of the specification: the greatest integer
    not above [x]; [nan] and the infinities have none. *)
Definition math_floor (x : float) : result Z :=
  match x with
  | S754_zero _ => mret 0%Z
  | S754_infinity _ => raise OverflowError
  | S754_nan => raise ValueError
  | S754_finite s m e =>
      let v := (if s then Z.neg m else Z.pos m) in
      mret (if 0 <=? e then v * 2 ^ e else v / 2 ^ (- e))%Z
  end.

(** A float that is not negative: [0.0 <= x], which [nan] is not. *)
Definition not_negative (x : float) : bool := SFleb (S754_zero false) x.


(** The rows on which all the masks hold, of a table of [n] rows. *)
Definition all_hold (masks : list (list bool)) (n : nat) : list bool :=
  fold_left (zip_with andb) masks (repeat true n).

Section RunInvariants.
Context {RS : RandomState} {SK : Sklearn RS}.

(** What the run has added so far is of the run. *)
Definition run_sound (self : Results) (data : dataset) (st : run_state)
  : Prop :=
  same_settings (rs_self st) self
  /\ forall k,
       _report (rs_self st) !! k <> _report self !! k
       \/ k ∈ dom (rs_models st) ->
       trained_pair self data k.

(** The report and the model store only gain keys. *)
Definition run_grows (st st' : run_state) : Prop :=
  same_settings (rs_self st') (rs_self st)
  /\ dom (_report (rs_self st)) ⊆ dom (_report (rs_self st'))
  /\ dom (rs_models st) ⊆ dom (rs_models st').

(** The entry [r] holds the score of [model] under [key]: the key names the
    modalities at the positions [combo] and a label [fg] of the dataset, and
    the predictions of the model on the test rows of the features of these
    modalities have, against the test rows of the label, the test balanced
    accuracy of the entry. *)
Definition scored (data : dataset) (xanes_data : matrix) (ssl : nat)
  (test_indexes : list nat) (conditions_list : list string)
  (key : string) (model : classifier) (r : experiment_record) : Prop :=
  exists combo names fg targets current x_test y_test preds,
    map_result (list_getitem conditions_list) combo = inr names
    /\ np_concatenate_axis1
         (List.map
            (fun ii => column_block (ssl * ii) (ssl * (ii + 1)) xanes_data)
            combo) = inr current
    /\ (fg, targets) ∈ ds_FG data
    /\ key = experiment_name (py_join "_" names) fg
    /\ take_rows current test_indexes = inr x_test
    /\ take_rows targets test_indexes = inr y_test
    /\ rf_predict model x_test = inr preds
    /\ balanced_accuracy_score y_test preds
       = inr (test_balanced_accuracy r).

(** Every model of the store has its score in the report. *)
Definition models_scored (data : dataset) (xanes_data : matrix) (ssl : nat)
  (test_indexes : list nat) (conditions_list : list string)
  (st : run_state) : Prop :=
  forall key model,
    rs_models st !! key = Some model ->
    exists r,
      _report (rs_self st) !! key = Some r
      /\ scored data xanes_data ssl test_indexes conditions_list key model r.

End RunInvariants.

(** * Stand-ins for the collaborators

    A generator and a classifier simple enough to run, used where a
    property is shown on a concrete run. *)

(** The state is a counter; [permutation(n)] is the range rotated by the
    counter. *)
Definition rot_permutation (n : nat) (g : Z) : list nat * Z :=
  (rotate (Z.to_nat g) (seq 0 n), (g + 1)%Z).

Lemma rot_permutation_Permutation n g :
  Permutation (fst (rot_permutation n g)) (seq 0 n).
Proof.
  unfold rot_permutation, rotate. simpl.
  rewrite Permutation_app_comm. by rewrite take_drop.
Qed.

Definition rot_generator : RandomState :=
  {| rng := Z;
     mt_seed := fun seed => seed;
     mt_permutation := rot_permutation;
     mt_permutation_Permutation := rot_permutation_Permutation |}.

(** The fraction of positions at which two lists of labels agree. *)
Definition agreement (y y_pred : list Z) : float :=
  np_true_divide
    (Z.of_nat (length (List.filter (fun p => Z.eqb (fst p) (snd p))
                                   (zip y y_pred))))
    (Z.of_nat (length y)).

(** A classifier that predicts, for every row, whether more than half of
    the training labels were 1. *)
Definition majority_classifier : Sklearn rot_generator :=
  @Build_Sklearn rot_generator Z
    (fun _ _ _ y =>
       match y with
       | [] => raise ValueError
       | _ => mret (if (Z.of_nat (length y) <? 2 * sum_Z y)%Z then 1 else 0)%Z
       end)
    (fun model X => mret (List.map (fun _ => model) X))
    (fun y y_pred => mret (agreement y y_pred))
    (fun y y_pred => mret (agreement y y_pred))
    (fun _ => mret ([], []))
    (fun _ _ _ _ (g : Z) =>
       ((g + 1)%Z,
        inr (<["importances_mean" := []]>
               (<["importances_std" := []]>
                  (<["importances" := []]> (∅ : bunch))))))
    (fun X y _ _ => mret (drop 1 X, take 1 X, drop 1 y, take 1 y)).

(** ** Example data *)

Definition example_spectrum (a b : Z) : list float :=
  [float_of_ratio a 1; float_of_ratio b 1].

(** Five molecules; the last two have no carbon spectrum. *)
Definition example_store : xanes_store :=
  {| xs_data :=
       <["m0" := <["C-XANES" := example_spectrum 1 2]>
                   (<["O-XANES" := example_spectrum 2 1]> ∅)]>
       (<["m1" := <["C-XANES" := example_spectrum 3 4]>
                    (<["O-XANES" := example_spectrum 4 3]> ∅)]>
       (<["m2" := <["C-XANES" := example_spectrum 5 6]>
                    (<["O-XANES" := example_spectrum 6 5]> ∅)]>
       (<["m3" := <["O-XANES" := example_spectrum 8 7]> ∅]>
       (<["m4" := <["O-XANES" := example_spectrum 9 9]> ∅]> ∅))));
     xs_grids := <["C" := example_spectrum 280 290]>
                 (<["O" := example_spectrum 530 540]> ∅) |}.

Definition example_index : DataFrame :=
  [("SMILES", ColStr ["m0"; "m1"; "m2"; "m3"; "m4"]);
   ("C", ColInt [1; 1; 1; 1; 0]%Z);
   ("N", ColInt [0; 0; 1; 0; 0]%Z);
   ("O", ColInt [1; 1; 1; 1; 1]%Z);
   ("C-XANES", ColInt [1; 1; 1; 0; 0]%Z);
   ("N-XANES", ColInt [0; 0; 0; 0; 0]%Z);
   ("O-XANES", ColInt [1; 1; 1; 1; 1]%Z);
   ("FG1", ColInt [1; 0; 1; 0; 0]%Z);
   ("FG2", ColInt [0; 1; 1; 0; 1]%Z);
   ("FG3", ColInt [0; 0; 0; 0; 0]%Z);
   ("FG4", ColInt [1; 0; 0; 1; 0]%Z)].

Definition example_record : experiment_record :=
  {| p_total := float_of_ratio 1 2; p_train := float_of_ratio 1 2;
     p_test := float_of_ratio 1 2; test_accuracy := float_of_ratio 1 1;
     train_accuracy := float_of_ratio 1 1;
     test_balanced_accuracy := float_of_ratio 1 1;
     train_balanced_accuracy := float_of_ratio 1 1;
     feature_importance := None; permutation_feature_importance := None |}.

(** An object with the default settings, apart from the sizes, seed and
    fraction under study. *)
Definition results_of (conditions : string) (test_size : float)
  (random_state : Z) (data_size : option Z) : Results :=
  Results_init conditions "221205_xanes.pkl" "221205_index.csv" None None
    test_size random_state (float_of_ratio 2 100) (float_of_ratio 98 100)
    data_size None None.

(** [Results(conditions, report=report).run_experiments(
      output_data_directory="out", debug=debug,
      compute_feature_importance=False)] on the example data. *)
Definition example_run (conditions : string)
  (report : option (gmap string experiment_record)) (debug : Z)
  : run_state * result (option saved_files) :=
  @run_experiments rot_generator majority_classifier
    (Results_init conditions "221205_xanes.pkl" "221205_index.csv" None None
       (float_of_ratio 6 10) 42 (float_of_ratio 2 100) (float_of_ratio 98 100)
       None None report)
    0%Z (example_store, example_index) (Some "out") 2 debug false.

(** An object whose sweet spot, between 0.9 and 0.98, holds no label of the
    example. *)
Definition example_narrow : Results :=
  Results_init "C-XANES" "221205_xanes.pkl" "221205_index.csv" None None
    (float_of_ratio 6 10) 42 (float_of_ratio 90 100) (float_of_ratio 98 100)
    None None None.

(** The state in which a call on [self] starts: no model yet, the generator
    as the stand-in has it at first. *)
Definition example_state (self : Results)
  : @run_state rot_generator majority_classifier :=
  @Build_run_state rot_generator majority_classifier self ∅ 0%Z.

(** * Properties *)

(** ** Results and loops *)

Lemma bind_inr {A B} (m : result A) (k : A -> result B) (b : B) :
  m ≫= k = inr b <-> exists a, m = inr a /\ k a = inr b.
Proof.
  destruct m as [e|a]; simpl; split.
  - intros [=].
  - by intros (a & [=] & _).
  - eauto.
  - by intros (a' & [= <-] & ?).
Qed.

Lemma fold_result_app {A S} (f : S -> A -> result S) l1 l2 s :
  fold_result f (l1 ++ l2) s = fold_result f l1 s ≫= fold_result f l2.
Proof.
  revert s. induction l1 as [|a l1 IH]; intros s; simpl; [done|].
  destruct (f s a) as [e|s']; simpl; [done | apply IH].
Qed.

Lemma fold_result_invariant {A S} (f : S -> A -> result S) (P : S -> Prop) l s s' :
  (forall s a s', a ∈ l -> P s -> f s a = inr s' -> P s') ->
  P s -> fold_result f l s = inr s' -> P s'.
Proof.
  revert s. induction l as [|a l IH]; intros s Hf Hs; simpl.
  - by intros [= <-].
  - intros (s1 & H1 & H2)%bind_inr. eapply IH; [|eapply Hf; [left|..]|]; eauto.
    intros ????. apply Hf. by right.
Qed.

(** ** The combination enumerator *)

Lemma fold_left_extend {A B} (f : B -> list A) (l : list B) (init : list A) :
  fold_left (fun combos nn => combos ++ f nn) l init
  = init ++ concat (List.map f l).
Proof.
  revert init. induction l as [|b l IH]; intros init; simpl.
  - by rewrite app_nil_r.
  - by rewrite IH, app_assoc.
Qed.

Lemma get_all_combinations_concat n :
  get_all_combinations n
  = concat (List.map (fun nn => combinations (seq 0 n) (nn + 1)) (seq 0 n)).
Proof.
  unfold get_all_combinations. rewrite fold_left_extend. simpl.
  by rewrite length_seq.
Qed.

Lemma elem_of_map_cons {A} (x : A) (c : list A) (l : list (list A)) :
  c ∈ List.map (cons x) l <-> exists c', c = x :: c' /\ c' ∈ l.
Proof.
  rewrite list_elem_of_In, in_map_iff. split.
  - intros (c' & <- & Hin). exists c'. by rewrite list_elem_of_In.
  - intros (c' & -> & Hin). exists c'. by rewrite <- list_elem_of_In.
Qed.

Lemma elem_of_combinations {A} (pool : list A) (r : nat) (c : list A) :
  c ∈ combinations pool r <-> c `sublist_of` pool /\ length c = r.
Proof.
  revert r c. induction pool as [|x pool IH]; intros [|r] c; simpl.
  - rewrite list_elem_of_singleton, sublist_nil_r.
    split; [by intros -> | by intros [-> _]].
  - rewrite elem_of_nil, sublist_nil_r. split; [done | by intros [-> ?]].
  - rewrite list_elem_of_singleton. split.
    + intros ->. split; [apply sublist_nil_l | done].
    + intros [_ Hlen]. by apply nil_length_inv.
  - rewrite elem_of_app, elem_of_map_cons, sublist_cons_r.
    setoid_rewrite IH. split.
    + intros [(c' & -> & Hsub & Hlen) | [Hsub Hlen]].
      * split; [right; eauto | simpl; lia].
      * split; [by left | done].
    + intros [[Hsub | (c' & -> & Hsub)] Hlen].
      * right. done.
      * left. exists c'. simpl in Hlen. split_and!; [done | done | lia].
Qed.

Lemma sublist_seq (c : list nat) (a n : nat) :
  c `sublist_of` seq a n
  <-> StronglySorted lt c /\ Forall (fun i => a <= i < a + n) c.
Proof.
  revert a c. induction n as [|n IH]; intros a c; simpl.
  - rewrite sublist_nil_r. split.
    + intros ->. split; constructor.
    + intros [_ Hall]. destruct c as [|y c]; [done|].
      apply Forall_cons in Hall as [? _]. lia.
  - rewrite sublist_cons_r. setoid_rewrite IH. split.
    + intros [[Hs Hall] | (c' & -> & Hs & Hall)].
      * split; [done|]. eapply Forall_impl; [exact Hall|]. simpl. lia.
      * split.
        -- constructor; [done|]. eapply Forall_impl; [exact Hall|]. simpl. lia.
        -- constructor; [lia|]. eapply Forall_impl; [exact Hall|]. simpl. lia.
    + intros [Hs Hall]. destruct c as [|y c].
      { left. split; constructor. }
      apply StronglySorted_inv in Hs as [Hs Hlt].
      apply Forall_cons in Hall as [Hy Hall].
      destruct (decide (y = a)) as [->|Hne].
      * right. exists c. split_and!; [done | done |].
        apply Forall_forall. intros i Hi.
        rewrite Forall_forall in Hlt, Hall.
        specialize (Hlt i Hi). specialize (Hall i Hi). lia.
      * left. split.
        -- constructor; done.
        -- constructor; [lia|]. apply Forall_forall. intros i Hi.
           rewrite Forall_forall in Hlt, Hall.
           specialize (Hlt i Hi). specialize (Hall i Hi). lia.
Qed.

Lemma StronglySorted_map_cons (x : nat) (l : list (list nat)) :
  StronglySorted lex_lt l -> StronglySorted lex_lt (List.map (cons x) l).
Proof.
  induction 1 as [|c l Hs IH Hall]; simpl; constructor; [done|].
  apply Forall_forall. intros c' Hc'.
  apply elem_of_map_cons in Hc' as (c'' & -> & Hin).
  apply lex_lt_tail. rewrite Forall_forall in Hall. by apply Hall.
Qed.

Lemma combinations_sorted (pool : list nat) (r : nat) :
  StronglySorted lt pool -> StronglySorted lex_lt (combinations pool r).
Proof.
  intros Hpool. revert r.
  induction Hpool as [|x pool Hs IH Hall]; intros [|r]; simpl.
  - repeat constructor.
  - constructor.
  - repeat constructor.
  - apply StronglySorted_app_2.
    + intros c1 c2 Hc1 Hc2.
      apply elem_of_map_cons in Hc1 as (c' & -> & _).
      apply elem_of_combinations in Hc2 as [Hsub Hlen].
      destruct c2 as [|y c2]; [done|].
      apply lex_lt_head. rewrite Forall_forall in Hall. apply Hall.
      eapply sublist_subseteq; [exact Hsub|]. left.
    + apply StronglySorted_map_cons, IH.
    + apply IH.
Qed.

Lemma StronglySorted_weaken {A} (R R' : relation A) (l : list A) :
  (forall x y, x ∈ l -> y ∈ l -> R x y -> R' x y) ->
  StronglySorted R l -> StronglySorted R' l.
Proof.
  intros HR Hs. induction Hs as [|x l Hs IH Hall]; constructor.
  - apply IH. intros y z Hy Hz. apply HR; by right.
  - apply Forall_forall. intros y Hy. rewrite Forall_forall in Hall.
    apply HR; [left | by right | by apply Hall].
Qed.

Lemma combinations_by_length_sorted (pool : list nat) (ks : list nat) :
  StronglySorted lt pool -> StronglySorted lt ks ->
  StronglySorted combo_lt
    (concat (List.map (fun k => combinations pool k) ks)).
Proof.
  intros Hpool Hks. induction Hks as [|k ks Hs IH Hall]; simpl.
  - constructor.
  - apply StronglySorted_app_2; [| |exact IH].
    2:{ eapply StronglySorted_weaken; [|by apply combinations_sorted].
      intros c1 c2 Hc1 Hc2 Hlex. right. split; [|done].
      apply elem_of_combinations in Hc1 as [_ ->].
      by apply elem_of_combinations in Hc2 as [_ ->]. }
    intros c1 c2 Hc1 Hc2. left.
      apply elem_of_combinations in Hc1 as [_ ->].
      apply list_elem_of_In, in_concat in Hc2 as (cs & Hcs & Hc2).
      apply in_map_iff in Hcs as (k' & <- & Hk').
      apply list_elem_of_In, elem_of_combinations in Hc2 as [_ ->].
      rewrite Forall_forall in Hall. apply Hall. by apply list_elem_of_In.
Qed.

Lemma seq_StronglySorted a n : StronglySorted lt (seq a n).
Proof.
  revert a. induction n as [|n IH]; intros a; simpl; constructor; [done|].
  apply Forall_forall. intros i Hi. apply list_elem_of_In, in_seq in Hi. lia.
Qed.

(** C3. For every [n], [get_all_combinations n] holds exactly the non-empty
    combinations of the positions [0, ..., n-1]: a list is in it if and only
    if it is strictly increasing, has between 1 and [n] entries and all its
    entries are below [n]. The result is strictly ascending in the order
    "shorter first, then lexicographic", so each combination occurs once and
    the order is the one stated. For [n = 3] it is the seven tuples
    (0,), (1,), (2,), (0,1), (0,2), (1,2), (0,1,2). *)
Theorem get_all_combinations_spec (n : nat) :
  (forall c : list nat,
      c ∈ get_all_combinations n
      <-> 1 <= length c <= n /\ StronglySorted lt c /\ Forall (fun i => i < n) c)
  /\ StronglySorted combo_lt (get_all_combinations n)
  /\ get_all_combinations 3
     = [[0]; [1]; [2]; [0; 1]; [0; 2]; [1; 2]; [0; 1; 2]].
Proof.
  split_and!; [| |reflexivity].
  - intros c. rewrite get_all_combinations_concat.
    rewrite list_elem_of_In, in_concat. split.
    + intros (cs & Hcs & Hc). apply in_map_iff in Hcs as (nn & <- & Hnn).
      apply in_seq in Hnn.
      apply list_elem_of_In, elem_of_combinations in Hc as [Hsub Hlen].
      apply sublist_seq in Hsub as [Hs Hall].
      split_and!; [lia | lia | done |].
      eapply Forall_impl; [exact Hall|]. simpl. lia.
    + intros (Hlen & Hs & Hall).
      exists (combinations (seq 0 n) (length c - 1 + 1)). split.
      * apply in_map_iff. exists (length c - 1). split; [done|].
        apply in_seq. lia.
      * apply list_elem_of_In, elem_of_combinations. split; [|lia].
        apply sublist_seq. split; [done|].
        eapply Forall_impl; [exact Hall|]. simpl. lia.
  - rewrite get_all_combinations_concat.
    replace (List.map (fun nn => combinations (seq 0 n) (nn + 1)) (seq 0 n))
      with (List.map (fun k => combinations (seq 0 n) k) (seq 1 n)).
    + apply combinations_by_length_sorted; apply seq_StronglySorted.
    + rewrite <- seq_shift, map_map. apply map_ext. intros a.
      by rewrite Nat.add_1_r.
Qed.

(** ** [get_split] *)

(** C10. For all arguments [get_split] raises [ValueError]: its first
    statement unpacks the parameter names that [locals()] yields into pairs,
    the first name is ["data"], which does not have two characters, and no
    parameter name has. Neither [None] nor a split is ever returned. *)
Theorem get_split_always_raises {RS : RandomState} {SK : Sklearn RS}
  (data : dataset) (functional_group : string) (which_XANES : list string)
  (min_fg_occurrence max_fg_occurrence test_size : float) (random_state : Z) :
  get_split data functional_group which_XANES min_fg_occurrence
    max_fg_occurrence test_size random_state = inl ValueError
  /\ head get_split_locals = Some "data"
  /\ unpack_pair "data" = inl ValueError
  /\ Forall (fun name => unpack_pair name = inl ValueError) get_split_locals.
Proof.
  split_and!; [reflexivity | reflexivity | reflexivity |].
  repeat constructor.
Qed.

(** ** The condition evaluator *)

Lemma select_nil_r {A} (mask : list bool) : select mask ([] : list A) = [].
Proof. by destruct mask. Qed.

Lemma Forall_select {A} (P : A -> Prop) mask l :
  Forall P l -> Forall P (select mask l).
Proof.
  intros H. revert mask. induction H as [|x l Hx Hl IH]; intros [|b mask]; simpl;
    try constructor.
  destruct b; [constructor|]; auto.
Qed.





Lemma df_getitem_select mask (df : DataFrame) name :
  df_getitem (df_select mask df) name
  = c ← df_getitem df name; mret (col_select mask c).
Proof.
  unfold df_getitem. induction df as [|[k c] df IH]; simpl; [done|].
  destruct (decide (k = name)); [done | apply IH].
Qed.


Lemma apply_condition_inr index condition index' :
  apply_condition index condition = inr index' ->
  exists name v col,
    df_getitem index name = inr col /\ index' = df_select (eq_mask col v) index
    /\ match condition with
       | EmptyString => False
       | String c rest =>
           if Ascii.eqb "!" c then name = rest /\ v = 0%Z
           else name = condition /\ v = 1%Z
       end.
Proof.
  destruct condition as [|c rest]; [done|]. unfold apply_condition.
  destruct (Ascii.eqb "!" c); cbn [negb];
    intros (col & Hcol & [= <-])%bind_inr; eauto 10.
Qed.





Lemma py_split_not_nil sep s : py_split sep s <> [].
Proof. destruct s as [|c s]; simpl; [done|]. destruct (Ascii.eqb c sep); [done|]. by destruct (py_split sep s). Qed.

Lemma cc_of_negated u : cc_of (String "!" u) = String "!" (cc_of u).
Proof.
  unfold cc_of. simpl. pose proof (py_split_not_nil "-" u).
  by destruct (py_split "-" u).
Qed.



Lemma get_dataset_index xanes index conditions d :
  get_dataset xanes index conditions = inr d ->
  refine_index (expand_conditions conditions) index = inr (ds_index d)
  /\ get_functional_groups (ds_index d) = inr (ds_FG d).
Proof.
  unfold get_dataset.
  intros (index' & Hidx & H)%bind_inr.
  apply bind_inr in H as (smiles & _ & H).
  apply bind_inr in H as (fx & _ & H).
  apply bind_inr in H as (fgr & _ & H).
  apply bind_inr in H as (FG & HFG & [= <-]). simpl. done.
Qed.

Lemma string_append_cons x (a b : string) :
  String.append (String x a) b = String x (String.append a b).
Proof. reflexivity. Qed.

Lemma string_append_nil_l (b : string) : String.append EmptyString b = b.
Proof. reflexivity. Qed.

Lemma map_result_lookup {A B} (f : A -> result B) l bs :
  map_result f l = inr bs ->
  length bs = length l
  /\ forall i a, l !! i = Some a ->
                 exists b, bs !! i = Some b /\ f a = inr b.
Proof.
  revert bs. induction l as [|x l IH]; intros bs; simpl.
  - intros [= <-]. split; [done|]. intros i a Hi. by rewrite lookup_nil in Hi.
  - intros (b & Hb & H)%bind_inr. apply bind_inr in H as (bs' & Hbs & [= <-]).
    apply IH in Hbs as [Hlen Hrows]. split; [simpl; lia|].
    intros [|i] a Hi; simpl in *.
    + injection Hi as <-. eauto.
    + by apply Hrows.
Qed.

Lemma select_map {A B} (f : A -> B) mask l :
  select mask (List.map f l) = List.map f (select mask l).
Proof.
  revert l. induction mask as [|b mask IH]; intros [|x l]; simpl; try done.
  destruct b; simpl; by rewrite IH.
Qed.

(** Selecting twice is selecting once with the conjunction of the masks. *)
Lemma select_select {A} (m m2 : list bool) (l : list A) :
  select (select m m2) (select m l) = select (zip_with andb m m2) l.
Proof.
  revert m2 l. induction m as [|b m IH]; intros [|b2 m2] [|x l]; simpl;
    try done.
  - destruct b; simpl; by rewrite ?select_nil_r.
  - destruct b; simpl; [destruct b2|]; by rewrite IH.
Qed.

Lemma eq_mask_select m c v :
  eq_mask (col_select m c) v = select m (eq_mask c v).
Proof. destruct c as [l|l]; simpl; by rewrite select_map. Qed.

Lemma df_select_select m m2 (df : DataFrame) :
  df_select (select m m2) (df_select m df) = df_select (zip_with andb m m2) df.
Proof.
  unfold df_select. rewrite List.map_map. apply List.map_ext.
  intros [k [l|l]]; simpl; by rewrite select_select.
Qed.

Lemma zip_with_andb_comm (a b : list bool) :
  zip_with andb a b = zip_with andb b a.
Proof.
  revert b. induction a as [|x a IH]; intros [|y b]; simpl; try done.
  by rewrite IH, andb_comm.
Qed.

Lemma select_all_true {A} n (l : list A) :
  length l <= n -> select (repeat true n) l = l.
Proof.
  revert n. induction l as [|x l IH]; intros [|n]; simpl; try done; try lia.
  intros Hn. rewrite IH by lia. done.
Qed.

Lemma df_select_all_true n index :
  has_rows n index -> df_select (repeat true n) index = index.
Proof.
  unfold has_rows, df_select.
  induction 1 as [|[k c] index Hc Hall IH]; simpl; [done|].
  rewrite IH. f_equal. f_equal. simpl in Hc.
  destruct c as [l|l]; simpl in *; rewrite select_all_true; (done || lia).
Qed.

Lemma apply_condition_test index condition :
  apply_condition index condition
  = t ← condition_test condition;
    col ← df_getitem index (fst t);
    mret (df_select (eq_mask col (snd t)) index).
Proof.
  destruct condition as [|c rest]; [done|].
  unfold apply_condition, condition_test.
  by destruct (Ascii.eqb "!" c).
Qed.

Lemma apply_condition_swap index x y r :
  (i ← apply_condition index x; apply_condition i y) = inr r ->
  (i ← apply_condition index y; apply_condition i x) = inr r.
Proof.
  rewrite !apply_condition_test.
  intros (i & Hx & Hy)%bind_inr.
  apply bind_inr in Hx as ([nx vx] & Htx & Hx).
  apply bind_inr in Hx as (cx & Hcx & [= <-]).
  rewrite apply_condition_test in Hy.
  apply bind_inr in Hy as ([ny vy] & Hty & Hy).
  apply bind_inr in Hy as (cy' & Hcy & [= <-]).
  simpl in *. rewrite df_getitem_select in Hcy.
  apply bind_inr in Hcy as (cy & Hcy & [= <-]).
  rewrite Hty. simpl. rewrite Hcy. simpl.
  rewrite apply_condition_test, Htx. simpl.
  rewrite df_getitem_select, Hcx. simpl.
  rewrite !eq_mask_select, !df_select_select.
  by rewrite zip_with_andb_comm.
Qed.

Lemma refine_index_Permutation cs cs' index r :
  cs ≡ₚ cs' ->
  refine_index cs index = inr r -> refine_index cs' index = inr r.
Proof.
  unfold refine_index. intros Hp. revert index r.
  induction Hp as [|x l l' Hp IH|x y l|l l' l'' Hp1 IH1 Hp2 IH2];
    intros index r; simpl.
  - done.
  - intros (i & Hx & Hl)%bind_inr. rewrite Hx. simpl. by apply IH.
  - intros (i & Hy & H)%bind_inr. apply bind_inr in H as (j & Hx & Hl).
    assert (Hsw : (i ← apply_condition index x; apply_condition i y) = inr j).
    { apply apply_condition_swap. rewrite Hy. simpl. exact Hx. }
    apply bind_inr in Hsw as (i' & Hx' & Hy').
    rewrite Hx'. simpl. rewrite Hy'. simpl. exact Hl.
  - intros H. by apply IH2, IH1.
Qed.

(** On a table already restricted to a mask, the refinement is the
    restriction of the unrestricted table to the conjunction of that mask
    with the masks of the tokens. *)
Lemma refine_index_masked cs index m :
  refine_index cs (df_select m index)
  = masks ← map_result (condition_mask index) cs;
    mret (df_select (fold_left (zip_with andb) masks m) index).
Proof.
  unfold refine_index. revert m. induction cs as [|c cs IH]; intros m; simpl.
  - done.
  - rewrite apply_condition_test. unfold condition_mask.
    destruct (condition_test c) as [e|[name v]]; simpl; [done|].
    rewrite df_getitem_select.
    destruct (df_getitem index name) as [e|col]; simpl; [done|].
    rewrite eq_mask_select, df_select_select, IH.
    by destruct (map_result _ cs).
Qed.




(** What the dataset keeps of the table it was given. *)
Lemma get_dataset_rows xanes index conditions d n :
  has_rows n index ->
  get_dataset xanes index conditions = inr d ->
  exists masks,
    map_result (condition_mask index) (expand_conditions conditions)
    = inr masks
    /\ ds_index d = df_select (all_hold masks n) index.
Proof.
  intros Hrows [Hidx _]%get_dataset_index.
  rewrite <- (df_select_all_true n index Hrows) in Hidx at 1.
  rewrite refine_index_masked in Hidx.
  apply bind_inr in Hidx as (masks & Hmasks & [= <-]).
  by exists masks.
Qed.


(** ** The dataset assembler *)

Lemma kept_groups_app cols1 cols2 :
  kept_groups (cols1 ++ cols2) = kept_groups cols1 ++ kept_groups cols2.
Proof.
  induction cols1 as [|[name c] cols1 IH]; simpl; [done|].
  by rewrite IH, app_assoc.
Qed.

Lemma kept_groups_labels cols name :
  name ∈ List.map fst (kept_groups cols) -> name ∈ List.map fst cols.
Proof.
  induction cols as [|[k c] cols IH]; simpl; [done|].
  rewrite map_app, elem_of_app. intros [Hin|Hin].
  - destruct (0 <? sum_Z (col_ints c))%Z; simpl in Hin.
    + apply list_elem_of_singleton in Hin as ->. left.
    + by apply elem_of_nil in Hin.
  - right. by apply IH.
Qed.

Lemma elem_of_kept_groups cols name l :
  (name, l) ∈ kept_groups cols
  <-> exists c, (name, c) ∈ cols /\ l = col_ints c /\ (0 < sum_Z l)%Z.
Proof.
  induction cols as [|[k c] cols IH]; simpl.
  - rewrite elem_of_nil. split; [done|]. intros (c & Hc & _). by apply elem_of_nil in Hc.
  - rewrite elem_of_app, IH. split.
    + intros [Hin|(c' & Hc' & Hl)].
      * destruct (Z.ltb_spec 0 (sum_Z (col_ints c))); simpl in Hin.
        -- apply list_elem_of_singleton in Hin as [= -> ->].
           exists c. split_and!; [left | done | done].
        -- by apply elem_of_nil in Hin.
      * exists c'. split; [by right | done].
    + intros (c' & Hc' & -> & Hpos).
      apply elem_of_cons in Hc' as [[= -> ->]|Hc'].
      * left. destruct (Z.ltb_spec 0 (sum_Z (col_ints c))); [left | lia].
      * right. eauto.
Qed.

Lemma dict_get_NoDup {V} (d : list (string * V)) k v :
  NoDup (List.map fst d) -> (k, v) ∈ d -> dict_get k d = inr v.
Proof.
  induction d as [|[k' v'] d IH]; simpl; intros Hnd Hin.
  - by apply elem_of_nil in Hin.
  - apply NoDup_cons in Hnd as [Hk' Hnd].
    apply elem_of_cons in Hin as [[= -> ->]|Hin].
    + by rewrite decide_True.
    + rewrite decide_False; [by apply IH|].
      intros ->. apply Hk'. apply list_elem_of_In, in_map_iff.
      exists (k, v). split; [done | by apply list_elem_of_In].
Qed.

Lemma dict_get_elem_of {V} (d : list (string * V)) k v :
  dict_get k d = inr v -> (k, v) ∈ d.
Proof.
  induction d as [|[k' v'] d IH]; simpl; [done|].
  destruct (decide (k' = k)) as [->|].
  - intros [= ->]. left.
  - intros. right. auto.
Qed.

Lemma dict_set_fresh {V} (d : list (string * V)) k v :
  k ∉ List.map fst d -> dict_set k v d = d ++ [(k, v)].
Proof.
  induction d as [|[k' v'] d IH]; simpl; intros Hk; [done|].
  apply not_elem_of_cons in Hk as [Hne Hk].
  rewrite decide_False by done. by rewrite IH.
Qed.

Lemma functional_groups_fold (cols pre suf : DataFrame) :
  cols = pre ++ suf ->
  NoDup (List.map fst cols) ->
  Forall (fun nc => exists l, snd nc = ColInt l) suf ->
  fold_result
    (fun FG fg =>
       dat ← df_getitem cols fg;
       positive ← col_sum_positive dat;
       if (positive : bool) then mret (dict_set fg (col_ints dat) FG)
       else mret FG)
    (List.map fst suf) (kept_groups pre)
  = inr (kept_groups cols).
Proof.
  revert pre. induction suf as [|[name c] suf IH]; intros pre Hcols Hnd Hall; simpl.
  - by rewrite Hcols, app_nil_r.
  - apply Forall_cons in Hall as [(l & Hc) Hall]. simpl in Hc. subst c.
    assert (Hget : df_getitem cols name = inr (ColInt l)).
    { apply dict_get_NoDup; [done|]. rewrite Hcols. apply elem_of_app. right. left. }
    rewrite Hget. simpl.
    assert (Hcols' : cols = (pre ++ [(name, ColInt l)]) ++ suf)
      by by rewrite <- app_assoc.
    assert (Hfresh : name ∉ List.map fst (kept_groups pre)).
    { intros Hin%kept_groups_labels.
      rewrite Hcols, map_app in Hnd. apply NoDup_app in Hnd as (_ & Hnd & _).
      apply (Hnd name); [done | left]. }
    specialize (IH (pre ++ [(name, ColInt l)]) Hcols' Hnd Hall).
    rewrite kept_groups_app in IH. simpl in IH.
    destruct (0 <? sum_Z l)%Z eqn:Hpos; simpl.
    + rewrite dict_set_fresh by done. exact IH.
    + rewrite app_nil_r in IH. exact IH.
Qed.

Lemma NoDup_List_drop {A} n (l : list A) : NoDup l -> NoDup (drop n l).
Proof.
  intros H. rewrite <- (take_drop n l) in H. by apply NoDup_app in H as (_ & _ & ?).
Qed.

Lemma map_drop_fst {A B} n (l : list (A * B)) :
  List.map fst (drop n l) = drop n (List.map fst l).
Proof.
  revert n. induction l as [|x l IH]; intros [|n]; simpl; auto.
Qed.

Lemma get_functional_groups_kept index :
  NoDup (List.map fst index) ->
  Forall (fun nc => exists l, snd nc = ColInt l) (drop 7 index) ->
  get_functional_groups index = inr (kept_groups (drop 7 index)).
Proof.
  intros Hnd Hall. unfold get_functional_groups.
  apply (functional_groups_fold (drop 7 index) [] (drop 7 index)); [done| |done].
  rewrite map_drop_fst. by apply NoDup_List_drop.
Qed.

Lemma df_select_labels mask (df : DataFrame) :
  List.map fst (df_select mask df) = List.map fst df.
Proof. unfold df_select. rewrite map_map. by apply map_ext. Qed.

Lemma df_select_drop mask n (df : DataFrame) :
  drop n (df_select mask df) = df_select mask (drop n df).
Proof.
  unfold df_select. revert n. induction df as [|x df IH]; intros [|n]; simpl; auto.
Qed.

Lemma indicator_column_select mask nc :
  indicator_column nc -> indicator_column (fst nc, col_select mask (snd nc)).
Proof.
  intros (l & Hl & Hall). simpl. rewrite Hl. simpl.
  exists (select mask l). split; [done|]. by apply Forall_select.
Qed.

Lemma well_formed_select mask index :
  well_formed index -> well_formed (df_select mask index).
Proof.
  intros [Hnd Hall]. split.
  - by rewrite df_select_labels.
  - rewrite df_select_drop. unfold df_select.
    apply Forall_forall. intros nc Hin.
    apply list_elem_of_In, in_map_iff in Hin as (nc' & <- & Hin).
    apply indicator_column_select. rewrite Forall_forall in Hall.
    by apply Hall, list_elem_of_In.
Qed.

Lemma refine_index_well_formed conditions index index' :
  refine_index conditions index = inr index' ->
  well_formed index -> well_formed index'.
Proof.
  unfold refine_index. intros Hfold Hwf.
  eapply (fold_result_invariant _ well_formed); [|exact Hwf|exact Hfold].
  intros s a s' _ Hs (name & v & col & _ & -> & _)%apply_condition_inr.
  by apply well_formed_select.
Qed.

Lemma sum_Z_indicator (l : list Z) :
  Forall (fun x => x = 0 \/ x = 1)%Z l ->
  (0 <= sum_Z l)%Z /\ ((0 < sum_Z l)%Z <-> 1%Z ∈ l) /\ (sum_Z l = 0%Z <-> Forall (eq 0%Z) l).
Proof.
  induction 1 as [|x l Hx Hl (IH0 & IH1 & IH2)]; simpl.
  - split_and!; [lia | | ].
    + rewrite elem_of_nil. lia.
    + split; [constructor | done].
  - split_and!; [lia | |].
    + rewrite elem_of_cons. destruct Hx as [-> | ->].
      * rewrite Z.add_0_l, IH1. split; [auto | by intros [|]].
      * split; [auto | lia].
    + rewrite Forall_cons. destruct Hx as [-> | ->].
      * rewrite Z.add_0_l, IH2. tauto.
      * split; [lia | by intros [? _]].
Qed.

Lemma lookup_df_select mask (index : DataFrame) i :
  df_select mask index !! i
  = (fun nc => (fst nc, col_select mask (snd nc))) <$> index !! i.
Proof.
  unfold df_select. revert i.
  induction index as [|nc index IH]; intros [|i]; simpl; auto.
Qed.

(** The labels of a table whose labels are distinct and whose columns from
    position 7 on are indicators, in terms of that table alone. *)
Lemma functional_groups_of_index (index : DataFrame)
  (FG : list (string * list Z)) :
  NoDup (List.map fst index) ->
  Forall indicator_column (drop 7 index) ->
  get_functional_groups index = inr FG ->
  FG = kept_groups (drop 7 index)
  /\ (forall i name c,
         7 <= i -> index !! i = Some (name, c) ->
         exists l,
           c = ColInt l
           /\ (name ∈ List.map fst FG <-> sum_Z l <> 0%Z)
           /\ (Forall (eq 0%Z) l -> name ∉ List.map fst FG)
           /\ (1%Z ∈ l -> dict_get name FG = inr l)
           /\ (forall v, dict_get name FG = inr v -> v = l))
  /\ (forall name v,
         (name, v) ∈ FG ->
         exists i, 7 <= i /\ index !! i = Some (name, ColInt v)).
Proof.
  intros Hnd' Hall' HFG.
  rewrite get_functional_groups_kept in HFG; [| done |].
  2:{ eapply Forall_impl; [exact Hall'|]. intros nc (l & ? & _). eauto. }
  injection HFG as HFG.
  assert (Hcols : forall name c, (name, c) ∈ drop 7 index ->
            exists l, c = ColInt l /\ Forall (fun x => x = 0 \/ x = 1)%Z l).
  { intros name c Hin. rewrite Forall_forall in Hall'.
    destruct (Hall' _ Hin) as (l & Hl & Hl'). eauto. }
  assert (Hnd7 : NoDup (List.map fst (drop 7 index)))
    by (rewrite map_drop_fst; by apply NoDup_List_drop).
  assert (HndFG : NoDup (List.map fst FG)).
  { rewrite <- HFG. clear -Hnd7. induction (drop 7 index) as [|[k c] cols IH]; simpl; [constructor|].
    simpl in Hnd7. apply NoDup_cons in Hnd7 as [Hk Hnd7].
    destruct (0 <? sum_Z (col_ints c))%Z; simpl; [|auto].
    constructor; [|auto]. intros Hin%kept_groups_labels. done. }
  split; [done|]. split.
  - intros i name c Hi Hlook.
    assert (Hin : (name, c) ∈ drop 7 index).
    { apply list_elem_of_lookup. exists (i - 7). rewrite lookup_drop.
      by replace (7 + (i - 7)) with i by lia. }
    destruct (Hcols _ _ Hin) as (l & -> & H01). exists l.
    destruct (sum_Z_indicator l H01) as (Hge & Hpos & Hzero).
    assert (Hmem : name ∈ List.map fst FG <-> (0 < sum_Z l)%Z).
    { rewrite <- HFG. split.
      - intros Hname. apply list_elem_of_In, in_map_iff in Hname as ([k v] & Hk & Hkv).
        simpl in Hk. subst k.
        apply list_elem_of_In, elem_of_kept_groups in Hkv as (c' & Hc' & -> & Hp).
        assert (c' = ColInt l) as ->; [|done].
        apply (dict_get_NoDup _ _ _ Hnd7) in Hc'.
        apply (dict_get_NoDup _ _ _ Hnd7) in Hin. congruence.
      - intros Hp. apply list_elem_of_In, in_map_iff. exists (name, l). split; [done|].
        apply list_elem_of_In, elem_of_kept_groups. exists (ColInt l). done. }
    assert (Hget : forall v, dict_get name FG = inr v -> v = l).
    { intros v Hv%dict_get_elem_of. rewrite <- HFG in Hv.
      apply elem_of_kept_groups in Hv as (c' & Hc' & -> & _).
      apply (dict_get_NoDup _ _ _ Hnd7) in Hc'.
      apply (dict_get_NoDup _ _ _ Hnd7) in Hin.
      assert (c' = ColInt l) as -> by congruence. done. }
    split_and!; [done | | | | done].
    + rewrite Hmem. lia.
    + intros Hz%Hzero. rewrite Hmem. lia.
    + intros H1%Hpos. apply dict_get_NoDup; [done|]. rewrite <- HFG.
      apply elem_of_kept_groups. exists (ColInt l). done.
  - intros name v Hin. rewrite <- HFG in Hin.
    apply elem_of_kept_groups in Hin as (c & Hc & -> & _).
    destruct (Hcols _ _ Hc) as (l & -> & _).
    apply list_elem_of_lookup in Hc as (j & Hj). rewrite lookup_drop in Hj.
    exists (7 + j). split; [lia | done].
Qed.

(** C8. On an index table of [n] rows with distinct labels whose columns
    from position 7 on hold only 0 and 1: the index of the assembled dataset
    is the given table restricted to the rows the conditions select, and
    its label mapping has an entry for a column at position >= 7 of the
    table if and only if the sum of that column over the selected rows is
    not zero. A column that is all zero on the selected rows never appears;
    a column with a 1 on them appears under its name with its whole array
    of selected rows; every entry of the mapping is such a column, and the
    entries are in the order of the columns. *)
Theorem functional_groups_iff_nonzero (xanes : xanes_store) (index : DataFrame)
  (conditions : string) (d : dataset) (n : nat) :
  has_rows n index ->
  NoDup (List.map fst index) ->
  Forall indicator_column (drop 7 index) ->
  get_dataset xanes index conditions = inr d ->
  exists masks,
    map_result (condition_mask index) (expand_conditions conditions)
    = inr masks
    /\ ds_index d = df_select (all_hold masks n) index
    /\ ds_FG d = kept_groups (drop 7 (df_select (all_hold masks n) index))
    /\ (forall i name c,
           7 <= i -> index !! i = Some (name, c) ->
           exists l,
             c = ColInt l
             /\ (name ∈ List.map fst (ds_FG d)
                 <-> sum_Z (select (all_hold masks n) l) <> 0%Z)
             /\ (Forall (eq 0%Z) (select (all_hold masks n) l) ->
                 name ∉ List.map fst (ds_FG d))
             /\ (1%Z ∈ select (all_hold masks n) l ->
                 dict_get name (ds_FG d)
                 = inr (select (all_hold masks n) l))
             /\ (forall v, dict_get name (ds_FG d) = inr v ->
                           v = select (all_hold masks n) l))
    /\ (forall name v,
           (name, v) ∈ ds_FG d ->
           exists i l,
             7 <= i /\ index !! i = Some (name, ColInt l)
             /\ v = select (all_hold masks n) l).
Proof.
  intros Hrows Hnd Hall Hd.
  destruct (get_dataset_rows _ _ _ _ _ Hrows Hd) as (masks & Hmasks & Hidx).
  apply get_dataset_index in Hd as [Href HFG].
  assert (Hwf : well_formed (ds_index d))
    by (eapply refine_index_well_formed; [exact Href | by split]).
  destruct Hwf as [Hnd' Hall'].
  destruct (functional_groups_of_index _ _ Hnd' Hall' HFG)
    as (Hkept & Hcol & Hentry).
  rewrite Hidx in Hkept, Hcol, Hentry.
  exists masks. split_and!; [done | done | done | |].
  - intros i name c Hi Hlook.
    assert (Hsel : df_select (all_hold masks n) index !! i
                   = Some (name, col_select (all_hold masks n) c))
      by (by rewrite lookup_df_select, Hlook).
    destruct (Hcol i name _ Hi Hsel) as (l' & Hl' & H).
    destruct c as [l|l]; [done|]. simpl in Hl'. injection Hl' as <-.
    by exists l.
  - intros name v Hin.
    destruct (Hentry name v Hin) as (i & Hi & Hlook).
    rewrite lookup_df_select in Hlook.
    destruct (index !! i) as [[k c]|] eqn:Hc; [|done].
    simpl in Hlook. injection Hlook as -> Hsel.
    destruct c as [l|l]; [done|]. simpl in Hsel. injection Hsel as <-.
    by exists i, l.
Qed.

(** ** Rounding and the sign *)

Lemma shr_1_nonneg mrs : (0 <= shr_m mrs)%Z -> (0 <= shr_m (shr_1 mrs))%Z.
Proof.
  destruct mrs as [m r s]. destruct m as [|[p|p|]|p]; simpl; lia.
Qed.

Lemma iter_pos_invariant {A} (P : A -> Prop) (f : A -> A) :
  (forall x, P x -> P (f x)) -> forall n x, P x -> P (SpecFloat.iter_pos f n x).
Proof.
  intros Hf. induction n as [n IH|n IH|]; intros x Hx; simpl; auto.
Qed.

Lemma shr_fexp_nonneg m e l :
  (0 <= m)%Z -> (0 <= shr_m (fst (shr_fexp prec emax m e l)))%Z.
Proof.
  intros Hm. unfold shr_fexp, shr.
  assert (H0 : (0 <= shr_m (shr_record_of_loc m l))%Z)
    by (by destruct l as [|[]]).
  destruct (fexp prec emax (Zdigits2 m + e) - e)%Z; simpl; try done.
  apply (iter_pos_invariant (fun r => (0 <= shr_m r)%Z)); [|done].
  apply shr_1_nonneg.
Qed.

Lemma round_nearest_even_nonneg m l :
  (0 <= m)%Z -> (0 <= round_nearest_even m l)%Z.
Proof.
  intros Hm. unfold round_nearest_even.
  destruct l as [|[]]; try done; [destruct (Z.even m)|]; lia.
Qed.

(** A rounded value of positive sign: a zero, a finite value or an infinity
    of positive sign. *)
Lemma binary_round_aux_positive m e l :
  (0 <= m)%Z ->
  SFleb (S754_zero false) (binary_round_aux prec emax false m e l) = true.
Proof.
  intros Hm. unfold binary_round_aux.
  pose proof (shr_fexp_nonneg m e l Hm) as H1.
  destruct (shr_fexp prec emax m e l) as [mrs1 e1]. simpl in H1.
  pose proof (shr_fexp_nonneg
                (round_nearest_even (shr_m mrs1) (loc_of_shr_record mrs1))
                e1 loc_Exact (round_nearest_even_nonneg _ _ H1)) as H2.
  destruct (shr_fexp prec emax _ e1 loc_Exact) as [mrs2 e2]. simpl in H2.
  destruct (shr_m mrs2) as [|p|p]; [done| |lia].
  by destruct (e2 <=? emax - prec)%Z.
Qed.

Lemma binary_round_positive m e :
  SFleb (S754_zero false) (binary_round prec emax false m e) = true.
Proof.
  unfold binary_round. destruct (shl_align m e _) as [mz ez].
  by apply binary_round_aux_positive.
Qed.

(** ** [int] and [floor] of a test size *)

Lemma py_int_floor (x : float) :
  not_negative x = true -> py_int x = math_floor x.
Proof.
  unfold not_negative. destruct x as [s|s| |s m e]; try done.
  by destruct s.
Qed.

Lemma binary_normalize_not_negative (n : Z) :
  (0 <= n)%Z -> not_negative (binary_normalize prec emax n 0 false) = true.
Proof.
  intros Hn. unfold not_negative, binary_normalize.
  destruct n as [|p|p]; [done | apply binary_round_positive | lia].
Qed.

Lemma float_mul_not_negative (a b : float) :
  not_negative a = true -> not_negative b = true ->
  float_mul a b = S754_nan \/ not_negative (float_mul a b) = true.
Proof.
  unfold not_negative, float_mul.
  destruct a as [sa|sa| |sa ma ea], b as [sb|sb| |sb mb eb]; try done;
    intros Ha Hb; simpl; try (by left); try (by right);
    try (destruct sa; try done); try (destruct sb; try done);
    try (by right).
  right. by apply binary_round_aux_positive.
Qed.

(** The test size of a fraction that is not negative: [int] takes the
    floor of the product. *)
Lemma test_size_floor (f : float) (N : Z) :
  (0 <= N)%Z -> not_negative f = true ->
  (x ← float_mul_int f N; py_int x) = (x ← float_mul_int f N; math_floor x).
Proof.
  intros HN Hf. unfold float_mul_int, float_of_int.
  pose proof (binary_normalize_not_negative N HN) as Hn.
  destruct (binary_normalize prec emax N 0 false) as [s|s| |s m e] eqn:E;
    try done; simpl.
  - destruct (float_mul_not_negative f (S754_zero s) Hf Hn) as [-> | H];
      [done | by apply py_int_floor].
  - destruct (float_mul_not_negative f (S754_finite s m e) Hf Hn) as [-> | H];
      [done | by apply py_int_floor].
Qed.

Lemma math_floor_not_negative (x : float) (z : Z) :
  not_negative x = true -> math_floor x = inr z -> (0 <= z)%Z.
Proof.
  unfold not_negative. destruct x as [s|s| |s m e]; try done.
  - by intros _ [= <-].
  - destruct s; [done|]. intros _ [= <-].
    destruct (Z.leb_spec 0 e).
    { apply Z.mul_nonneg_nonneg; [done | by apply Z.pow_nonneg]. }
    apply Z.div_pos; [lia|]. apply Z.pow_pos_nonneg; lia.
Qed.

(** ** The train/test split *)

Lemma remove_dups_length_NoDup (l : list nat) :
  NoDup l -> length (remove_dups l) = length l.
Proof.
  intros Hnd. apply Permutation_length, NoDup_Permutation; [apply NoDup_remove_dups | done |].
  intros x. apply elem_of_remove_dups.
Qed.

Lemma sorted_nat_Permutation l : sorted_nat l ≡ₚ l.
Proof. apply merge_sort_Permutation. Qed.

Lemma elem_of_sorted_nat l i : i ∈ sorted_nat l <-> i ∈ l.
Proof. by rewrite sorted_nat_Permutation. Qed.

Lemma StronglySorted_le_lt (l : list nat) :
  StronglySorted le l -> NoDup l -> StronglySorted lt l.
Proof.
  induction 1 as [|x l Hs IH Hall]; intros Hnd; constructor.
  - apply IH. by apply NoDup_cons in Hnd as [_ ?].
  - apply NoDup_cons in Hnd as [Hx _]. apply Forall_forall. intros y Hy.
    rewrite Forall_forall in Hall. specialize (Hall y Hy).
    assert (x <> y) by (intros ->; done). lia.
Qed.

Lemma sorted_nat_ascending l : NoDup l -> StronglySorted lt (sorted_nat l).
Proof.
  intros Hnd. apply StronglySorted_le_lt.
  - apply (StronglySorted_merge_sort Nat.le).
  - by rewrite sorted_nat_Permutation.
Qed.

Lemma np_unique_length l : NoDup l -> length (np_unique l) = length l.
Proof.
  intros Hnd. unfold np_unique.
  by rewrite (Permutation_length (sorted_nat_Permutation _)), remove_dups_length_NoDup.
Qed.

Section SplitProperties.
Context {RS : RandomState}.

Lemma np_random_choice_ok (N size : Z) (g : rng) :
  (0 <= N)%Z -> (0 <= size <= N)%Z ->
  exists test g',
    np_random_choice N size g = (g', inr test)
    /\ length test = Z.to_nat size /\ NoDup test
    /\ (forall i, i ∈ test -> i < Z.to_nat N).
Proof.
  intros HN Hsize. unfold np_random_choice.
  assert (((N <=? 0) && negb (size =? 0))%Z = false) as ->.
  { destruct (Z.leb_spec N 0), (Z.eqb_spec size 0); simpl; auto. lia. }
  assert ((N <? size)%Z = false) as -> by lia.
  assert ((size <? 0)%Z = false) as -> by lia.
  pose proof (mt_permutation_Permutation (Z.to_nat N) g) as Hperm.
  destruct (mt_permutation (Z.to_nat N) g) as [p g']. simpl in Hperm.
  exists (take (Z.to_nat size) p), g'. split_and!; [done | | |].
  - rewrite length_take_le; [done|].
    rewrite (Permutation_length Hperm), length_seq. lia.
  - eapply sublist_NoDup; [|apply sublist_take].
    rewrite Hperm. apply NoDup_seq.
  - intros i Hi. apply elem_of_take in Hi as (j & Hj & _).
    apply list_elem_of_lookup_2 in Hj. rewrite Hperm in Hj.
    apply elem_of_seq in Hj. lia.
Qed.

Lemma train_test_indexes_independent (self : Results) (g1 g2 : rng) :
  snd (train_test_indexes self g1) = snd (train_test_indexes self g2).
Proof.
  unfold train_test_indexes. destruct (_data_size self) as [N|]; [|done].
  unfold mbind, stateful_bind, np_random_seed.
  by destruct ((0 <=? _random_state self) && (_random_state self <? 2 ^ 32))%Z.
Qed.

Lemma train_test_indexes_of_size (self : Results) (g : rng) (N size : Z) :
  _data_size self = Some N -> (0 <= N)%Z ->
  (0 <= _random_state self < 2 ^ 32)%Z ->
  (x ← float_mul_int (_test_size self) N; py_int x) = inr size ->
  (0 <= size <= N)%Z ->
  exists train test g',
    train_test_indexes self g = (g', inr (train, test))
    /\ length test = Z.to_nat size
    /\ NoDup test
    /\ (forall i, i ∈ train <-> i < Z.to_nat N /\ i ∉ test)
    /\ (forall i, ~ (i ∈ train /\ i ∈ test))
    /\ (forall i, i ∈ train \/ i ∈ test <-> i < Z.to_nat N)
    /\ StronglySorted lt train /\ StronglySorted lt test.
Proof.
  intros HN HN0 Hseed Hsize Hbound.
  unfold train_test_indexes. rewrite HN.
  unfold mbind at 1, stateful_bind at 1, np_random_seed.
  assert (((0 <=? _random_state self) && (_random_state self <? 2 ^ 32))%Z = true) as ->.
  { apply andb_true_intro. split; lia. }
  unfold mbind at 1, stateful_bind at 1, lift at 1. rewrite Hsize.
  destruct (np_random_choice_ok N size (mt_seed (_random_state self)) HN0 Hbound)
    as (test & g' & Hchoice & Hlen & Hnd & Hlt).
  unfold mbind at 1, stateful_bind at 1. rewrite Hchoice.
  set (train := elements ((list_to_set (np_arange N) : gset nat) ∖ list_to_set test)).
  assert (Htrain : forall i, i ∈ train <-> i < Z.to_nat N /\ i ∉ test).
  { intros i. unfold train, np_arange.
    rewrite elem_of_elements, elem_of_difference, !elem_of_list_to_set, elem_of_seq.
    split; intros [? ?]; split; auto; lia. }
  unfold mbind at 1, stateful_bind at 1, lift at 1.
  rewrite np_unique_length, Nat.eqb_refl by done. simpl py_assert. cbv iota.
  unfold mbind at 1, stateful_bind at 1, lift at 1.
  rewrite bool_decide_eq_true_2.
  2:{ intros i Hi1 Hi2. rewrite elem_of_list_to_set in Hi1, Hi2.
      apply Htrain in Hi2 as [_ ?]. done. }
  simpl py_assert. cbv iota.
  exists (sorted_nat train), (sorted_nat test), g'.
  split; [done|].
  split_and!.
  - by rewrite (Permutation_length (sorted_nat_Permutation _)).
  - by rewrite sorted_nat_Permutation.
  - intros i. by rewrite !elem_of_sorted_nat.
  - intros i. rewrite !elem_of_sorted_nat. intros [[_ ?]%Htrain ?]. done.
  - intros i. rewrite !elem_of_sorted_nat, Htrain. split.
    + intros [[? _]|?]; auto.
    + intros ?. destruct (decide (i ∈ test)); auto.
  - apply sorted_nat_ascending. unfold train. apply NoDup_elements.
  - by apply sorted_nat_ascending.
Qed.

(** C1, amended. For a data size [N >= 0], a seed in [0, 2**32) and a test
    fraction [f >= 0] whose test size [floor(f * N)], the floor of the
    binary64 product, is at most [N], the split derivation returns a pair:
    the test set has [floor(f * N)] elements without duplicates, the train
    set is its complement in [0, N), the two are disjoint, their union is
    [0, N), and both are strictly ascending. *)
Theorem train_test_indexes_partition (self : Results) (g : rng) (N size : Z) :
  _data_size self = Some N -> (0 <= N)%Z ->
  (0 <= _random_state self < 2 ^ 32)%Z ->
  not_negative (_test_size self) = true ->
  (x ← float_mul_int (_test_size self) N; math_floor x) = inr size ->
  (size <= N)%Z ->
  exists train test g',
    train_test_indexes self g = (g', inr (train, test))
    /\ Z.of_nat (length test) = size
    /\ NoDup test
    /\ (forall i, i ∈ train <-> i < Z.to_nat N /\ i ∉ test)
    /\ (forall i, ~ (i ∈ train /\ i ∈ test))
    /\ (forall i, i ∈ train \/ i ∈ test <-> i < Z.to_nat N)
    /\ StronglySorted lt train /\ StronglySorted lt test.
Proof.
  intros HN HN0 Hseed Hf Hfloor Hbound.
  assert (Hpos : (0 <= size)%Z).
  { apply bind_inr in Hfloor as (x & Hx & Hfl).
    apply (math_floor_not_negative x); [|done].
    unfold float_mul_int in Hx. apply bind_inr in Hx as (fn & Hfn & [= <-]).
    assert (Hn : not_negative fn = true).
    { unfold float_of_int in Hfn.
      pose proof (binary_normalize_not_negative N HN0) as Hn.
      destruct (binary_normalize prec emax N 0 false); try done;
        by injection Hfn as <-. }
    destruct (float_mul_not_negative _ _ Hf Hn) as [Hnan|H]; [|done].
    by rewrite Hnan in Hfl. }
  rewrite <- (test_size_floor _ N HN0 Hf) in Hfloor.
  destruct (train_test_indexes_of_size self g N size HN HN0 Hseed Hfloor
              ltac:(lia))
    as (train & test & g' & Hrun & Hlen & Hrest).
  exists train, test, g'. split; [done|]. split; [lia | done].
Qed.

(** C2. Two evaluations of the split derivation on objects with the same
    data size, random state and test size give the same outcome (the same
    partition, or the same exception), whatever the other attributes and
    whatever the state of the global generator before each evaluation. *)
Theorem train_test_indexes_deterministic (self1 self2 : Results) (g1 g2 : rng) :
  _data_size self1 = _data_size self2 ->
  _random_state self1 = _random_state self2 ->
  _test_size self1 = _test_size self2 ->
  snd (train_test_indexes self1 g1) = snd (train_test_indexes self2 g2).
Proof.
  intros HN Hseed Hf. rewrite (train_test_indexes_independent self1 g1 g2).
  unfold train_test_indexes. by rewrite HN, Hseed, Hf.
Qed.
End SplitProperties.

(** C1, counterexample. Seeding with -1 raises [ValueError]. So does the
    fraction 1.0 on [2**53 + 3] rows: the row count is rounded to the
    binary64 value [2**53 + 4], the test size is larger than the population
    and drawing without replacement raises. *)
Lemma train_test_indexes_counterexample :
  snd (@train_test_indexes rot_generator
         (results_of "C-XANES" (float_of_ratio 6 10) (-1) (Some 10%Z)) 0%Z)
  = inl ValueError
  /\ (x ← float_mul_int (float_of_ratio 1 1) (2 ^ 53 + 3);
      math_floor x) = inr (2 ^ 53 + 4)%Z
  /\ snd (@train_test_indexes rot_generator
            (results_of "C-XANES" (float_of_ratio 1 1) 42
               (Some (2 ^ 53 + 3)%Z)) 0%Z)
     = inl ValueError.
Proof. split_and!; vm_compute; reflexivity. Qed.

(** C1, witness: ten rows, seed 42, test fraction 0.6. *)
Lemma train_test_indexes_partition_witness :
  exists train test g',
    @train_test_indexes rot_generator
      (results_of "C-XANES" (float_of_ratio 6 10) 42 (Some 10%Z)) 0%Z
    = (g', inr (train, test))
    /\ Z.of_nat (length test) = 6%Z
    /\ NoDup test
    /\ (forall i, i ∈ train <-> i < Z.to_nat 10 /\ i ∉ test)
    /\ (forall i, ~ (i ∈ train /\ i ∈ test))
    /\ (forall i, i ∈ train \/ i ∈ test <-> i < Z.to_nat 10)
    /\ StronglySorted lt train /\ StronglySorted lt test.
Proof.
  apply (@train_test_indexes_partition rot_generator
           (results_of "C-XANES" (float_of_ratio 6 10) 42 (Some 10%Z))
           0%Z 10%Z 6%Z).
  - reflexivity.
  - lia.
  - simpl. lia.
  - vm_compute. reflexivity.
  - vm_compute. reflexivity.
  - lia.
Defined.

(** C2, witness: two objects that differ in their conditions, evaluated
    from two different states of the generator. *)
Lemma train_test_indexes_deterministic_witness :
  snd (@train_test_indexes rot_generator
         (results_of "C-XANES" (float_of_ratio 6 10) 42 (Some 10%Z)) 0%Z)
  = snd (@train_test_indexes rot_generator
           (results_of "C-XANES,O-XANES" (float_of_ratio 6 10) 42 (Some 10%Z)) 7%Z).
Proof.
  apply (@train_test_indexes_deterministic rot_generator); reflexivity.
Defined.

(** ** The experiment runner *)

Lemma stateful_bind_inr {S A B} (m : stateful S A) (k : A -> stateful S B)
  (st st' : S) (b : B) :
  (m ≫= k) st = (st', inr b)
  <-> exists a st1, m st = (st1, inr a) /\ k a st1 = (st', inr b).
Proof.
  unfold mbind, stateful_bind. destruct (m st) as [st1 [e|a]]; split.
  - intros [=].
  - by intros (a & st2 & [=] & _).
  - eauto.
  - by intros (a' & st2 & [= <- <-] & ?).
Qed.

Lemma lift_inr {S A} (r : result A) (st st' : S) (a : A) :
  lift r st = (st', inr a) <-> r = inr a /\ st' = st.
Proof. unfold lift. split; [by intros [= <- <-] | by intros [-> ->]]. Qed.

Lemma mret_inr {S A} (a a' : A) (st st' : S) :
  (mret a : stateful S A) st = (st', inr a') <-> a' = a /\ st' = st.
Proof. unfold mret, stateful_ret. split; [by intros [= <- <-] | by intros [-> ->]]. Qed.







Section Experiment.
Context {RS : RandomState} {SK : Sklearn RS}.

Lemma experiment_inr train_indexes test_indexes name data out n_jobs debug cfi
  ii fg_name targets st st' c :
  experiment train_indexes test_indexes name data out n_jobs debug cfi
    ii fg_name targets st = (st', inr c) ->
  (in_sweet_spot (rs_self st) targets = false /\ st' = st /\ c = Next)
  \/ (in_sweet_spot (rs_self st) targets = true /\ cfi = false
      /\ exists x_train y_train model r,
          take_rows data train_indexes = inr x_train
          /\ take_rows targets train_indexes = inr y_train
          /\ rf_fit n_jobs (_random_state (rs_self st)) x_train y_train = inr model
          /\ p_total r = occurrence targets
          /\ st' = put_report
                     (<[experiment_name name fg_name := r]> (_report (rs_self st)))
                     (put_models
                        (match out with
                         | Some _ => <[experiment_name name fg_name := model]> (rs_models st)
                         | None => rs_models st
                         end) st)
          /\ c = if ((0 <? debug) && (debug <=? Z.of_nat ii))%Z then Break else Next).
Proof.
  unfold experiment. intros H.
  apply stateful_bind_inr in H as (st0 & st1 & [= <- <-] & H).
  destruct (in_sweet_spot (rs_self st) targets) eqn:Hspot; cbn [negb] in H.
  2:{ apply mret_inr in H as [-> ->]. by left. }
  right. split; [done|].
  apply stateful_bind_inr in H as (x_train & st1 & [Hxtr ->]%lift_inr & H).
  apply stateful_bind_inr in H as (x_test & st1 & [Hxte ->]%lift_inr & H).
  apply stateful_bind_inr in H as (y_train & st1 & [Hytr ->]%lift_inr & H).
  apply stateful_bind_inr in H as (y_test & st1 & [Hyte ->]%lift_inr & H).
  apply stateful_bind_inr in H as (model & st1 & [Hfit ->]%lift_inr & H).
  apply stateful_bind_inr in H as ([] & st1 & Hmodels & H).
  apply stateful_bind_inr in H as (y_test_pred & st2 & [_ ->]%lift_inr & H).
  apply stateful_bind_inr in H as (y_train_pred & st2 & [_ ->]%lift_inr & H).
  apply stateful_bind_inr in H as (test_acc & st2 & [_ ->]%lift_inr & H).
  apply stateful_bind_inr in H as (train_acc & st2 & [_ ->]%lift_inr & H).
  apply stateful_bind_inr in H as (test_bal & st2 & [_ ->]%lift_inr & H).
  apply stateful_bind_inr in H as (train_bal & st2 & [_ ->]%lift_inr & H).
  apply stateful_bind_inr in H as ([] & st2 & Hreport & H).
  apply stateful_bind_inr in H as ([] & st3 & Hcfi & H).
  destruct cfi.
  { exfalso.
    apply stateful_bind_inr in Hcfi as (fi & st4 & _ & Hcfi).
    apply stateful_bind_inr in Hcfi as ([] & st5 & _ & Hcfi).
    apply stateful_bind_inr in Hcfi as (b & st6 & _ & Hcfi).
    apply stateful_bind_inr in Hcfi as (popped & st7 & _ & Hcfi).
    apply stateful_bind_inr in Hcfi as (mean & st8 & [Hmean _]%lift_inr & _).
    unfold bunch_call in Hmean. by destruct (popped.2 !! "mean"). }
  apply mret_inr in Hcfi as [_ ->]. split; [done|].
  eexists x_train, y_train, model, _. split_and!; [done | done | done | | | ].
  3:{ destruct ((0 <? debug) && (debug <=? Z.of_nat ii))%Z;
        by apply mret_inr in H as [-> _]. }
  2:{ assert (st' = st2) as ->
        by (destruct ((0 <? debug) && (debug <=? Z.of_nat ii))%Z;
            by apply mret_inr in H as [_ ->]).
      unfold report_setitem, modify_self in Hreport.
      injection Hreport as <-.
      destruct out as [dir|].
      - unfold models_setitem in Hmodels.
        apply stateful_bind_inr in Hmodels as (st4 & st5 & [= <- <-] & Hmodels).
        unfold set_models in Hmodels. injection Hmodels as <-. reflexivity.
      - apply mret_inr in Hmodels as [_ ->]. by destruct st. }
  reflexivity.
Qed.
















End Experiment.

Section Loops.
Context {RS : RandomState} {SK : Sklearn RS}.

Lemma for_functional_groups_invariant (I : run_state -> Prop)
  (body : nat -> string -> list Z -> stateful run_state control)
  (items : list (nat * (string * list Z))) (st st' : run_state) :
  (forall ii fg_name targets st st' c,
      body ii fg_name targets st = (st', inr c) -> I st -> I st') ->
  for_functional_groups body items st = (st', inr tt) -> I st -> I st'.
Proof.
  intros Hbody. revert st.
  induction items as [|[ii [fg_name targets]] items IH]; intros st; simpl.
  - by intros [_ ->]%mret_inr.
  - intros (c & st1 & Hc & H)%stateful_bind_inr Hst.
    assert (I st1) by by eapply Hbody.
    destruct c; [by eapply IH | by apply mret_inr in H as [_ ->]].
Qed.

Lemma for_each_invariant {A} (I : run_state -> Prop)
  (body : A -> stateful run_state unit) (l : list A) (st st' : run_state) :
  (forall a st st', body a st = (st', inr tt) -> I st -> I st') ->
  for_each body l st = (st', inr tt) -> I st -> I st'.
Proof.
  intros Hbody. revert st. induction l as [|a l IH]; intros st; simpl.
  - by intros [_ ->]%mret_inr.
  - intros ([] & st1 & Ha & H)%stateful_bind_inr Hst.
    eapply IH; [exact H|]. by eapply Hbody.
Qed.

Lemma experiment_reconciled R0 train_indexes test_indexes name data dir n_jobs
  debug cfi ii fg_name targets st st' c :
  experiment train_indexes test_indexes name data (Some dir) n_jobs debug cfi
    ii fg_name targets st = (st', inr c) ->
  reconciled R0 st -> reconciled R0 st'.
Proof.
  intros [(_ & -> & _) | (_ & _ & Hyes)]%experiment_inr; [done|].
  destruct Hyes as (x_train & y_train & model & r & _ & _ & _ & _ & -> & _).
  unfold reconciled. simpl. rewrite !dom_insert_L. intros ->. set_solver.
Qed.

Lemma for_combo_reconciled R0 data xanes_data ssl train_indexes test_indexes
  conditions_list dir n_jobs debug cfi combo st st' :
  for_combo data xanes_data ssl train_indexes test_indexes conditions_list
    (Some dir) n_jobs debug cfi combo st = (st', inr tt) ->
  reconciled R0 st -> reconciled R0 st'.
Proof.
  unfold for_combo.
  intros (names & st1 & [_ ->]%lift_inr & H)%stateful_bind_inr.
  apply stateful_bind_inr in H as (current & st1 & [_ ->]%lift_inr & H).
  eapply for_functional_groups_invariant; [|exact H].
  intros ii fg_name targets s s' c. apply experiment_reconciled.
Qed.

Lemma self_train_test_indexes_report st st' v :
  self_train_test_indexes st = (st', inr v) ->
  _report (rs_self st') = _report (rs_self st)
  /\ rs_models st' = rs_models st.
Proof.
  unfold self_train_test_indexes.
  intros (s & st1 & [= <- <-] & H)%stateful_bind_inr.
  destruct (cached_train_test_indexes (rs_self st)).
  - by apply mret_inr in H as [_ ->].
  - apply stateful_bind_inr in H as (v' & st1 & Hrng & H).
    apply stateful_bind_inr in H as ([] & st2 & Hmod & H).
    apply mret_inr in H as [_ ->].
    unfold modify_self in Hmod. injection Hmod as <-.
    unfold with_rng in Hrng.
    destruct (train_test_indexes (rs_self st) (rs_rng st)).
    by injection Hrng as <- _.
Qed.

Lemma run_experiments_body_inr input_data dir n_jobs debug cfi st st' files :
  run_experiments_body input_data (Some dir) n_jobs debug cfi st
  = (st', inr files) ->
  files = Some {| report_path :=
                    String.append dir
                      (String.append "/"
                         (String.append (base_name (rs_self st)) ".json"));
                  report_json := to_json (rs_self st');
                  model_path :=
                    String.append dir
                      (String.append "/"
                         (String.append (base_name (rs_self st)) "_models.pkl"));
                  models_pkl := rs_models st' |}
  /\ reconciled (_report (rs_self st)) st'.
Proof.
  unfold run_experiments_body.
  intros (s & st1 & [= <- <-] & H)%stateful_bind_inr.
  apply stateful_bind_inr in H as (data & st1 & [_ ->]%lift_inr & H).
  apply stateful_bind_inr in H as (xn & st1 & [_ ->]%lift_inr & H).
  apply stateful_bind_inr in H as ([] & st1 & Hsize & H).
  apply stateful_bind_inr in H as (ssl & st2 & [_ ->]%lift_inr & H).
  apply stateful_bind_inr in H as (indexes & st2 & Hidx & H).
  apply stateful_bind_inr in H as ([] & st3 & Hmodels & H).
  apply stateful_bind_inr in H as ([] & st4 & Hloop & H).
  apply stateful_bind_inr in H as (s4 & st5 & [= <- <-] & H).
  apply mret_inr in H as [-> ->]. split; [done|].
  eapply for_each_invariant; [|exact Hloop|].
  { intros combo s s'. apply for_combo_reconciled. }
  apply self_train_test_indexes_report in Hidx as [Hrep _].
  unfold set_models in Hmodels. injection Hmodels as <-.
  unfold modify_self in Hsize. injection Hsize as <-.
  unfold reconciled. simpl. simpl in Hrep. rewrite Hrep, dom_empty_L.
  set_solver.
Qed.

(** C5, amended. When [run_experiments] is given an output directory and
    returns, the keys of the persisted report are the keys the report had
    when the call started together with the keys of the saved models; every
    key of the saved models is a key of the persisted report; and the two
    key sets are the same when the report was empty at the start. *)
Theorem persisted_keys_reconciled (self : Results) (g : rng)
  (input_data : xanes_store * DataFrame) (dir : string) (n_jobs debug : Z)
  (cfi : bool) (st' : run_state) (files : saved_files) :
  run_experiments self g input_data (Some dir) n_jobs debug cfi
  = (st', inr (Some files)) ->
  dom (doc_report (report_json files))
  = dom (_report self) ∪ dom (models_pkl files)
  /\ dom (models_pkl files) ⊆ dom (doc_report (report_json files))
  /\ (_report self = ∅ ->
      dom (doc_report (report_json files)) = dom (models_pkl files)).
Proof.
  unfold run_experiments.
  intros [[= ->] Hrec]%run_experiments_body_inr. simpl in *.
  unfold reconciled in Hrec. simpl in Hrec.
  split_and!.
  - exact Hrec.
  - rewrite Hrec. set_solver.
  - intros Hempty. rewrite Hrec, Hempty, dom_empty_L. set_solver.
Qed.
End Loops.

(** ** Runs on the example data *)



(** C8, witness: the example table under the condition ["C-XANES"]. *)
Lemma functional_groups_iff_nonzero_witness :
  exists d masks,
    get_dataset example_store example_index "C-XANES" = inr d
    /\ map_result (condition_mask example_index)
         (expand_conditions "C-XANES") = inr masks
    /\ ds_index d = df_select (all_hold masks 5) example_index
    /\ ds_FG d
       = kept_groups (drop 7 (df_select (all_hold masks 5) example_index))
    /\ (forall i name c,
           7 <= i -> example_index !! i = Some (name, c) ->
           exists l,
             c = ColInt l
             /\ (name ∈ List.map fst (ds_FG d)
                 <-> sum_Z (select (all_hold masks 5) l) <> 0%Z)
             /\ (Forall (eq 0%Z) (select (all_hold masks 5) l) ->
                 name ∉ List.map fst (ds_FG d))
             /\ (1%Z ∈ select (all_hold masks 5) l ->
                 dict_get name (ds_FG d)
                 = inr (select (all_hold masks 5) l))
             /\ (forall v, dict_get name (ds_FG d) = inr v ->
                           v = select (all_hold masks 5) l))
    /\ (forall name v,
           (name, v) ∈ ds_FG d ->
           exists i l,
             7 <= i /\ example_index !! i = Some (name, ColInt l)
             /\ v = select (all_hold masks 5) l).
Proof.
  assert (Hok : match get_dataset example_store example_index "C-XANES" with
                | inr _ => true
                | inl _ => false
                end = true) by (vm_compute; reflexivity).
  destruct (get_dataset example_store example_index "C-XANES") as [e|d] eqn:Hd;
    [discriminate Hok|].
  destruct (functional_groups_iff_nonzero example_store example_index
              "C-XANES" d 5) as (masks & H).
  - repeat constructor.
  - apply (bool_decide_unpack _). vm_compute. exact I.
  - repeat (apply Forall_cons_2;
            [eexists; split;
             [reflexivity
             | repeat (apply Forall_cons_2; [lia|]); apply Forall_nil_2]|]).
    apply Forall_nil_2.
  - exact Hd.
  - exists d, masks. split; [reflexivity | exact H].
Defined.

(** C9, the code at the failing input. With [debug = 1] and three labels in
    the sweet spot, the inner loop records two experiments, not one: the
    records of the first two labels are there and as without [debug], the
    third is missing. *)
Lemma debug_stops_after_one_more_label :
  keys (_report (rs_self (fst (example_run "C-XANES" None 1))))
  = ["C-XANES-FG1"; "C-XANES-FG2"]
  /\ keys (_report (rs_self (fst (example_run "C-XANES" None (-1)))))
     = ["C-XANES-FG1"; "C-XANES-FG2"; "C-XANES-FG4"]
  /\ _report (rs_self (fst (example_run "C-XANES" None 1))) !! "C-XANES-FG1"
     = _report (rs_self (fst (example_run "C-XANES" None (-1))))
         !! "C-XANES-FG1"
  /\ _report (rs_self (fst (example_run "C-XANES" None 1))) !! "C-XANES-FG2"
     = _report (rs_self (fst (example_run "C-XANES" None (-1))))
         !! "C-XANES-FG2".
Proof. split_and!; vm_compute; reflexivity. Qed.

(** C4, the code at the failing input. For the conditions ["C-XANES,!N"] the
    one modality is ["C-XANES"], the features are its spectra, and the
    dataset has nothing under ["!N"]; the names are taken from the sorted
    conditions, whose first is ["!N"], so the experiments are recorded under
    ["!N-FG1"], ["!N-FG2"] and ["!N-FG4"]. *)
Lemma name_of_first_condition_not_of_block :
  xanes_keys_avail (Results_default "C-XANES,!N") = ["C-XANES"]
  /\ py_split "_" (base_name (Results_default "C-XANES,!N"))
     = ["!N"; "C-XANES"]
  /\ (data ← get_data (Results_default "C-XANES,!N")
               (example_store, example_index);
      xn ← _get_xanes_data (Results_default "C-XANES,!N") data;
      mret (fst xn, ds_xanes data !! "C-XANES", ds_xanes data !! "!N"))
     = inr ([example_spectrum 1 2; example_spectrum 3 4],
            Some [example_spectrum 1 2; example_spectrum 3 4], None)
  /\ keys (_report (rs_self (fst (example_run "C-XANES,!N" None (-1)))))
     = ["!N-FG1"; "!N-FG2"; "!N-FG4"].
Proof. split_and!; vm_compute; reflexivity. Qed.

(** C5, counterexample. An object constructed with a report that already
    has the key ["old"] persists a report with that key and a model store
    without it. *)
Lemma carried_report_counterexample :
  (files ← written_files
             (example_run "C-XANES" (Some {["old" := example_record]}) (-1));
   Some (keys (doc_report (report_json files)), keys (models_pkl files)))
  = Some (["C-XANES-FG1"; "C-XANES-FG2"; "C-XANES-FG4"; "old"],
          ["C-XANES-FG1"; "C-XANES-FG2"; "C-XANES-FG4"]).
Proof. vm_compute. reflexivity. Qed.

(** C5, witness: a run on the example data from an empty report. *)
Lemma persisted_keys_reconciled_witness :
  exists st' files,
    example_run "C-XANES" None (-1) = (st', inr (Some files))
    /\ dom (doc_report (report_json files))
       = dom (∅ : gmap string experiment_record) ∪ dom (models_pkl files)
    /\ dom (models_pkl files) ⊆ dom (doc_report (report_json files))
    /\ ((∅ : gmap string experiment_record) = ∅ ->
        dom (doc_report (report_json files)) = dom (models_pkl files)).
Proof.
  assert (Hw : match written_files (example_run "C-XANES" None (-1)) with
               | Some _ => true
               | None => false
               end = true) by (vm_compute; reflexivity).
  destruct (example_run "C-XANES" None (-1)) as [st' [e|[files|]]] eqn:Hrun;
    try discriminate Hw.
  exists st', files. split; [reflexivity|].
  exact (@persisted_keys_reconciled rot_generator majority_classifier _ 0%Z
           (example_store, example_index) "out" 2 (-1) false st' files Hrun).
Defined.

(** A label that occurs in exactly 1 row of 50 has the occurrence 0.02, the
    lower bound itself, and is skipped; one that occurs in 2 rows of 50 is
    trained. *)
Example occurrence_at_the_bound_is_rejected :
  in_sweet_spot (Results_default "C-XANES") (1%Z :: repeat 0%Z 49) = false
  /\ in_sweet_spot (Results_default "C-XANES") (1%Z :: 1%Z :: repeat 0%Z 48)
     = true.
Proof. split; vm_compute; reflexivity. Qed.



(** * Further properties of the code *)

(** ** Counting the combinations *)

Lemma combinations_zero {A} (pool : list A) : combinations pool 0 = [[]].
Proof. by destruct pool. Qed.

Lemma combinations_cons {A} (x : A) pool r :
  combinations (x :: pool) (S r)
  = List.map (cons x) (combinations pool r) ++ combinations pool (S r).
Proof. reflexivity. Qed.

Lemma count_upto_S {A} (pool : list A) m :
  count_upto pool (S m) = count_upto pool m + length (combinations pool (S m)).
Proof. reflexivity. Qed.

Lemma count_upto_0 {A} (pool : list A) : count_upto pool 0 = 1.
Proof. unfold count_upto. by rewrite combinations_zero. Qed.

Lemma count_upto_nil {A} m : count_upto ([] : list A) m = 1.
Proof.
  induction m as [|m IH]; [apply count_upto_0|].
  rewrite count_upto_S, IH. simpl. lia.
Qed.

(** Pascal's rule, summed over the lengths. *)
Lemma count_upto_cons {A} (x : A) pool m :
  count_upto (x :: pool) (S m) + 1
  = count_upto pool m + count_upto pool (S m) + 1.
Proof.
  induction m as [|m IH].
  - rewrite !count_upto_S, !count_upto_0, combinations_cons, length_app,
      length_map, combinations_zero. simpl. lia.
  - rewrite (count_upto_S (x :: pool) (S m)), (count_upto_S pool (S m)),
      (count_upto_S pool m), combinations_cons, length_app, length_map.
    rewrite (count_upto_S pool m) in IH. lia.
Qed.

Lemma count_upto_pow {A} (pool : list A) m :
  length pool <= m -> count_upto pool m = 2 ^ length pool.
Proof.
  revert m. induction pool as [|x pool IH]; intros m Hm.
  - apply count_upto_nil.
  - destruct m as [|m]; [simpl in Hm; lia|]. simpl in Hm.
    pose proof (count_upto_cons x pool m) as Hc.
    rewrite (IH m), (IH (S m)) in Hc by lia.
    cbn [length]. rewrite Nat.pow_succ_r'.
    set (p := 2 ^ length pool) in *. clearbody p. lia.
Qed.

Lemma length_concat_combinations {A} (pool : list A) n :
  length (concat (List.map (fun nn => combinations pool (nn + 1)) (seq 0 n))) + 1
  = count_upto pool n.
Proof.
  induction n as [|n IH].
  - by rewrite count_upto_0.
  - rewrite seq_S, map_app, concat_app, length_app, count_upto_S.
    cbn [List.map concat Nat.add]. rewrite app_nil_r.
    replace (n + 1) with (S n) by lia. lia.
Qed.

Lemma get_all_combinations_head n :
  exists rest, get_all_combinations (S n) = [0] :: rest.
Proof.
  rewrite get_all_combinations_concat.
  cbn [seq List.map concat Nat.add].
  rewrite combinations_cons, combinations_zero. simpl. eauto.
Qed.

(** X1. For [n] modalities [get_all_combinations] returns [2 ** n - 1]
    combinations: one for every subset of the positions but the empty
    one. *)
Theorem get_all_combinations_length (n : nat) :
  length (get_all_combinations n) = 2 ^ n - 1.
Proof.
  rewrite get_all_combinations_concat.
  pose proof (length_concat_combinations (seq 0 n) n) as H.
  rewrite count_upto_pow in H by (rewrite length_seq; lia).
  rewrite length_seq in H. set (p := 2 ^ n) in *. clearbody p. lia.
Qed.

(** ** Splitting, joining and sorting the conditions *)

Lemma py_split_no_sep sep s : has_char sep s = false -> py_split sep s = [s].
Proof.
  induction s as [|c s IH]; simpl; [done|].
  intros [Hc Hs]%orb_false_elim. rewrite Hc, IH by done. done.
Qed.

Lemma py_split_app sep w rest :
  has_char sep w = false ->
  py_split sep (String.append w (String sep rest)) = w :: py_split sep rest.
Proof.
  induction w as [|c w IH]; simpl.
  - intros _. by rewrite Ascii.eqb_refl.
  - intros [Hc Hw]%orb_false_elim. rewrite Hc, IH by done. done.
Qed.

Lemma py_split_pieces sep s :
  Forall (fun w => has_char sep w = false) (py_split sep s).
Proof.
  induction s as [|c s IH]; simpl.
  - by constructor.
  - destruct (Ascii.eqb c sep) eqn:Hc.
    + by constructor.
    + destruct (py_split sep s) as [|w ws].
      * constructor; [|done]. simpl. by rewrite Hc.
      * apply Forall_cons in IH as [Hw Hws]. constructor; [|done].
        simpl. by rewrite Hc.
Qed.

Lemma py_split_join sep (l : list string) :
  l <> [] -> Forall (fun w => has_char sep w = false) l ->
  py_split sep (py_join (String sep EmptyString) l) = l.
Proof.
  unfold py_join. induction l as [|w l IH]; [done|]. intros _ Hall.
  apply Forall_cons in Hall as [Hw Hl].
  destruct l as [|w' l].
  - by apply py_split_no_sep.
  - change (String.concat (String sep EmptyString) (w :: w' :: l))
      with (String.append w
              (String sep (String.concat (String sep EmptyString) (w' :: l)))).
    rewrite py_split_app by done. f_equal. by apply IH.
Qed.

Lemma py_split_replace a b s :
  has_char b s = false -> py_split b (py_replace a b s) = py_split a s.
Proof.
  induction s as [|c s IH]; simpl; [done|].
  intros [Hc Hs]%orb_false_elim. rewrite IH by done.
  destruct (Ascii.eqb_spec c a) as [->|Hne].
  - by rewrite Ascii.eqb_refl.
  - by rewrite Hc.
Qed.

Lemma has_char_split c sep s :
  has_char c s = false ->
  Forall (fun w => has_char c w = false) (py_split sep s).
Proof.
  induction s as [|x s IH]; simpl.
  - intros _. by repeat constructor.
  - intros [Hx Hs]%orb_false_elim. specialize (IH Hs).
    destruct (Ascii.eqb x sep).
    + by constructor.
    + destruct (py_split sep s) as [|w ws].
      * constructor; [|done]. simpl. by rewrite Hx.
      * apply Forall_cons in IH as [Hw Hws]. constructor; [|done].
        simpl. by rewrite Hx.
Qed.

Lemma has_char_append c s1 s2 :
  has_char c (String.append s1 s2) = has_char c s1 || has_char c s2.
Proof.
  induction s1 as [|x s1 IH]; simpl; [done|]. by rewrite IH, orb_assoc.
Qed.

Lemma has_char_join c sep (l : list string) :
  Ascii.eqb sep c = false ->
  Forall (fun w => has_char c w = false) l ->
  has_char c (py_join (String sep EmptyString) l) = false.
Proof.
  intros Hsep. unfold py_join. induction 1 as [|w l Hw Hl IH]; simpl; [done|].
  destruct l as [|w' l]; [done|].
  rewrite has_char_append, Hw. simpl. rewrite Hsep. exact IH.
Qed.

Lemma sorted_str_Permutation l1 l2 :
  l1 ≡ₚ l2 -> sorted_str l1 = sorted_str l2.
Proof.
  intros Hp. unfold sorted_str.
  apply (Sorted_unique String.le); try apply (Sorted_merge_sort String.le).
  by rewrite !merge_sort_Permutation.
Qed.

Lemma sorted_str_tokens l : sorted_str l ≡ₚ l.
Proof. apply merge_sort_Permutation. Qed.

Lemma sorted_str_not_nil sep s : sorted_str (py_split sep s) <> [].
Proof.
  intros Hnil. pose proof (sorted_str_tokens (py_split sep s)) as Hp.
  rewrite Hnil in Hp. apply Permutation_nil_l in Hp.
  symmetry in Hp. by apply py_split_not_nil in Hp.
Qed.

(** The tokens of the text [__init__] stores are the sorted tokens of the
    text it was given. *)
Lemma py_split_sorted_join conditions :
  py_split "," (py_join "," (sorted_str (py_split "," conditions)))
  = sorted_str (py_split "," conditions).
Proof.
  apply py_split_join.
  - apply sorted_str_not_nil.
  - rewrite sorted_str_tokens. apply py_split_pieces.
Qed.

(** ** The condition evaluator as one pass *)

(** X6. On a table of [n] rows the filter loop of [get_dataset] is one
    pass: it returns the table restricted to the rows on which every token
    holds, each token evaluated on the table as it was given, and it raises
    what the first token that cannot be evaluated raises. *)
Theorem refine_index_single_pass (n : nat) (cs : list string)
  (index : DataFrame) :
  has_rows n index ->
  refine_index cs index
  = masks ← map_result (condition_mask index) cs;
    mret (df_select (fold_left (zip_with andb) masks (repeat true n)) index).
Proof.
  intros Hrows. rewrite <- refine_index_masked.
  by rewrite (df_select_all_true n index Hrows).
Qed.

Lemma df_getitem_inr (index : DataFrame) name :
  name ∈ List.map fst index <-> exists c, df_getitem index name = inr c.
Proof.
  unfold df_getitem. induction index as [|[k c] index IH]; simpl.
  - split; [by intros ?%elem_of_nil | by intros [? [=]]].
  - destruct (decide (k = name)) as [->|Hne].
    + split; [eauto | intros; left].
    + rewrite elem_of_cons, IH. naive_solver.
Qed.

Lemma df_getitem_inl (index : DataFrame) name e :
  df_getitem index name = inl e -> e = KeyError /\ name ∉ List.map fst index.
Proof.
  intros He. split.
  - unfold df_getitem in He. induction index as [|[k c] index IH]; simpl in He.
    + by injection He as <-.
    + destruct (decide (k = name)); [done | auto].
  - intros [c Hc]%df_getitem_inr. congruence.
Qed.

Lemma apply_condition_labels index c index' :
  apply_condition index c = inr index' ->
  List.map fst index' = List.map fst index.
Proof.
  intros (name & v & col & _ & -> & _)%apply_condition_inr.
  apply df_select_labels.
Qed.

(** X7. The filter loop of [get_dataset] returns exactly when every token
    is non-empty and names a column of the table, and then keeps the column
    labels. When it raises, the tokens before the first that cannot be
    evaluated are fine, and the exception is [IndexError] for an empty
    token and [KeyError] for a token whose column is missing; it raises
    nothing else. *)
Theorem refine_index_raises (cs : list string) (index : DataFrame) :
  match refine_index cs index with
  | inr index' =>
      Forall (evaluable index) cs
      /\ List.map fst index' = List.map fst index
  | inl e =>
      exists pre c post,
        cs = pre ++ c :: post
        /\ Forall (evaluable index) pre
        /\ ((c = EmptyString /\ e = IndexError)
            \/ (exists t, condition_test c = inr t
                          /\ (fst t ∉ List.map fst index) /\ e = KeyError))
  end.
Proof.
  unfold refine_index.
  assert (Hgen : forall index0,
             List.map fst index0 = List.map fst index ->
             match fold_result apply_condition cs index0 with
             | inr index' =>
                 Forall (evaluable index) cs
                 /\ List.map fst index' = List.map fst index
             | inl e =>
                 exists pre c post,
                   cs = pre ++ c :: post
                   /\ Forall (evaluable index) pre
                   /\ ((c = EmptyString /\ e = IndexError)
                       \/ (exists t, condition_test c = inr t
                                     /\ (fst t ∉ List.map fst index)
                                     /\ e = KeyError))
             end); [|by apply Hgen].
  induction cs as [|c cs IH]; intros index0 Hlab; simpl.
  - split; [constructor | done].
  - destruct (apply_condition index0 c) as [e|index1] eqn:Hc; simpl.
    + exists [], c, cs. split; [done|]. split; [constructor|].
      rewrite apply_condition_test in Hc.
      destruct (condition_test c) as [e'|[name v]] eqn:Ht; simpl in Hc.
      * left. destruct c as [|ch rest].
        -- injection Ht as <-. by injection Hc as <-.
        -- unfold condition_test in Ht.
           destruct (Ascii.eqb "!" ch); discriminate Ht.
      * right. exists (name, v). split; [done|]. simpl.
        destruct (df_getitem index0 name) as [e'|col] eqn:Hcol; [|done].
        simpl in Hc. injection Hc as <-.
        apply df_getitem_inl in Hcol as [-> Hnot]. by rewrite <- Hlab.
    + assert (Hev : evaluable index c).
      { apply apply_condition_inr in Hc as Hc'.
        destruct Hc' as (name & v & col & Hcol & _ & Hform).
        exists (name, v). split.
        - destruct c as [|ch rest]; [done|]. unfold condition_test.
          destruct (Ascii.eqb "!" ch); destruct Hform as [-> ->]; done.
        - simpl. rewrite <- Hlab. apply df_getitem_inr. eauto. }
      apply apply_condition_labels in Hc.
      specialize (IH index1 (eq_trans Hc Hlab)).
      destruct (fold_result apply_condition cs index1) as [e|index'].
      * destruct IH as (pre & c' & post & -> & Hpre & Hcase).
        exists (c :: pre), c', post. split; [done|]. split; [by constructor|done].
      * destruct IH as [Hall Hl]. split; [by constructor | done].
Qed.

(** ** The dataset *)

Lemma filter_Permutation_list {A} (f : A -> bool) l l' :
  l ≡ₚ l' -> List.filter f l ≡ₚ List.filter f l'.
Proof.
  induction 1 as [|x l l' Hp IH|x y l|l l' l'' Hp1 IH1 Hp2 IH2]; simpl.
  - done.
  - destruct (f x); by rewrite IH.
  - destruct (f x), (f y); try done. apply perm_swap.
  - by etrans.
Qed.

Lemma expand_conditions_Permutation c1 c2 :
  py_split "," c1 ≡ₚ py_split "," c2 ->
  expand_conditions c1 ≡ₚ expand_conditions c2.
Proof.
  intros Hp. unfold expand_conditions, cc_conditions.
  apply Permutation_app; [done|].
  apply Permutation_map. by apply filter_Permutation_list.
Qed.

Section FoldInsert.
Context {V : Type} (F : string -> result V).

(** A loop that stores [F key] under every key of a list: what it leaves
    under each key. *)
Lemma fold_insert_lookup l (d0 d : gmap string V) :
  fold_result (fun d key => v ← F key; mret (<[key := v]> d)) l d0 = inr d ->
  Forall (fun k => exists v, F k = inr v) l
  /\ forall k, d !! k = if decide (k ∈ l)
                        then match F k with inr v => Some v | inl _ => None end
                        else d0 !! k.
Proof.
  revert d0. induction l as [|a l IH]; intros d0; simpl.
  - intros [= <-]. split; [constructor|]. intros k.
    destruct (decide (k ∈ [])) as [Hin|]; [by apply elem_of_nil in Hin|done].
  - intros (d1 & Ha & Hl)%bind_inr.
    apply bind_inr in Ha as (v & Hv & [= <-]).
    apply IH in Hl as [Hall Hlook]. split; [constructor; eauto|].
    intros k. rewrite Hlook.
    destruct (decide (k ∈ l)) as [Hin|Hnin].
    + rewrite decide_True by (by right). done.
    + destruct (decide (k = a)) as [->|Hne].
      * rewrite decide_True by left. by rewrite lookup_insert_eq, Hv.
      * rewrite lookup_insert_ne by done.
        rewrite decide_False; [done|].
        intros [?|?]%elem_of_cons; done.
Qed.

Lemma fold_insert_total l (d0 : gmap string V) :
  Forall (fun k => exists v, F k = inr v) l ->
  exists d,
    fold_result (fun d key => v ← F key; mret (<[key := v]> d)) l d0 = inr d.
Proof.
  intros Hall. revert d0.
  induction Hall as [|a l [v Hv] Hall IH]; intros d0; simpl; [eauto|].
  rewrite Hv. simpl. apply IH.
Qed.

Lemma fold_insert_Permutation l l' (d0 d : gmap string V) :
  l ≡ₚ l' ->
  fold_result (fun d key => v ← F key; mret (<[key := v]> d)) l d0 = inr d ->
  fold_result (fun d key => v ← F key; mret (<[key := v]> d)) l' d0 = inr d.
Proof.
  intros Hp [Hall Hlook]%fold_insert_lookup.
  rewrite Hp in Hall.
  destruct (fold_insert_total l' d0 Hall) as [d' Hd'].
  rewrite Hd'. f_equal.
  apply fold_insert_lookup in Hd' as [_ Hlook'].
  apply map_eq. intros k. rewrite Hlook, Hlook'.
  destruct (decide (k ∈ l)) as [Hin|Hnin].
  - rewrite decide_True; [done|]. by rewrite <- Hp.
  - rewrite decide_False; [done|]. by rewrite <- Hp.
Qed.
End FoldInsert.

Lemma get_dataset_Permutation xanes index c1 c2 d :
  py_split "," c1 ≡ₚ py_split "," c2 ->
  get_dataset xanes index c1 = inr d -> get_dataset xanes index c2 = inr d.
Proof.
  intros Hp%expand_conditions_Permutation. unfold get_dataset.
  intros (index' & Hidx & H)%bind_inr.
  apply bind_inr in H as (smiles & Hsm & H).
  apply bind_inr in H as (fx & Hfx & H).
  apply bind_inr in H as (fgr & Hfgr & H).
  pose proof (filter_Permutation_list has_xanes _ _ Hp) as Hpx.
  apply bind_inr. exists index'.
  split; [by eapply refine_index_Permutation|].
  apply bind_inr. exists smiles. split; [done|].
  apply bind_inr. exists fx. split.
  { exact (fold_insert_Permutation
             (fun key => map_result (spectrum_of xanes key) (to_keys smiles))
             _ _ _ _ Hpx Hfx). }
  apply bind_inr. exists fgr. split; [|exact H].
  exact (fold_insert_Permutation
           (fun key => map_getitem (xs_grids xanes) (cc_of key))
           _ _ _ _ Hpx Hfgr).
Qed.

(** X4. [get_dataset] does not depend on the order of the tokens: two
    condition expressions with the same tokens, in any order, give the same
    dataset, and one raises when the other does. *)
Theorem get_dataset_order_insensitive (xanes : xanes_store)
  (index : DataFrame) (c1 c2 : string) (d : dataset) :
  py_split "," c1 ≡ₚ py_split "," c2 ->
  get_dataset xanes index c1 = inr d <-> get_dataset xanes index c2 = inr d.
Proof.
  intros Hp. split; apply get_dataset_Permutation; [done | by symmetry].
Qed.

(** What a dataset that was returned holds under each key. *)
Lemma get_dataset_inr xanes index conditions d :
  get_dataset xanes index conditions = inr d ->
  exists smiles,
    df_getitem (ds_index d) "SMILES" = inr smiles
    /\ (forall key,
           key ∈ xanes_conditions conditions ->
           exists m g,
             ds_xanes d !! key = Some m
             /\ map_result (spectrum_of xanes key) (to_keys smiles) = inr m
             /\ ds_grid d !! key = Some g
             /\ xs_grids xanes !! cc_of key = Some g)
    /\ (forall key,
           key ∉ xanes_conditions conditions ->
           ds_xanes d !! key = None /\ ds_grid d !! key = None).
Proof.
  unfold get_dataset.
  intros (index' & Hidx & H)%bind_inr.
  apply bind_inr in H as (smiles & Hsm & H).
  apply bind_inr in H as (fx & Hfx & H).
  apply bind_inr in H as (fgr & Hfgr & H).
  apply bind_inr in H as (FG & HFG & [= <-]). simpl.
  exists smiles. split; [done|].
  apply (fold_insert_lookup
           (fun key => map_result (spectrum_of xanes key) (to_keys smiles)))
    in Hfx as [Hxall Hxlook].
  apply (fold_insert_lookup
           (fun key => map_getitem (xs_grids xanes) (cc_of key)))
    in Hfgr as [Hgall Hglook].
  fold (xanes_conditions conditions) in *.
  split.
  - intros key Hkey.
    rewrite Forall_forall in Hxall, Hgall.
    destruct (Hxall key Hkey) as [m Hm]. destruct (Hgall key Hkey) as [g Hg].
    exists m, g. rewrite Hxlook, Hglook, !decide_True by done.
    rewrite Hm, Hg. split_and!; try done.
    unfold map_getitem in Hg.
    destruct (xs_grids xanes !! cc_of key); [by injection Hg as -> | done].
  - intros key Hkey. rewrite Hxlook, Hglook, !decide_False by done.
    by rewrite !lookup_empty.
Qed.

(** X8. In a dataset [get_dataset] returned, the spectra are aligned with
    the refined index: under every token that contains ["XANES"] (the
    appended complementary ones included) there is an array with one row per
    row of the index, row [i] being the spectrum of that modality of the
    molecule in row [i] of the ["SMILES"] column, and the grid of the
    token's element; no other key holds spectra or a grid. *)
Theorem get_dataset_spectra_aligned (xanes : xanes_store) (index : DataFrame)
  (conditions : string) (d : dataset) :
  get_dataset xanes index conditions = inr d ->
  exists smiles,
    df_getitem (ds_index d) "SMILES" = inr smiles
    /\ (forall key,
           key ∈ xanes_conditions conditions ->
           exists m g,
             ds_xanes d !! key = Some m
             /\ length m = length (to_keys smiles)
             /\ (forall i smile,
                    to_keys smiles !! i = Some smile ->
                    exists row, m !! i = Some row
                                /\ spectrum_of xanes key smile = inr row)
             /\ ds_grid d !! key = Some g
             /\ xs_grids xanes !! cc_of key = Some g)
    /\ (forall key,
           key ∉ xanes_conditions conditions ->
           ds_xanes d !! key = None /\ ds_grid d !! key = None).
Proof.
  intros (smiles & Hsm & Hin & Hout)%get_dataset_inr.
  exists smiles. split; [done|]. split; [|done].
  intros key Hkey. destruct (Hin key Hkey) as (m & g & Hm & Hrows & Hg & Hgrid).
  exists m, g. apply map_result_lookup in Hrows as [Hlen Hrows].
  split_and!; done.
Qed.

(** ** The conditions an object stores *)

Section StoredConditions.
Variables (xanes_data_name index_data_name : string).
Variables (offset_left offset_right : option Z) (test_size : float).
Variables (random_state : Z) (min_fg_occurrence max_fg_occurrence : float).
Variables (data_size : option Z) (data_loaded_from : option string).
Variable (report : option (gmap string experiment_record)).

Local Notation make conditions :=
  (Results_init conditions xanes_data_name index_data_name offset_left
     offset_right test_size random_state min_fg_occurrence
     max_fg_occurrence data_size data_loaded_from report).

(** X2. The condition text an object stores is canonical: its tokens are
    the tokens it was given, sorted; two texts with the same tokens in any
    order are stored as the same text; and constructing an object from a
    stored text stores that text again. *)
Theorem stored_conditions_canonical (c1 c2 : string) :
  py_split "," (_conditions (make c1)) = sorted_str (py_split "," c1)
  /\ Sorted String.le (py_split "," (_conditions (make c1)))
  /\ (py_split "," c1 ≡ₚ py_split "," c2 ->
      _conditions (make c1) = _conditions (make c2))
  /\ _conditions (make (_conditions (make c1))) = _conditions (make c1).
Proof.
  simpl. rewrite !py_split_sorted_join. split_and!.
  - done.
  - apply (Sorted_merge_sort String.le).
  - intros Hp. by rewrite (sorted_str_Permutation _ _ Hp).
  - by rewrite (sorted_str_Permutation _ _ (sorted_str_tokens _)).
Qed.

(** X3. For conditions without an underscore, the list of names that
    [run_experiments] indexes with the positions of a combination
    ([base_name.split("_")]) is the list of all sorted tokens of the
    conditions, negated and element tokens included. *)
Theorem conditions_list_is_sorted_tokens (conditions : string) :
  has_char "_" conditions = false ->
  py_split "_" (base_name (make conditions))
  = sorted_str (py_split "," conditions).
Proof.
  intros Hfree. unfold base_name. simpl.
  assert (Hpieces : Forall (fun w => has_char "_" w = false)
                      (sorted_str (py_split "," conditions))).
  { rewrite sorted_str_tokens. by apply has_char_split. }
  rewrite py_split_replace by (by apply has_char_join).
  apply py_split_sorted_join.
Qed.

(** X5. Storing the conditions sorted does not change the data: the
    dataset an object loads is the dataset [get_dataset] gives for the
    conditions as they were written. *)
Theorem get_data_of_conditions_as_given (conditions : string)
  (xanes : xanes_store) (index : DataFrame) (d : dataset) :
  get_data (make conditions) (xanes, index) = inr d
  <-> get_dataset xanes index conditions = inr d.
Proof.
  unfold get_data. simpl.
  assert (Hp : py_split ","
                 (py_join "," (sorted_str (py_split "," conditions)))
               ≡ₚ py_split "," conditions).
  { rewrite py_split_sorted_join. apply sorted_str_tokens. }
  split; apply get_dataset_Permutation; [done | by symmetry].
Qed.
End StoredConditions.

(** ** Arrays packed by columns *)

Lemma shape_zip_with_app n w1 w2 a b :
  has_shape n w1 a -> has_shape n w2 b -> has_shape n (w1 + w2) (zip_with app a b).
Proof.
  intros [Hla Ha] [Hlb Hb]. split.
  - rewrite length_zip_with. lia.
  - clear Hla Hlb. revert b Hb.
    induction Ha as [|ra a Hra Ha IH]; intros b Hb; [constructor|].
    destruct Hb as [|rb b Hrb Hb]; simpl; constructor; auto.
    rewrite length_app. lia.
Qed.

Lemma column_block_left n w1 lo hi (a b : matrix) :
  has_shape n w1 a -> length b = n -> hi <= w1 ->
  column_block lo hi (zip_with app a b) = column_block lo hi a.
Proof.
  intros [Hla Ha] Hlb Hhi. unfold column_block. subst n.
  revert b Hlb. induction Ha as [|ra a Hra Ha IH]; intros [|rb b] Hlb;
    simpl in *; try done.
  rewrite IH by lia. f_equal.
  destruct (decide (lo <= w1)) as [Hlo|Hlo].
  - rewrite drop_app_le by lia. rewrite take_app_le; [done|].
    rewrite length_drop. lia.
  - by replace (hi - lo) with 0 by lia.
Qed.

Lemma column_block_right n w1 w2 (a b : matrix) :
  has_shape n w1 a -> has_shape n w2 b ->
  column_block w1 (w1 + w2) (zip_with app a b) = b.
Proof.
  intros [Hla Ha] [Hlb Hb]. unfold column_block. subst n.
  revert b Hlb Hb. induction Ha as [|ra a Hra Ha IH]; intros [|rb b] Hlb Hb;
    simpl in *; try done.
  apply Forall_cons in Hb as [Hrb Hb].
  rewrite IH by (done || lia). f_equal.
  rewrite drop_app_length' by done.
  replace (w1 + w2 - w1) with w2 by lia. by rewrite take_ge by lia.
Qed.

Lemma np_concatenate_blocks n w (m : matrix) (ms : list matrix) :
  Forall (has_shape n w) (m :: ms) ->
  exists x,
    fold_result hstack ms m = inr x
    /\ has_shape n (w * S (length ms)) x
    /\ forall i b, (m :: ms) !! i = Some b ->
                   column_block (w * i) (w * (i + 1)) x = b.
Proof.
  induction ms as [|b ms IH] using rev_ind; intros Hall.
  - apply Forall_cons in Hall as [Hm _]. exists m. simpl.
    split; [done|]. split.
    { destruct Hm as [? ?]. split; [done|]. by rewrite Nat.mul_1_r. }
    intros [|i] b Hi; simpl in Hi; [|by rewrite lookup_nil in Hi].
    injection Hi as <-. rewrite Nat.mul_0_r, Nat.mul_1_r.
    destruct Hm as [_ Hm]. unfold column_block. rewrite Nat.sub_0_r.
    induction Hm as [|r m' Hr Hm IHm]; simpl; [done|].
    rewrite IHm. f_equal. rewrite drop_0. by rewrite take_ge by lia.
  - rewrite app_comm_cons in Hall. apply Forall_app in Hall as [Hpre Hb].
    apply Forall_cons in Hb as [Hb _].
    destruct (IH Hpre) as (x & Hx & Hshape & Hblocks).
    exists (zip_with app x b). rewrite fold_result_app, Hx. simpl.
    unfold hstack. destruct Hshape as [Hlx Hrx], Hb as [Hlb Hrb].
    rewrite Hlx, Hlb, Nat.eqb_refl. simpl. split; [done|].
    assert (Hsx : has_shape n (w * S (length ms)) x) by done.
    assert (Hsb : has_shape n w b) by done.
    split.
    { rewrite length_app. simpl.
      replace (w * S (length ms + 1)) with (w * S (length ms) + w) by lia.
      by apply shape_zip_with_app. }
    intros i b' Hi. rewrite app_comm_cons in Hi.
    apply lookup_app_Some in Hi as [Hi | [Hge Hi]].
    + rewrite (column_block_left n (w * S (length ms))); try done.
      * by apply Hblocks.
      * apply lookup_lt_Some in Hi. simpl in Hi. nia.
    + simpl in Hge, Hi.
      destruct (i - S (length ms)) as [|j] eqn:Hj; simpl in Hi;
        [|by rewrite lookup_nil in Hi].
      injection Hi as <-. assert (i = S (length ms)) as -> by lia.
      replace (w * (S (length ms) + 1)) with (w * S (length ms) + w) by lia.
      by apply (column_block_right n).
Qed.

(** X9. Blocks of one shape survive the packing: when every modality
    contributes an array of [n > 0] rows and [w] columns, their
    concatenation along the columns is defined and has [n] rows, the single
    spectrum length [shape[1] // n_xanes_types] is [w], and the slice
    [[:, ssl * i : ssl * (i + 1)]] is the block of modality [i]. *)
Theorem blocks_recovered (n w : nat) (blocks : list matrix) :
  0 < n -> 0 < length blocks ->
  Forall (has_shape n w) blocks ->
  exists x,
    np_concatenate_axis1 blocks = inr x
    /\ length x = n
    /\ floor_div (width x) (length blocks) = inr w
    /\ forall i b, blocks !! i = Some b ->
                   column_block (w * i) (w * (i + 1)) x = b.
Proof.
  intros Hn Hlen Hall. destruct blocks as [|m ms]; [simpl in Hlen; lia|].
  destruct (np_concatenate_blocks n w m ms Hall) as (x & Hx & [Hlx Hrx] & Hb).
  exists x. simpl. split_and!; try done.
  assert (Hw : width x = w * S (length ms)).
  { destruct x as [|row x]; [simpl in Hlx; lia|]. simpl.
    by apply Forall_cons in Hrx as [-> _]. }
  unfold floor_div. rewrite Hw.
  change (length (m :: ms)) with (S (length ms)). cbn [Nat.eqb].
  unfold mret, result_ret. f_equal.
  by apply Nat.div_mul.
Qed.

Lemma fold_hstack_length n (ms : list matrix) (m : matrix) :
  Forall (fun b => length b = n) (m :: ms) ->
  exists x, fold_result hstack ms m = inr x /\ length x = n.
Proof.
  revert m. induction ms as [|b ms IH]; intros m Hall; simpl.
  - apply Forall_cons in Hall as [Hm _]. eauto.
  - apply Forall_cons in Hall as [Hm Hall].
    apply Forall_cons in Hall as [Hb Hall].
    unfold hstack. rewrite Hm, Hb, Nat.eqb_refl. simpl.
    apply IH. constructor; [|done]. rewrite length_zip_with. lia.
Qed.

(** ** The split: failures and the kept value *)

Section SplitFailures.
Context {RS : RandomState}.

Lemma np_random_choice_inl (N size : Z) (g g' : rng) e :
  np_random_choice N size g = (g', inl e) ->
  e = ValueError /\ g' = g /\ ~ (0 <= size <= N)%Z.
Proof.
  unfold np_random_choice.
  destruct ((N <=? 0) && negb (size =? 0))%Z eqn:H1.
  { intros [= <- <-]. split_and!; try done.
    apply andb_true_iff in H1 as [H1 H2]. apply negb_true_iff in H2. lia. }
  destruct (N <? size)%Z eqn:H2.
  { intros [= <- <-]. split_and!; try done. lia. }
  destruct (size <? 0)%Z eqn:H3.
  { intros [= <- <-]. split_and!; try done. lia. }
  by destruct (mt_permutation (Z.to_nat N) g).
Qed.

Lemma float_size_inl (f : float) (N : Z) e :
  (x ← float_mul_int f N; py_int x) = inl e ->
  e = OverflowError \/ e = ValueError.
Proof.
  unfold float_mul_int, float_of_int.
  destruct (binary_normalize prec emax N 0 false) as [s|s| |s m ex]; simpl;
    try (intros [= <-]; by left).
  - destruct (float_mul f (S754_zero s)); simpl; intros [= <-]; auto.
  - destruct (float_mul f S754_nan); simpl; intros [= <-]; auto.
  - destruct (float_mul f (S754_finite s m ex)); simpl; intros [= <-]; auto.
Qed.

(** X10. The ways the split derivation fails. Without a data size it
    raises [RuntimeError] and leaves the global generator alone; a seed
    outside [0, 2**32) raises [ValueError], again before the generator is
    touched; otherwise the generator has been reseeded, and the exception
    is the one of computing [int(test_size * N)] ([OverflowError] or
    [ValueError]) or the [ValueError] of drawing a test size outside
    [0, N]. Neither of the two assertions of the function ever fails. *)
Theorem train_test_indexes_failures (self : Results) (g g' : rng) (e : exn) :
  train_test_indexes self g = (g', inl e) ->
  (e = RuntimeError /\ _data_size self = None /\ g' = g)
  \/ (e = ValueError /\ g' = g
      /\ ~ (0 <= _random_state self < 2 ^ 32)%Z)
  \/ (g' = mt_seed (_random_state self)
      /\ (0 <= _random_state self < 2 ^ 32)%Z
      /\ exists N,
           _data_size self = Some N
           /\ (((x ← float_mul_int (_test_size self) N; py_int x) = inl e
                /\ (e = OverflowError \/ e = ValueError))
               \/ (exists size,
                     (x ← float_mul_int (_test_size self) N; py_int x)
                     = inr size
                     /\ e = ValueError /\ ~ (0 <= size <= N)%Z))).
Proof.
  unfold train_test_indexes.
  destruct (_data_size self) as [N|] eqn:HN.
  2:{ intros [= <- <-]. by left. }
  unfold mbind at 1, stateful_bind at 1, np_random_seed.
  destruct ((0 <=? _random_state self) && (_random_state self <? 2 ^ 32))%Z
    eqn:Hseed.
  2:{ intros [= <- <-]. right. left. split_and!; try done.
      apply andb_false_iff in Hseed as [H|H]; lia. }
  apply andb_true_iff in Hseed as [Hs1 Hs2].
  assert (Hseed : (0 <= _random_state self < 2 ^ 32)%Z) by lia.
  unfold mbind at 1, stateful_bind at 1, lift at 1.
  destruct (x ← float_mul_int (_test_size self) N; py_int x)
    as [e'|size] eqn:Hsize.
  { intros [= <- <-]. right. right. split; [done|]. split; [lia|].
    exists N. split; [done|]. left. split; [done|].
    by eapply float_size_inl. }
  unfold mbind at 1, stateful_bind at 1.
  destruct (np_random_choice N size (mt_seed (_random_state self)))
    as [g1 [e'|test]] eqn:Hchoice.
  { intros [= <- <-].
    apply np_random_choice_inl in Hchoice as (-> & -> & Hbound).
    right. right. split; [done|]. split; [lia|].
    exists N. split; [done|]. right.
    by exists size. }
  assert (Hok : (0 <= size <= N)%Z /\ NoDup test).
  { unfold np_random_choice in Hchoice.
    destruct ((N <=? 0) && negb (size =? 0))%Z eqn:H1; [done|].
    destruct (N <? size)%Z eqn:H2; [done|].
    destruct (size <? 0)%Z eqn:H3; [done|].
    pose proof (mt_permutation_Permutation (Z.to_nat N)
                  (mt_seed (_random_state self))) as Hperm.
    destruct (mt_permutation (Z.to_nat N) (mt_seed (_random_state self)))
      as [p g2]. injection Hchoice as <- <-. simpl in Hperm.
    split; [lia|].
    eapply sublist_NoDup; [|apply sublist_take].
    rewrite Hperm. apply NoDup_seq. }
  destruct Hok as [_ Hnd].
  unfold mbind at 1, stateful_bind at 1, lift at 1.
  rewrite np_unique_length, Nat.eqb_refl by done. simpl py_assert. cbv iota.
  unfold mbind at 1, stateful_bind at 1, lift at 1.
  rewrite bool_decide_eq_true_2; [done|].
  intros i Hi1 Hi2. rewrite elem_of_list_to_set in Hi1, Hi2.
  rewrite elem_of_elements, elem_of_difference, !elem_of_list_to_set in Hi2.
  by destruct Hi2.
Qed.
End SplitFailures.

(** ** Whole runs *)

Section Runs.
Context {RS : RandomState} {SK : Sklearn RS}.

Lemma same_settings_refl a : same_settings a a.
Proof. by repeat split. Qed.

Lemma same_settings_trans a b c :
  same_settings a b -> same_settings b c -> same_settings a c.
Proof.
  unfold same_settings. intros (?&?&?&?&?&?&?) (?&?&?&?&?&?&?).
  split_and!; congruence.
Qed.

Lemma in_sweet_spot_settings a b targets :
  same_settings a b -> in_sweet_spot a targets = in_sweet_spot b targets.
Proof.
  intros (_&_&_&_&_&Hmin&Hmax). unfold in_sweet_spot. by rewrite Hmin, Hmax.
Qed.

Lemma self_train_test_indexes_self st st' v :
  self_train_test_indexes st = (st', inr v) ->
  same_settings (rs_self st') (rs_self st)
  /\ _report (rs_self st') = _report (rs_self st)
  /\ rs_models st' = rs_models st.
Proof.
  unfold self_train_test_indexes.
  intros (s & st1 & [= <- <-] & H)%stateful_bind_inr.
  destruct (cached_train_test_indexes (rs_self st)).
  - apply mret_inr in H as [_ ->]. split; [apply same_settings_refl | done].
  - apply stateful_bind_inr in H as (v' & st1 & Hrng & H).
    apply stateful_bind_inr in H as ([] & st2 & Hmod & H).
    apply mret_inr in H as [_ ->].
    unfold modify_self in Hmod. injection Hmod as <-.
    unfold with_rng in Hrng.
    destruct (train_test_indexes (rs_self st) (rs_rng st)).
    injection Hrng as <- _. simpl. split; [by repeat split | done].
Qed.

Lemma experiment_self train_indexes test_indexes name data out n_jobs debug
  cfi ii fg_name targets st st' c :
  experiment train_indexes test_indexes name data out n_jobs debug cfi
    ii fg_name targets st = (st', inr c) ->
  same_settings (rs_self st') (rs_self st).
Proof.
  intros [(_ & -> & _) | (_ & _ & Hyes)]%experiment_inr;
    [apply same_settings_refl|].
  destruct Hyes as (x_train & y_train & model & r & _ & _ & _ & _ & -> & _).
  simpl. by repeat split.
Qed.

(** What a call that returns went through. *)
Lemma run_experiments_body_returns input out n_jobs debug cfi st st' files :
  run_experiments_body input out n_jobs debug cfi st = (st', inr files) ->
  exists data xanes_data ssl st2 indexes,
    get_data (rs_self st) input = inr data
    /\ _get_xanes_data (rs_self st) data
       = inr (xanes_data, length (xanes_keys_avail (rs_self st)))
    /\ xanes_keys_avail (rs_self st) <> []
    /\ same_settings (rs_self st2) (rs_self st)
    /\ _report (rs_self st2) = _report (rs_self st)
    /\ for_each
         (for_combo data xanes_data ssl (fst indexes) (snd indexes)
            (py_split "_" (base_name (rs_self st))) out n_jobs debug cfi)
         (get_all_combinations (length (xanes_keys_avail (rs_self st))))
         (put_models ∅ st2) = (st', inr tt)
    /\ files = match out with
               | None => None
               | Some root =>
                   Some {| report_path :=
                             String.append root
                               (String.append "/"
                                  (String.append (base_name (rs_self st))
                                     ".json"));
                           report_json := to_json (rs_self st');
                           model_path :=
                             String.append root
                               (String.append "/"
                                  (String.append (base_name (rs_self st))
                                     "_models.pkl"));
                           models_pkl := rs_models st' |}
               end
    /\ self_train_test_indexes
         {| rs_self :=
              set_data_size (Z.of_nat (length xanes_data)) (rs_self st);
            rs_models := rs_models st; rs_rng := rs_rng st |}
       = (st2, inr indexes).
Proof.
  unfold run_experiments_body.
  intros (s & st1 & [= <- <-] & H)%stateful_bind_inr.
  apply stateful_bind_inr in H as (data & st1 & [Hdata ->]%lift_inr & H).
  apply stateful_bind_inr in H as (xn & st1 & [Hxn ->]%lift_inr & H).
  apply stateful_bind_inr in H as ([] & st1 & Hsize & H).
  apply stateful_bind_inr in H as (ssl & st2 & [Hssl ->]%lift_inr & H).
  apply stateful_bind_inr in H as (indexes & st2 & Hidx & H).
  apply stateful_bind_inr in H as ([] & st3 & Hmodels & H).
  apply stateful_bind_inr in H as ([] & st4 & Hloop & H).
  unfold modify_self in Hsize. injection Hsize as <-.
  unfold set_models in Hmodels. injection Hmodels as <-.
  apply self_train_test_indexes_self in Hidx as Hidx'.
  destruct Hidx' as (Hset & Hrep & _).
  simpl in Hset, Hrep.
  assert (Hxn' : snd xn = length (xanes_keys_avail (rs_self st))
                 /\ xanes_keys_avail (rs_self st) <> []).
  { unfold _get_xanes_data in Hxn.
    apply bind_inr in Hxn as (blocks & Hblocks & Hxn).
    apply bind_inr in Hxn as (x & Hx & [= <-]). split; [done|].
    intros Hnil. rewrite Hnil in Hblocks.
    change (inr [] = (inr blocks : result (list matrix))) in Hblocks.
    injection Hblocks as <-. unfold np_concatenate_axis1, raise in Hx. discriminate Hx. }
  destruct Hxn' as [Hn Hne]. destruct xn as [xanes_data n]. simpl in *.
  subst n.
  exists data, xanes_data, ssl, st2, indexes.
  assert (Hend : st' = st4
                 /\ files = match out with
                            | None => None
                            | Some root =>
                                Some {| report_path :=
                                          String.append root
                                            (String.append "/"
                                               (String.append
                                                  (base_name (rs_self st))
                                                  ".json"));
                                        report_json := to_json (rs_self st4);
                                        model_path :=
                                          String.append root
                                            (String.append "/"
                                               (String.append
                                                  (base_name (rs_self st))
                                                  "_models.pkl"));
                                        models_pkl := rs_models st4 |}
                            end).
  { destruct out as [root|].
    - apply stateful_bind_inr in H as (s4 & st5 & [= <- <-] & H).
      by apply mret_inr in H as [-> ->].
    - by apply mret_inr in H as [-> ->]. }
  destruct Hend as [-> ->].
  split_and!; [done | done | done | | done | done | done | done].
  unfold same_settings in *. simpl in Hset. done.
Qed.

(** ** No modality among the conditions *)

(** X12. When no token of the conditions contains ["XANES"] and the
    dataset loads, [run_experiments] raises [ValueError] (there is nothing
    to concatenate) before it has changed the object, the model store or the
    generator. *)
Theorem run_without_modality_raises (self : Results) (g : rng)
  (input_data : xanes_store * DataFrame) (out : option string)
  (n_jobs debug : Z) (cfi : bool) (data : dataset) :
  xanes_keys_avail self = [] ->
  get_data self input_data = inr data ->
  run_experiments self g input_data out n_jobs debug cfi
  = ({| rs_self := self; rs_models := ∅; rs_rng := g |}, inl ValueError).
Proof.
  intros Hkeys Hdata.
  unfold run_experiments, run_experiments_body, mbind, stateful_bind,
    get_state, lift. simpl.
  rewrite Hdata. unfold _get_xanes_data. rewrite Hkeys. simpl. done.
Qed.

(** ** The loops when no experiment completes *)

Lemma for_functional_groups_feature_importance train_indexes test_indexes
  name data out n_jobs debug items st st' :
  for_functional_groups
    (experiment train_indexes test_indexes name data out n_jobs debug true)
    items st = (st', inr tt) ->
  st' = st
  /\ Forall (fun item => in_sweet_spot (rs_self st) (snd (snd item)) = false)
       items.
Proof.
  induction items as [|[ii [fg targets]] items IH]; simpl.
  - intros [_ ->]%mret_inr. split; [done | constructor].
  - intros (c & st1 & Hc & H)%stateful_bind_inr.
    apply experiment_inr in Hc as [(Hno & -> & ->) | (_ & [=] & _)].
    apply IH in H as [-> Hall]. split; [done|]. by constructor.
Qed.

Lemma for_each_unchanged {A} (body : A -> stateful run_state unit)
  (l : list A) st st' :
  (forall a st st', body a st = (st', inr tt) -> st' = st) ->
  for_each body l st = (st', inr tt) -> st' = st.
Proof.
  intros Hbody. revert st. induction l as [|a l IH]; intros st; simpl.
  - by intros [_ ->]%mret_inr.
  - intros ([] & st1 & Ha & H)%stateful_bind_inr.
    apply Hbody in Ha as ->. by apply IH.
Qed.

Lemma for_combo_feature_importance dataset xanes_data ssl train_indexes
  test_indexes conditions_list out n_jobs debug combo st st' :
  for_combo dataset xanes_data ssl train_indexes test_indexes conditions_list
    out n_jobs debug true combo st = (st', inr tt) ->
  st' = st
  /\ Forall (fun kv => in_sweet_spot (rs_self st) (snd kv) = false)
       (ds_FG dataset).
Proof.
  unfold for_combo.
  intros (names & st1 & [_ ->]%lift_inr & H)%stateful_bind_inr.
  apply stateful_bind_inr in H as (current & st1 & [_ ->]%lift_inr & H).
  apply for_functional_groups_feature_importance in H as [-> Hall].
  split; [done|].
  apply Forall_forall. intros [fg targets] Hin.
  apply list_elem_of_lookup in Hin as [i Hi].
  rewrite Forall_forall in Hall.
  apply (Hall (i, (fg, targets))).
  apply list_elem_of_lookup. exists i. unfold enumerate.
  apply lookup_zip_with_Some. exists i, (fg, targets).
  split_and!; [done | | done].
  apply lookup_seq. split; [done|]. by apply lookup_lt_Some in Hi.
Qed.

(** X15. With [compute_feature_importance=True], the default, a call of
    [run_experiments] returns only if no functional group of the dataset is
    in the sweet spot; the report is then as it was and no model is kept.
    (On the first label in the sweet spot, [p_importance.mean(axis=0)]
    raises.) *)
Theorem feature_importance_run_trains_nothing (self : Results) (g : rng)
  (input_data : xanes_store * DataFrame) (out : option string)
  (n_jobs debug : Z) (st' : run_state) (files : option saved_files) :
  run_experiments self g input_data out n_jobs debug true
  = (st', inr files) ->
  exists data,
    get_data self input_data = inr data
    /\ Forall (fun kv => in_sweet_spot self (snd kv) = false) (ds_FG data)
    /\ _report (rs_self st') = _report self
    /\ rs_models st' = ∅.
Proof.
  unfold run_experiments.
  intros (data & xanes_data & ssl & st2 & indexes & Hdata & _ & Hne & Hset
          & Hrep & Hloop & _ & _)%run_experiments_body_returns.
  simpl in *. exists data. split; [done|].
  destruct (xanes_keys_avail self) as [|key keys]; [done|].
  destruct (get_all_combinations_head (length keys)) as [rest Hrest].
  cbn [length] in Hloop. rewrite Hrest in Hloop. simpl in Hloop.
  apply stateful_bind_inr in Hloop as ([] & st3 & Hfirst & Hloop).
  apply for_combo_feature_importance in Hfirst as [-> Hall].
  apply for_each_unchanged in Hloop as ->.
  2:{ intros combo s s' Hs. by apply for_combo_feature_importance in Hs as [? _]. }
  simpl in *. split_and!; [|done|done].
  eapply Forall_impl; [exact Hall|]. intros kv Hkv.
  by rewrite <- (in_sweet_spot_settings _ _ _ Hset).
Qed.

Lemma for_functional_groups_invariant_in (I : run_state -> Prop)
  (body : nat -> string -> list Z -> stateful run_state control)
  (items : list (nat * (string * list Z))) (st st' : run_state) :
  (forall ii fg_name targets st st' c,
      (ii, (fg_name, targets)) ∈ items ->
      body ii fg_name targets st = (st', inr c) -> I st -> I st') ->
  for_functional_groups body items st = (st', inr tt) -> I st -> I st'.
Proof.
  revert st. induction items as [|[ii [fg_name targets]] items IH];
    intros st Hbody; simpl.
  - by intros [_ ->]%mret_inr.
  - intros (c & st1 & Hc & H)%stateful_bind_inr Hst.
    assert (I st1) by (eapply Hbody; [left | exact Hc | done]).
    destruct c; [|by apply mret_inr in H as [_ ->]].
    eapply IH; [|exact H|done].
    intros ?????? Hin. apply Hbody. by right.
Qed.

Lemma for_each_invariant_in {A} (I : run_state -> Prop)
  (body : A -> stateful run_state unit) (l : list A) (st st' : run_state) :
  (forall a st st', a ∈ l -> body a st = (st', inr tt) -> I st -> I st') ->
  for_each body l st = (st', inr tt) -> I st -> I st'.
Proof.
  revert st. induction l as [|a l IH]; intros st Hbody; simpl.
  - by intros [_ ->]%mret_inr.
  - intros ([] & st1 & Ha & H)%stateful_bind_inr Hst.
    eapply IH; [|exact H|eapply Hbody; [left|exact Ha|done]].
    intros ??? Hin. apply Hbody. by right.
Qed.

Lemma elem_of_enumerate {A} (l : list A) i x :
  (i, x) ∈ enumerate l <-> l !! i = Some x.
Proof.
  unfold enumerate. rewrite list_elem_of_lookup. split.
  - intros [j Hj]. apply lookup_zip_with_Some in Hj as (a & b & [= <- <-] & Ha & Hb).
    apply lookup_seq in Ha as [-> _]. done.
  - intros Hi. exists i. apply lookup_zip_with_Some. exists i, x.
    split_and!; [done| |done].
    apply lookup_seq. split; [done|]. by apply lookup_lt_Some in Hi.
Qed.

Lemma for_combo_sound self data xanes_data ssl train_indexes test_indexes out
  n_jobs debug cfi combo st st' :
  combo ∈ get_all_combinations (length (xanes_keys_avail self)) ->
  for_combo data xanes_data ssl train_indexes test_indexes
    (py_split "_" (base_name self)) out n_jobs debug cfi combo st
  = (st', inr tt) ->
  run_sound self data st -> run_sound self data st'.
Proof.
  intros Hcombo. unfold for_combo.
  intros (names & st1 & [Hnames ->]%lift_inr & H)%stateful_bind_inr.
  apply stateful_bind_inr in H as (current & st1 & [_ ->]%lift_inr & H).
  eapply for_functional_groups_invariant_in; [|exact H].
  intros ii fg targets s s' c Hin Hc [Hset Hs].
  apply elem_of_enumerate in Hin. apply list_elem_of_lookup_2 in Hin.
  apply experiment_inr in Hc as [(_ & -> & _) | (Hspot & _ & Hyes)]; [done|].
  destruct Hyes as (x_train & y_train & model & r & _ & _ & _ & _ & -> & _).
  split.
  { simpl. unfold same_settings in *. simpl. done. }
  intros k Hk.
  destruct (decide (k = experiment_name (py_join "_" names) fg)) as [->|Hne].
  - exists combo, names, fg, targets. split_and!; try done.
    by rewrite <- (in_sweet_spot_settings _ _ _ Hset).
  - apply Hs. simpl in Hk. rewrite lookup_insert_ne in Hk by done.
    destruct Hk as [Hk|Hk]; [by left|right].
    destruct out; [|done].
    rewrite dom_insert in Hk. set_solver.
Qed.

(** X16. What a call of [run_experiments] that returns has written: every
    entry of the report that is not the entry the report had before, and
    every key of the model store, is named after a combination of the
    enumerator and a functional group of the dataset in the sweet spot.
    Without an output directory the model store stays empty and no file is
    written. *)
Theorem run_adds_only_trained_pairs (self : Results) (g : rng)
  (input_data : xanes_store * DataFrame) (out : option string)
  (n_jobs debug : Z) (cfi : bool) (st' : run_state)
  (files : option saved_files) :
  run_experiments self g input_data out n_jobs debug cfi
  = (st', inr files) ->
  exists data,
    get_data self input_data = inr data
    /\ (forall k,
           _report (rs_self st') !! k <> _report self !! k ->
           trained_pair self data k)
    /\ (forall k, k ∈ dom (rs_models st') -> trained_pair self data k)
    /\ (out = None -> rs_models st' = ∅ /\ files = None).
Proof.
  unfold run_experiments.
  intros (data & xanes_data & ssl & st2 & indexes & Hdata & _ & Hne & Hset
          & Hrep & Hloop & Hfiles & _)%run_experiments_body_returns.
  simpl in *. exists data. split; [done|].
  assert (Hsound : run_sound self data st').
  { eapply for_each_invariant_in; [|exact Hloop|].
    - intros combo s s' Hin. by apply for_combo_sound.
    - split; [done|]. simpl. intros k [Hk|Hk]; [by rewrite Hrep in Hk|].
      by rewrite dom_empty in Hk. }
  destruct Hsound as [_ Hsound].
  split; [by eauto|]. split; [by eauto|].
  intros ->. split; [|done].
  eapply (for_each_invariant (fun st => rs_models st = ∅)); [|exact Hloop|done].
  intros combo s s'. unfold for_combo.
  intros (names & st1 & [_ ->]%lift_inr & H)%stateful_bind_inr.
  apply stateful_bind_inr in H as (current & st1 & [_ ->]%lift_inr & H).
  intros Hempty.
  eapply (for_functional_groups_invariant (fun st => rs_models st = ∅));
    [|exact H|exact Hempty].
  intros ii fg targets s1 s1' c.
  intros [(_ & -> & _) | (_ & _ & Hyes)]%experiment_inr; [done|].
  by destruct Hyes as (x_train & y_train & model & r & _ & _ & _ & _ & -> & _).
Qed.

Lemma grows_refl st : run_grows st st.
Proof. split; [apply same_settings_refl | done]. Qed.

Lemma grows_trans a b c : run_grows a b -> run_grows b c -> run_grows a c.
Proof.
  intros (? & ? & ?) (? & ? & ?). split_and!.
  - by eapply same_settings_trans.
  - set_solver.
  - set_solver.
Qed.

Lemma for_functional_groups_complete train_indexes test_indexes name data out
  n_jobs debug cfi items st st' :
  (debug <= 0)%Z ->
  for_functional_groups
    (experiment train_indexes test_indexes name data out n_jobs debug cfi)
    items st = (st', inr tt) ->
  run_grows st st'
  /\ forall ii fg targets,
       (ii, (fg, targets)) ∈ items ->
       in_sweet_spot (rs_self st) targets = true ->
       experiment_name name fg ∈ dom (_report (rs_self st'))
       /\ (is_Some out -> experiment_name name fg ∈ dom (rs_models st')).
Proof.
  intros Hdebug. revert st.
  induction items as [|[ii [fg targets]] items IH]; intros st; simpl.
  - intros [_ ->]%mret_inr. split; [apply grows_refl|].
    intros ??? Hin. by apply elem_of_nil in Hin.
  - intros (c & st1 & Hc & H)%stateful_bind_inr.
    apply experiment_inr in Hc as Hc'.
    assert (Hnext : c = Next).
    { destruct Hc' as [(_ & _ & ->) | (_ & _ & Hyes)]; [done|].
      destruct Hyes as (? & ? & ? & ? & _ & _ & _ & _ & _ & ->).
      destruct (0 <? debug)%Z eqn:Hpos; [|done]. apply Z.ltb_lt in Hpos. lia. }
    subst c. apply IH in H as [Hgrow Hitems].
    assert (Hstep : run_grows st st1
                    /\ (in_sweet_spot (rs_self st) targets = true ->
                        experiment_name name fg ∈ dom (_report (rs_self st1))
                        /\ (is_Some out ->
                            experiment_name name fg ∈ dom (rs_models st1)))).
    { destruct Hc' as [(Hno & -> & _) | (_ & _ & Hyes)].
      - split; [apply grows_refl | congruence].
      - destruct Hyes as (? & ? & model & r & _ & _ & _ & _ & -> & _).
        split.
        + split_and!; simpl.
          * unfold same_settings. simpl. done.
          * rewrite dom_insert. set_solver.
          * destruct out; [rewrite dom_insert|]; set_solver.
        + intros _. simpl. split.
          * rewrite dom_insert. set_solver.
          * intros [dir ->]. rewrite dom_insert. set_solver. }
    destruct Hstep as [Hgrow1 Hhead]. split; [by eapply grows_trans|].
    intros ii' fg' targets' [[= -> -> ->]|Hin]%elem_of_cons Hspot.
    + destruct (Hhead Hspot) as [Hr Hm]. destruct Hgrow as (_ & Hr' & Hm').
      split; [set_solver|]. intros Hout. specialize (Hm Hout). set_solver.
    + apply (Hitems ii' fg' targets' Hin).
      destruct Hgrow1 as [Hset _].
      by rewrite (in_sweet_spot_settings _ _ _ Hset).
Qed.

Lemma for_combo_complete data xanes_data ssl train_indexes test_indexes
  conditions_list out n_jobs debug cfi combo st st' :
  (debug <= 0)%Z ->
  for_combo data xanes_data ssl train_indexes test_indexes conditions_list
    out n_jobs debug cfi combo st = (st', inr tt) ->
  run_grows st st'
  /\ exists names,
       map_result (list_getitem conditions_list) combo = inr names
       /\ forall fg targets,
            (fg, targets) ∈ ds_FG data ->
            in_sweet_spot (rs_self st) targets = true ->
            experiment_name (py_join "_" names) fg
              ∈ dom (_report (rs_self st'))
            /\ (is_Some out ->
                experiment_name (py_join "_" names) fg ∈ dom (rs_models st')).
Proof.
  intros Hdebug. unfold for_combo.
  intros (names & st1 & [Hnames ->]%lift_inr & H)%stateful_bind_inr.
  apply stateful_bind_inr in H as (current & st1 & [_ ->]%lift_inr & H).
  apply for_functional_groups_complete in H as [Hgrow Hitems]; [|done].
  split; [done|]. exists names. split; [done|].
  intros fg targets Hin Hspot.
  apply list_elem_of_lookup in Hin as [i Hi].
  apply (Hitems i fg targets); [|done]. by apply elem_of_enumerate.
Qed.

Lemma for_each_combo_complete data xanes_data ssl train_indexes test_indexes
  conditions_list out n_jobs debug cfi combos st st' :
  (debug <= 0)%Z ->
  for_each
    (for_combo data xanes_data ssl train_indexes test_indexes conditions_list
       out n_jobs debug cfi) combos st = (st', inr tt) ->
  run_grows st st'
  /\ forall combo,
       combo ∈ combos ->
       exists names,
         map_result (list_getitem conditions_list) combo = inr names
         /\ forall fg targets,
              (fg, targets) ∈ ds_FG data ->
              in_sweet_spot (rs_self st) targets = true ->
              experiment_name (py_join "_" names) fg
                ∈ dom (_report (rs_self st'))
              /\ (is_Some out ->
                  experiment_name (py_join "_" names) fg
                    ∈ dom (rs_models st')).
Proof.
  intros Hdebug. revert st.
  induction combos as [|combo combos IH]; intros st; simpl.
  - intros [_ ->]%mret_inr. split; [apply grows_refl|].
    intros ? Hin. by apply elem_of_nil in Hin.
  - intros ([] & st1 & Hc & H)%stateful_bind_inr.
    apply for_combo_complete in Hc as [Hgrow1 (names & Hnames & Hhead)];
      [|done].
    apply IH in H as [Hgrow Hrest].
    split; [by eapply grows_trans|].
    intros combo' [->|Hin]%elem_of_cons.
    + exists names. split; [done|]. intros fg targets Hfg Hspot.
      destruct (Hhead fg targets Hfg Hspot) as [Hr Hm].
      destruct Hgrow as (_ & Hr' & Hm').
      split; [set_solver|]. intros Hout. specialize (Hm Hout). set_solver.
    + destruct (Hrest combo' Hin) as (names' & Hnames' & Hfg).
      exists names'. split; [done|]. intros fg targets Hin' Hspot.
      apply (Hfg fg targets Hin'). destruct Hgrow1 as [Hset _].
      by rewrite (in_sweet_spot_settings _ _ _ Hset).
Qed.

(** X17. Without a positive [debug], a call of [run_experiments] that
    returns has recorded every experiment: the keys of the report are those
    it had before together with one key for every combination of the
    enumerator and every functional group of the dataset in the sweet
    spot. *)
Theorem run_records_every_trained_pair (self : Results) (g : rng)
  (input_data : xanes_store * DataFrame) (out : option string)
  (n_jobs debug : Z) (cfi : bool) (st' : run_state)
  (files : option saved_files) :
  (debug <= 0)%Z ->
  run_experiments self g input_data out n_jobs debug cfi
  = (st', inr files) ->
  exists data,
    get_data self input_data = inr data
    /\ forall k,
         k ∈ dom (_report (rs_self st'))
         <-> k ∈ dom (_report self) \/ trained_pair self data k.
Proof.
  intros Hdebug Hrun.
  assert (Hsound := Hrun).
  unfold run_experiments in Hrun.
  apply run_experiments_body_returns in Hrun
    as (data & xanes_data & ssl & st2 & indexes & Hdata & _ & Hne & Hset
        & Hrep & Hloop & Hfiles & _).
  simpl in *. exists data. split; [done|].
  apply for_each_combo_complete in Hloop as [Hgrow Hall]; [|done].
  intros k. split.
  - intros Hk.
    destruct (decide (k ∈ dom (_report self))) as [|Hnew]; [by left|right].
    assert (Hs : run_sound self data st').
    { unfold run_experiments in Hsound.
      apply run_experiments_body_returns in Hsound
        as (data' & xanes_data' & ssl' & st2' & indexes' & Hdata' & _ & _
            & Hset' & Hrep' & Hloop' & _ & _).
      simpl in *. assert (data' = data) as -> by congruence.
      eapply for_each_invariant_in; [|exact Hloop'|].
      - intros combo s s' Hin. by apply for_combo_sound.
      - split; [done|]. simpl. intros k' [Hk'|Hk']; [by rewrite Hrep' in Hk'|].
        by rewrite dom_empty in Hk'. }
    destruct Hs as [_ Hs]. apply Hs. left.
    apply elem_of_dom in Hk as [r Hr]. rewrite Hr.
    apply not_elem_of_dom in Hnew. by rewrite Hnew.
  - intros [Hold | (combo & names & fg & targets & Hcombo & Hnames & Hfg
                    & Hspot & ->)].
    + destruct Hgrow as (_ & Hr & _). simpl in Hr. rewrite Hrep in Hr.
      set_solver.
    + destruct (Hall combo Hcombo) as (names' & Hnames' & Hpairs).
      assert (names' = names) as -> by congruence.
      apply (Hpairs fg targets Hfg). simpl.
      by rewrite (in_sweet_spot_settings _ _ _ Hset).
Qed.

Lemma elem_of_xanes_keys_avail self key :
  key ∈ xanes_keys_avail self -> key ∈ xanes_conditions (_conditions self).
Proof.
  unfold xanes_keys_avail, xanes_conditions, expand_conditions.
  rewrite !list_elem_of_In, !filter_In, in_app_iff. tauto.
Qed.

Lemma get_xanes_data_loaded self xanes index d smiles :
  get_data self (xanes, index) = inr d ->
  df_getitem (ds_index d) "SMILES" = inr smiles ->
  match xanes_keys_avail self, length (to_keys smiles) with
  | [], _ => _get_xanes_data self d = inl ValueError
  | _ :: _, 0 => _get_xanes_data self d = inl IndexError
  | _ :: _, S _ =>
      exists x,
        _get_xanes_data self d = inr (x, length (xanes_keys_avail self))
        /\ length x = length (to_keys smiles)
  end.
Proof.
  unfold get_data. simpl.
  intros (smiles' & Hsm & Hin & _)%get_dataset_inr Hsmiles.
  assert (smiles' = smiles) as -> by congruence.
  pose proof (elem_of_xanes_keys_avail self) as Hkeys.
  unfold _get_xanes_data.
  destruct (xanes_keys_avail self) as [|key keys] eqn:Hk; [done|].
  destruct (length (to_keys smiles)) as [|n] eqn:Hn.
  - destruct (Hin key) as (m & g & Hm & Hrows & _); [apply Hkeys; left|].
    apply map_result_lookup in Hrows as [Hlen _]. rewrite Hn in Hlen.
    destruct m; [|done]. simpl. unfold map_getitem, matrix in *.
    by rewrite Hm.
  - set (block := fun key =>
                    m ← map_getitem (ds_xanes d) key;
                    slice_columns (_offset_left self) (_offset_right self) m).
    assert (Hblocks : forall ks,
               (forall k, k ∈ ks -> k ∈ xanes_conditions (_conditions self)) ->
               exists bs, map_result block ks = inr bs
                          /\ length bs = length ks
                          /\ Forall (fun b => length b = S n) bs).
    { induction ks as [|k ks IH]; intros Hks; simpl.
      - exists []. by repeat split.
      - destruct (Hin k) as (m & g & Hm & Hrows & _); [apply Hks; left|].
        apply map_result_lookup in Hrows as [Hlen _]. rewrite Hn in Hlen.
        destruct IH as (bs & -> & Hlbs & Hall); [intros; apply Hks; by right|].
        unfold block at 1. unfold map_getitem, matrix in *. rewrite Hm. simpl.
        destruct m as [|row m]; [done|]. simpl.
        eexists. split; [done|]. split; [simpl; lia|].
        constructor; [|done]. simpl. rewrite length_map. simpl in Hlen. lia. }
    destruct (Hblocks (key :: keys) Hkeys) as (bs & -> & Hlbs & Hall).
    simpl. destruct bs as [|b bs]; [done|]. simpl.
    destruct (fold_hstack_length (S n) bs b Hall) as (x & -> & Hx).
    simpl. eauto.
Qed.

(** X13. [_get_xanes_data] on the dataset the object loaded: with no
    ["XANES"] token it raises [ValueError]; with such a token and no row
    left by the conditions it raises [IndexError]; otherwise it returns the
    number of ["XANES"] tokens and a feature array with one row per row of
    the refined index. No key is ever missing and the row counts never
    disagree. *)
Theorem get_xanes_data_on_loaded_dataset (self : Results)
  (xanes : xanes_store) (index : DataFrame) (d : dataset) (smiles : column) :
  get_data self (xanes, index) = inr d ->
  df_getitem (ds_index d) "SMILES" = inr smiles ->
  (forall key m, ds_xanes d !! key = Some m -> rectangular m = true) ->
  match xanes_keys_avail self, length (to_keys smiles) with
  | [], _ => _get_xanes_data self d = inl ValueError
  | _ :: _, 0 => _get_xanes_data self d = inl IndexError
  | _ :: _, S _ =>
      exists x,
        _get_xanes_data self d = inr (x, length (xanes_keys_avail self))
        /\ length x = length (to_keys smiles)
  end.
Proof. intros Hd Hsm _. by apply (get_xanes_data_loaded self xanes index). Qed.

Lemma experiment_frame train_indexes test_indexes name data out n_jobs debug
  cfi ii fg_name targets st st' c :
  experiment train_indexes test_indexes name data out n_jobs debug cfi
    ii fg_name targets st = (st', inr c) ->
  _data_size (rs_self st') = _data_size (rs_self st)
  /\ cached_train_test_indexes (rs_self st')
     = cached_train_test_indexes (rs_self st).
Proof.
  intros [(_ & -> & _) | (_ & _ & Hyes)]%experiment_inr; [done|].
  by destruct Hyes as (x_train & y_train & model & r & _ & _ & _ & _ & -> & _).
Qed.

(** X14. A call of [run_experiments] that returns has found at least one
    molecule, has set the data size to the number of rows of the refined
    index, and leaves a split kept on the object: the one derived for that
    data size if none was kept before, and otherwise the one that was kept
    before the call, whatever its data size was. *)
Theorem run_sets_data_size (self : Results) (g : rng)
  (xanes : xanes_store) (index : DataFrame) (out : option string)
  (n_jobs debug : Z) (cfi : bool) (st' : run_state)
  (files : option saved_files) :
  run_experiments self g (xanes, index) out n_jobs debug cfi
  = (st', inr files) ->
  exists d smiles v,
    get_data self (xanes, index) = inr d
    /\ df_getitem (ds_index d) "SMILES" = inr smiles
    /\ 0 < length (to_keys smiles)
    /\ _data_size (rs_self st')
       = Some (Z.of_nat (length (to_keys smiles)))
    /\ cached_train_test_indexes (rs_self st') = Some v
    /\ match cached_train_test_indexes self with
       | Some v0 => v = v0
       | None =>
           snd (train_test_indexes
                  (set_data_size (Z.of_nat (length (to_keys smiles))) self) g)
           = inr v
       end.
Proof.
  unfold run_experiments.
  intros (d & xanes_data & ssl & st2 & indexes & Hdata & Hxn & Hne & _
          & _ & Hloop & _ & Hidx)%run_experiments_body_returns.
  simpl in *.
  assert (Hd := Hdata). unfold get_data in Hd. simpl in Hd.
  apply get_dataset_inr in Hd as (smiles & Hsm & _).
  pose proof (get_xanes_data_loaded self xanes index d smiles Hdata Hsm) as Hx.
  destruct (xanes_keys_avail self) as [|key keys]; [done|].
  destruct (length (to_keys smiles)) as [|n] eqn:Hn; [congruence|].
  destruct Hx as (x & Hx & Hlen). rewrite Hx in Hxn. injection Hxn as <-.
  rewrite Hlen in Hidx.
  assert (Hst2 : _data_size (rs_self st2) = Some (Z.of_nat (S n))
                 /\ exists v,
                      cached_train_test_indexes (rs_self st2) = Some v
                      /\ match cached_train_test_indexes self with
                         | Some v0 => v = v0
                         | None =>
                             snd (train_test_indexes
                                    (set_data_size (Z.of_nat (S n)) self) g)
                             = inr v
                         end).
  { unfold self_train_test_indexes in Hidx.
    apply stateful_bind_inr in Hidx as (s & st0 & [= <- <-] & H). simpl in H.
    destruct (cached_train_test_indexes self) as [v0|] eqn:Hc.
    - apply mret_inr in H as [-> ->]. simpl. rewrite Hc. eauto.
    - apply stateful_bind_inr in H as (v' & st3 & Hrng & H).
      apply stateful_bind_inr in H as ([] & st4 & Hmod & H).
      apply mret_inr in H as [-> ->].
      unfold modify_self in Hmod. injection Hmod as <-.
      unfold with_rng in Hrng. simpl in Hrng.
      destruct (train_test_indexes (set_data_size (Z.of_nat (S n)) self) g)
        as [g1 r1]. injection Hrng as <- ->. simpl. eauto. }
  destruct Hst2 as (Hsize & v & Hcache & Hv).
  exists d, smiles, v. rewrite Hn.
  assert (Hframe : _data_size (rs_self st') = Some (Z.of_nat (S n))
                   /\ cached_train_test_indexes (rs_self st') = Some v).
  { eapply (for_each_invariant
              (fun st => _data_size (rs_self st) = Some (Z.of_nat (S n))
                         /\ cached_train_test_indexes (rs_self st) = Some v));
      [|exact Hloop|done].
    intros combo s s'. unfold for_combo.
    intros (names & st1 & [_ ->]%lift_inr & H)%stateful_bind_inr.
    apply stateful_bind_inr in H as (current & st1 & [_ ->]%lift_inr & H).
    intros Hs.
    eapply (for_functional_groups_invariant
              (fun st => _data_size (rs_self st) = Some (Z.of_nat (S n))
                         /\ cached_train_test_indexes (rs_self st) = Some v));
      [|exact H|exact Hs].
    intros ii fg targets s1 s1' c [Hf1 Hf2]%experiment_frame [? ?].
    split; congruence. }
  destruct Hframe as [Hsz Hch].
  split_and!; try done. lia.
Qed.

Lemma experiment_debug train_indexes test_indexes name data out n_jobs
  debug debug' cfi ii fg_name targets st :
  experiment train_indexes test_indexes name data out n_jobs debug' cfi
    ii fg_name targets st
  = let (st1, r) :=
      experiment train_indexes test_indexes name data out n_jobs debug cfi
        ii fg_name targets st in
    (st1, match r with
          | inl e => inl e
          | inr _ => inr (control_of (rs_self st) debug' ii targets)
          end).
Proof.
  unfold experiment, control_of, mbind, stateful_bind, get_state.
  destruct (in_sweet_spot (rs_self st) targets); cbn [negb andb]; [|done].
  destruct cfi, out;
    repeat (match goal with
            | |- context [match ?m ?s with _ => _ end] =>
                lazymatch m with
                | (if _ then _ else _) => fail
                | _ =>
                    lazymatch type of (m s) with
                    | (_ * _)%type => destruct (m s) as [? [?|?]]
                    end
                end
            end; try done).
  all: unfold mret, stateful_ret.
  all: by destruct ((0 <? debug) && (debug <=? Z.of_nat ii))%Z,
            ((0 <? debug') && (debug' <=? Z.of_nat ii))%Z.
Qed.

Lemma control_of_settings a b debug ii targets :
  same_settings a b -> control_of a debug ii targets = control_of b debug ii targets.
Proof.
  intros Hset. unfold control_of. by rewrite (in_sweet_spot_settings _ _ _ Hset).
Qed.

Lemma debug_cut_settings a b debug items :
  same_settings a b -> debug_cut a debug items = debug_cut b debug items.
Proof.
  intros Hset. induction items as [|[ii [fg targets]] items IH]; simpl; [done|].
  by rewrite IH, (control_of_settings _ _ _ _ _ Hset).
Qed.

Lemma debug_cut_prefix self debug items :
  debug_cut self debug items `prefix_of` items.
Proof.
  induction items as [|[ii [fg targets]] items IH]; simpl; [done|].
  apply prefix_cons. destruct (control_of self debug ii targets); [done|].
  apply prefix_nil.
Qed.

Lemma debug_cut_unlimited self debug items :
  (debug <= 0)%Z -> debug_cut self debug items = items.
Proof.
  intros Hd. induction items as [|[ii [fg targets]] items IH]; simpl; [done|].
  unfold control_of. replace (0 <? debug)%Z with false by lia.
  rewrite andb_false_r. simpl. by rewrite IH.
Qed.

Lemma debug_cut_at_least self debug (l : list (string * list Z)) s :
  (0 < debug)%Z -> s <= Z.to_nat debug ->
  take (Z.to_nat debug + 1 - s) (zip (seq s (length l)) l)
  `prefix_of` debug_cut self debug (zip (seq s (length l)) l).
Proof.
  intros Hd. revert s. induction l as [|[fg targets] l IH]; intros s Hs; simpl.
  - by rewrite take_nil.
  - replace (Z.to_nat debug + 1 - s) with (S (Z.to_nat debug - s)) by lia.
    simpl. apply prefix_cons.
    destruct (decide (s = Z.to_nat debug)) as [->|Hne].
    + rewrite Nat.sub_diag, take_0. apply prefix_nil.
    + unfold control_of. replace (debug <=? Z.of_nat s)%Z with false by lia.
      rewrite andb_false_r.
      replace (Z.to_nat debug - s) with (Z.to_nat debug + 1 - S s) by lia.
      apply IH. lia.
Qed.

(** X18. What [debug] does to the loop over the labels: the loop under
    [debug] is the loop without a limit over a prefix of the labels, namely
    those up to and including the first label in the sweet spot at a
    position that is at least [debug]. Without a positive [debug] the prefix
    is all labels; with [debug = k > 0] the first [k + 1] labels are always
    examined. *)
Theorem debug_examines_a_prefix (train_indexes test_indexes : list nat)
  (name : string) (data : matrix) (out : option string) (n_jobs debug : Z)
  (cfi : bool) (functional_groups : list (string * list Z))
  (st : run_state) :
  let items := enumerate functional_groups in
  let cut := debug_cut (rs_self st) debug items in
  for_functional_groups
    (experiment train_indexes test_indexes name data out n_jobs debug cfi)
    items st
  = for_functional_groups
      (experiment train_indexes test_indexes name data out n_jobs (-1) cfi)
      cut st
  /\ cut `prefix_of` items
  /\ ((debug <= 0)%Z -> cut = items)
  /\ ((0 < debug)%Z -> take (Z.to_nat debug + 1) items `prefix_of` cut).
Proof.
  intros items cut. split_and!.
  - subst cut. generalize items. clear items. intros items. revert st.
    induction items as [|[ii [fg targets]] items IH]; intros st; [done|].
    cbn [for_functional_groups debug_cut]. unfold mbind, stateful_bind.
    rewrite (experiment_debug _ _ _ _ _ _ (-1) debug).
    pose proof (experiment_debug train_indexes test_indexes name data out
                  n_jobs (-1) (-1) cfi ii fg targets st) as Hself.
    destruct (experiment train_indexes test_indexes name data out n_jobs (-1)
                cfi ii fg targets st) as [st1 [e|c]] eqn:Hexp; [done|].
    injection Hself as ->.
    assert (Hnext : control_of (rs_self st) (-1) ii targets = Next).
    { unfold control_of. simpl. by rewrite andb_false_r. }
    rewrite Hnext.
    destruct (control_of (rs_self st) debug ii targets) eqn:Hc.
    + rewrite IH. f_equal. apply debug_cut_settings.
      rewrite Hnext in Hexp. by apply experiment_self in Hexp.
    + done.
  - apply debug_cut_prefix.
  - apply debug_cut_unlimited.
  - intros Hd. subst cut items. unfold enumerate.
    pose proof (debug_cut_at_least (rs_self st) debug functional_groups 0 Hd)
      as H.
    rewrite Nat.sub_0_r in H. apply H. lia.
Qed.
End Runs.

(** ** [get_train_test_split] *)

Lemma list_index_inr l x :
  x ∈ l -> exists i, list_index l x = inr i /\ l !! i = Some x.
Proof.
  induction l as [|y l IH]; simpl.
  - by intros ?%elem_of_nil.
  - intros Hin. destruct (decide (y = x)) as [->|Hne].
    + by exists 0.
    + apply elem_of_cons in Hin as [->|Hin]; [done|].
      destruct (IH Hin) as (i & -> & Hi). by exists (S i).
Qed.

Lemma take_rows_length {A} (a : list A) idx rows :
  take_rows a idx = inr rows -> length rows = length idx.
Proof. unfold take_rows. by intros [? _]%map_result_lookup. Qed.

Lemma index_groups_spec fgs idx d :
  NoDup (List.map fst fgs) ->
  index_groups fgs idx = inr d ->
  List.map fst d = List.map fst fgs
  /\ forall fg col,
       (fg, col) ∈ fgs ->
       exists v, dict_get fg d = inr v /\ take_rows col idx = inr v.
Proof.
  intros Hnd. unfold index_groups.
  assert (Hgen : forall suf pre acc d,
             fgs = pre ++ suf ->
             List.map fst acc = List.map fst pre ->
             (forall fg col, (fg, col) ∈ pre ->
                exists v, dict_get fg acc = inr v /\ take_rows col idx = inr v) ->
             fold_result
               (fun d key =>
                  col ← dict_get key fgs;
                  v ← take_rows col idx;
                  mret (dict_set key v d))
               (List.map fst suf) acc = inr d ->
             List.map fst d = List.map fst fgs
             /\ forall fg col,
                  (fg, col) ∈ fgs ->
                  exists v, dict_get fg d = inr v /\ take_rows col idx = inr v).
  { induction suf as [|[k c] suf IH]; intros pre acc d' Hfgs Hkeys Hacc; simpl.
    - intros [= <-]. rewrite app_nil_r in Hfgs. by subst pre.
    - intros (acc' & Hstep & Hrest)%bind_inr.
      apply bind_inr in Hstep as (col & Hcol & Hstep).
      apply bind_inr in Hstep as (v & Hv & [= <-]).
      assert (Hin : (k, c) ∈ fgs).
      { rewrite Hfgs. apply elem_of_app. right. left. }
      rewrite (dict_get_NoDup fgs k c Hnd Hin) in Hcol. injection Hcol as <-.
      assert (Hfresh : k ∉ List.map fst pre).
      { rewrite Hfgs, map_app in Hnd. apply NoDup_app in Hnd as (_ & Hdisj & _).
        intros Hk. apply (Hdisj k Hk). simpl. left. }
      apply (IH (pre ++ [(k, c)]) (dict_set k v acc) d').
      + by rewrite <- app_assoc.
      + rewrite dict_set_fresh by (by rewrite Hkeys).
        by rewrite !map_app, Hkeys.
      + intros fg col' [Hpre | Hlast]%elem_of_app.
        * destruct (Hacc fg col' Hpre) as (v' & Hget & Htake).
          exists v'. split; [|done].
          rewrite dict_set_fresh by (by rewrite Hkeys).
          clear -Hget. induction acc as [|[k' x] acc IHa]; simpl in *; [done|].
          destruct (decide (k' = fg)); [done | auto].
        * apply list_elem_of_singleton in Hlast as [= -> ->].
          exists v. split; [|done].
          rewrite dict_set_fresh by (by rewrite Hkeys).
          assert (Hk : k ∉ List.map fst acc) by (by rewrite Hkeys).
          clear -Hk. induction acc as [|[k' x] acc IHa]; simpl in *.
          -- by rewrite decide_True.
          -- apply not_elem_of_cons in Hk as [Hne Hk].
             rewrite decide_False by done. auto.
      + exact Hrest. }
  intros Hfold. apply (Hgen fgs [] [] d); try done.
  intros fg col Hin. by apply elem_of_nil in Hin.
Qed.

Section GetTrainTestSplitProperties.
Context {RS : RandomState} {SK : Sklearn RS}.

(** X19. What [get_train_test_split] returns is aligned: the split is the
    one kept on the object; [x_train] and [x_test] have one row per train
    and test index; the labels of [y_train] and [y_test], and
    [unique_functional_groups], are the functional groups of the dataset in
    their order; and for every functional group the targets are its values
    at the train and at the test indexes, as many as the rows of [x_train]
    and [x_test]. *)
Theorem get_train_test_split_aligned (data : dataset) (xanes : string)
  (st st' : run_state) (res : TrainTestSplit.t) :
  NoDup (List.map fst (ds_FG data)) ->
  get_train_test_split data xanes st = (st', inr res) ->
  exists train_idx test_idx,
    self_train_test_indexes st = (st', inr (train_idx, test_idx))
    /\ length (TrainTestSplit.x_train res) = length train_idx
    /\ length (TrainTestSplit.x_test res) = length test_idx
    /\ TrainTestSplit.unique_functional_groups res
       = List.map fst (ds_FG data)
    /\ List.map fst (TrainTestSplit.y_train res) = List.map fst (ds_FG data)
    /\ List.map fst (TrainTestSplit.y_test res) = List.map fst (ds_FG data)
    /\ forall fg col,
         (fg, col) ∈ ds_FG data ->
         exists tr te,
           dict_get fg (TrainTestSplit.y_train res) = inr tr
           /\ take_rows col train_idx = inr tr
           /\ length tr = length (TrainTestSplit.x_train res)
           /\ dict_get fg (TrainTestSplit.y_test res) = inr te
           /\ take_rows col test_idx = inr te
           /\ length te = length (TrainTestSplit.x_test res).
Proof.
  intros Hnd. unfold get_train_test_split.
  intros (s & st0 & [= <- <-] & H)%stateful_bind_inr.
  apply stateful_bind_inr in H as ([] & st0 & [_ ->]%lift_inr & H).
  apply stateful_bind_inr in H as (indexes & st0 & [_ ->]%lift_inr & H).
  apply stateful_bind_inr in H as ([train_idx test_idx] & st1 & Hidx & H).
  apply stateful_bind_inr in H as (xn & st2 & [_ ->]%lift_inr & H).
  apply stateful_bind_inr in H as (ssl & st2 & [_ ->]%lift_inr & H).
  apply stateful_bind_inr in H as (current & st2 & [_ ->]%lift_inr & H).
  apply stateful_bind_inr in H as (xtr & st2 & [Hxtr ->]%lift_inr & H).
  apply stateful_bind_inr in H as (xte & st2 & [Hxte ->]%lift_inr & H).
  apply stateful_bind_inr in H as (ytr & st2 & [Hytr ->]%lift_inr & H).
  apply stateful_bind_inr in H as (yte & st2 & [Hyte ->]%lift_inr & H).
  apply mret_inr in H as [-> ->]. simpl in *.
  exists train_idx, test_idx.
  apply take_rows_length in Hxtr, Hxte.
  apply index_groups_spec in Hytr as [Hktr Htr]; [|done].
  apply index_groups_spec in Hyte as [Hkte Hte]; [|done].
  split_and!; try done.
  intros fg col Hin.
  destruct (Htr fg col Hin) as (tr & Hgtr & Htake_tr).
  destruct (Hte fg col Hin) as (te & Hgte & Htake_te).
  exists tr, te. split_and!; try done.
  - apply take_rows_length in Htake_tr. congruence.
  - apply take_rows_length in Htake_te. congruence.
Qed.

(** X20. On an object that has no data size and no split yet (one that
    has not run), [get_train_test_split] always raises and changes
    nothing: [AssertionError] when a requested modality is not among the
    conditions, [RuntimeError] otherwise. *)
Theorem get_train_test_split_before_run (data : dataset) (xanes : string)
  (self : Results) (m : gmap string classifier) (g : rng) :
  _data_size self = None ->
  cached_train_test_indexes self = None ->
  let st := {| rs_self := self; rs_models := m; rs_rng := g |} in
  let tags :=
    List.map (fun xx => String.append xx "-XANES") (py_split "," xanes) in
  get_train_test_split data xanes st
  = (st, inl (if bool_decide (tags ⊆ py_split "," (_conditions self))
              then RuntimeError else AssertionError)).
Proof.
  intros Hsize Hcache st tags.
  unfold get_train_test_split, mbind, stateful_bind, get_state, lift.
  simpl. fold tags.
  destruct (bool_decide_reflect (tags ⊆ py_split "," (_conditions self)))
    as [Hsub|Hsub].
  - rewrite bool_decide_eq_true_2 by set_solver. simpl.
    assert (Hidx : exists indexes,
               map_result (list_index (py_split "," (_conditions self))) tags
               = inr indexes).
    { clear -Hsub. induction tags as [|tag tags IH]; simpl; [eauto|].
      destruct (list_index_inr (py_split "," (_conditions self)) tag)
        as (i & -> & _); [apply Hsub; left|].
      destruct IH as [rest ->]; [set_solver|]. simpl. eauto. }
    destruct Hidx as [indexes ->].
    unfold self_train_test_indexes, mbind, stateful_bind, get_state. simpl.
    rewrite Hcache. unfold with_rng, train_test_indexes. simpl.
    rewrite Hsize. reflexivity.
  - rewrite bool_decide_eq_false_2; [done|].
    intros Hs. apply Hsub. intros x Hx. 
    assert (x ∈ (list_to_set tags : gset string)) as Hx' by set_solver.
    apply Hs in Hx'. set_solver.
Qed.
End GetTrainTestSplitProperties.

(** ** [validate]: reading the keys back *)

Lemma split_str_aux_absent sep s :
  py_in sep s = false -> split_str_aux sep 0 s = [s].
Proof.
  induction s as [|c s IH]; [done|].
  cbn [py_in split_str_aux].
  intros [Hp Hs]%orb_false_elim. rewrite Hp, IH by done. done.
Qed.

Lemma split_str_aux_not_nil sep skip s : split_str_aux sep skip s <> [].
Proof.
  revert skip. induction s as [|c s IH]; intros skip; cbn [split_str_aux];
    [done|].
  destruct skip; [|apply IH].
  destruct (String.prefix sep (String c s)); [done|].
  specialize (IH 0). by destruct (split_str_aux sep 0 s).
Qed.

(** Scanning a stretch in which no occurrence can start. *)
Lemma split_str_aux_stretch (x : ascii) sep' w rest :
  has_char x w = false ->
  split_str_aux (String x sep') 0 (String.append w rest)
  = match split_str_aux (String x sep') 0 rest with
    | [] => [w]
    | h :: t => String.append w h :: t
    end.
Proof.
  induction w as [|c w IH]; simpl.
  - intros _.
    destruct (split_str_aux (String x sep') 0 rest) as [|h t] eqn:E;
      [by apply split_str_aux_not_nil in E | done].
  - intros [Hc Hw]%orb_false_elim.
    destruct (ascii_dec x c) as [->|Hne].
    { by rewrite Ascii.eqb_refl in Hc. }
    rewrite IH by done.
    by destruct (split_str_aux (String x sep') 0 rest).
Qed.

Lemma string_append_assoc (a b c : string) :
  String.append (String.append a b) c = String.append a (String.append b c).
Proof.
  induction a as [|x a IH]; [done|].
  by rewrite !string_append_cons, IH.
Qed.

Lemma string_append_nil_r (a : string) : String.append a EmptyString = a.
Proof.
  induction a as [|x a IH]; [done|]. by rewrite string_append_cons, IH.
Qed.

Lemma prefix_append u tail : String.prefix u (String.append u tail) = true.
Proof.
  induction u as [|x u IH]; simpl; [by destruct tail|].
  destruct (ascii_dec x x); [done|congruence].
Qed.

Lemma split_str_aux_skip sep u tail :
  split_str_aux sep (String.length u) (String.append u tail)
  = split_str_aux sep 0 tail.
Proof. induction u as [|x u IH]; simpl; [done|]. apply IH. Qed.

(** At an occurrence of the separator. *)
Lemma split_str_aux_hit x sep' tail :
  split_str_aux (String x sep') 0 (String.append (String x sep') tail)
  = EmptyString :: split_str_aux (String x sep') 0 tail.
Proof.
  change (String.append (String x sep') tail)
    with (String x (String.append sep' tail)).
  cbn [split_str_aux].
  change (String x (String.append sep' tail))
    with (String.append (String x sep') tail).
  rewrite prefix_append. f_equal.
  replace (String.length (String x sep') - 1) with (String.length sep')
    by (simpl; lia).
  apply split_str_aux_skip.
Qed.

Lemma py_remove_absent a s : has_char a s = false -> py_remove a s = s.
Proof.
  induction s as [|c s IH]; simpl; [done|].
  intros [Hc Hs]%orb_false_elim. by rewrite Hc, IH.
Qed.

Lemma py_remove_append a s1 s2 :
  py_remove a (String.append s1 s2)
  = String.append (py_remove a s1) (py_remove a s2).
Proof.
  induction s1 as [|c s1 IH]; simpl; [done|].
  destruct (Ascii.eqb c a); simpl; by rewrite IH.
Qed.

Lemma has_char_remove a b s :
  has_char a s = false -> has_char a (py_remove b s) = false.
Proof.
  induction s as [|c s IH]; simpl; [done|].
  intros [Hc Hs]%orb_false_elim.
  destruct (Ascii.eqb c b); simpl; [auto|]. by rewrite Hc, IH.
Qed.

Lemma prefix_append_l u v s :
  String.prefix (String.append u v) s = true -> String.prefix u s = true.
Proof.
  revert s. induction u as [|x u IH]; intros s; [by destruct s|].
  rewrite string_append_cons.
  destruct s as [|c s]; simpl; [done|].
  destruct (ascii_dec x c); [apply IH | done].
Qed.

Lemma py_in_append_l u v s :
  py_in u s = false -> py_in (String.append u v) s = false.
Proof.
  induction s as [|c s IH]; cbn [py_in].
  - intros [Hp _]%orb_false_elim. rewrite orb_false_r.
    destruct (String.prefix (String.append u v) "") eqn:E; [|done].
    apply prefix_append_l in E. congruence.
  - intros [Hp Hs]%orb_false_elim. rewrite (IH Hs), orb_false_r.
    destruct (String.prefix (String.append u v) (String c s)) eqn:E; [|done].
    apply prefix_append_l in E. congruence.
Qed.

Lemma key_of_cons t tags fg :
  key_of (t :: tags) fg
  = String.append (String.append t "-")
      (String.append "XANES"
         match tags with
         | [] => String.append "-" fg
         | _ :: _ => String.append "_" (key_of tags fg)
         end).
Proof.
  unfold key_of, experiment_name, py_join.
  destruct tags as [|t' tags].
  - simpl. by rewrite !string_append_assoc.
  - change (String.concat "_"
              (List.map (fun t => String.append t "-XANES") (t :: t' :: tags)))
      with (String.append (String.append t "-XANES")
              (String.append "_"
                 (String.concat "_"
                    (List.map (fun t => String.append t "-XANES")
                       (t' :: tags))))).
    rewrite !string_append_assoc. simpl. done.
Qed.

Lemma split_str_aux_miss sep c s :
  String.prefix sep (String c s) = false ->
  split_str_aux sep 0 (String c s)
  = match split_str_aux sep 0 s with
    | [] => [String c EmptyString]
    | w :: ws => String c w :: ws
    end.
Proof. intros H. cbn [split_str_aux]. by rewrite H. Qed.

Lemma has_char_tag_hyphen pre t :
  has_char "X" pre = false -> plain_tag t ->
  has_char "X" (String.append pre (String.append t "-")) = false.
Proof.
  intros Hpre (Ht & _ & _). by rewrite !has_char_append, Hpre, Ht.
Qed.

(** The pieces of a key between the occurrences of ["XANES"]. *)
Lemma split_key_of pre tags fg :
  tags <> [] -> Forall plain_tag tags ->
  has_char "X" pre = false -> py_in "XANES" fg = false ->
  split_str_aux "XANES" 0 (String.append pre (key_of tags fg))
  = zip_with (fun p t => String.append p (String.append t "-"))
      (pre :: repeat "_" (length tags - 1)) tags
    ++ [String.append "-" fg].
Proof.
  intros Hne Hall. revert pre Hne.
  induction Hall as [|t tags Ht Hall IH]; intros pre Hne Hpre Hfg; [done|].
  rewrite key_of_cons, <- string_append_assoc.
  rewrite (split_str_aux_stretch "X" "ANES") by (by apply has_char_tag_hyphen).
  rewrite split_str_aux_hit.
  rewrite string_append_nil_r.
  cbn [length Nat.sub]. rewrite Nat.sub_0_r.
  destruct tags as [|t' tags].
  - rewrite split_str_aux_absent; [done|].
    rewrite string_append_cons, string_append_nil_l. cbn [py_in].
    by rewrite Hfg.
  - rewrite IH by done. cbn [length Nat.sub]. rewrite Nat.sub_0_r. done.
Qed.

Lemma strip_piece p t :
  py_remove "_" (py_remove "-" p) = EmptyString -> plain_tag t ->
  py_remove "_" (py_remove "-" (String.append p (String.append t "-"))) = t.
Proof.
  intros Hp (_ & Hh & Hu).
  rewrite !py_remove_append, Hp, string_append_nil_l.
  rewrite (py_remove_absent "-" t Hh), (py_remove_absent "_" t Hu).
  apply string_append_nil_r.
Qed.

Lemma strip_pieces ps tags :
  Forall (fun p => py_remove "_" (py_remove "-" p) = EmptyString) ps ->
  Forall plain_tag tags ->
  List.map (fun xx => py_remove "_" (py_remove "-" xx))
    (zip_with (fun p t => String.append p (String.append t "-")) ps tags)
  = take (length ps) tags.
Proof.
  intros Hps. revert tags.
  induction Hps as [|p ps Hp Hps IH]; intros tags Htags; [done|].
  destruct Htags as [|t tags Ht Htags]; [done|]. simpl.
  by rewrite strip_piece, IH.
Qed.

Lemma prefix_miss (k : string) :
  String.prefix "XANES-" (String.append "XANES_" k) = false.
Proof. reflexivity. Qed.

(** The pieces of a key between the occurrences of ["XANES-"]: there are at
    least two, and the last is the functional group. *)
Lemma split_key_of_fg pre tags fg :
  tags <> [] -> Forall plain_tag tags ->
  has_char "X" pre = false -> py_in "XANES" fg = false ->
  exists h tl,
    split_str_aux "XANES-" 0 (String.append pre (key_of tags fg)) = h :: tl
    /\ tl <> [] /\ List.last tl EmptyString = fg.
Proof.
  intros Hne Hall. revert pre Hne.
  induction Hall as [|t tags Ht Hall IH]; intros pre Hne Hpre Hfg; [done|].
  rewrite key_of_cons, <- string_append_assoc.
  rewrite (split_str_aux_stretch "X" "ANES-") by (by apply has_char_tag_hyphen).
  destruct tags as [|t' tags].
  - change (String.append "XANES" (String.append "-" fg))
      with (String.append "XANES-" fg).
    rewrite split_str_aux_hit.
    rewrite (split_str_aux_absent "XANES-" fg)
      by (exact (py_in_append_l "XANES" "-" fg Hfg)).
    eexists _, [fg]. done.
  - change (String.append "XANES"
              (String.append "_" (key_of (t' :: tags) fg)))
      with (String "X" (String.append "ANES_" (key_of (t' :: tags) fg))).
    rewrite split_str_aux_miss by apply prefix_miss.
    destruct (IH "ANES_"%string ltac:(done) ltac:(reflexivity) Hfg)
      as (h & tl & -> & Htl & Hlast).
    eexists _, tl. done.
Qed.

Lemma validate_xanes_keys_key_of tags fg :
  tags <> [] -> Forall plain_tag tags -> py_in "XANES" fg = false ->
  validate_xanes_keys (key_of tags fg)
  = List.map (fun t => String.append t "-XANES") tags.
Proof.
  intros Hne Hall Hfg.
  unfold validate_xanes_keys, py_split_str.
  pose proof (split_key_of EmptyString tags fg Hne Hall eq_refl Hfg) as H.
  rewrite string_append_nil_l in H. rewrite H, removelast_last.
  rewrite strip_pieces; [|constructor; [done|]|done].
  - f_equal. apply take_ge. simpl. rewrite repeat_length.
    destruct tags; simpl; [done|lia].
  - apply Forall_forall. intros p Hp%list_elem_of_In%repeat_spec. by subst.
Qed.

Lemma validate_fg_key_of tags fg :
  tags <> [] -> Forall plain_tag tags -> py_in "XANES" fg = false ->
  validate_fg (key_of tags fg) = fg.
Proof.
  intros Hne Hall Hfg.
  unfold validate_fg, py_split_str.
  destruct (split_key_of_fg EmptyString tags fg Hne Hall eq_refl Hfg)
    as (h & tl & H & Htl & Hlast).
  rewrite string_append_nil_l in H. rewrite H.
  destruct tl as [|x tl]; [done|]. exact Hlast.
Qed.

(** X21. [validate] reads back the keys [run_experiments] writes: for
    modality tags without ["X"], hyphen and underscore, and a functional
    group whose name does not contain ["XANES"], the key
    ["t1-XANES_..._tk-XANES-fg"] is decoded into the dataset keys
    ["t1-XANES"], ..., ["tk-XANES"] and the functional group [fg]. *)
Theorem validate_reads_key_back (tags : list string) (fg : string) :
  tags <> [] -> Forall plain_tag tags -> py_in "XANES" fg = false ->
  validate_xanes_keys (key_of tags fg)
  = List.map (fun t => String.append t "-XANES") tags
  /\ validate_fg (key_of tags fg) = fg.
Proof.
  intros Hne Hall Hfg. split.
  - by apply validate_xanes_keys_key_of.
  - by apply validate_fg_key_of.
Qed.

Lemma validate_xanes_keys_absent key :
  py_in "XANES" key = false -> validate_xanes_keys key = [].
Proof.
  intros Hkey. unfold validate_xanes_keys, py_split_str.
  by rewrite split_str_aux_absent.
Qed.

Section ValidateProperties.
Context {RS : RandomState} {SK : Sklearn RS}.

(** X22. A key of the model store that does not contain ["XANES"] is
    decoded into no dataset key at all, and [validate] raises [ValueError]
    (there is nothing to concatenate) when it reaches it; it does so at the
    first model when that key comes first. Such keys are written for
    conditions whose first sorted token is not a modality. *)
Theorem validate_key_without_modality_raises
  (input_data : xanes_store * DataFrame) (key : string) (model : classifier)
  (models : list (string * classifier)) (data : dataset)
  (st st1 : run_state) (idx : list nat * list nat) :
  py_in "XANES" key = false ->
  get_dataset (fst input_data) (snd input_data) (_conditions (rs_self st))
  = inr data ->
  self_train_test_indexes st = (st1, inr idx) ->
  validate_xanes_keys key = []
  /\ validate input_data ((key, model) :: models) st = (st1, inl ValueError).
Proof.
  intros Hkey Hdata Hidx.
  pose proof (validate_xanes_keys_absent key Hkey) as Hxk.
  split; [done|].
  unfold validate, mbind, stateful_bind, get_state, lift.
  rewrite Hdata, Hidx. cbn [fold_result fst snd].
  unfold validate_model. rewrite Hxk. reflexivity.
Qed.
End ValidateProperties.

(** ** [np.allclose] of a value with itself *)

Lemma np_allclose_refl (a : float) :
  np_allclose a a = true <-> a <> S754_nan.
Proof.
  unfold np_allclose. destruct a as [s|s| |s m e].
  - split; [done|intros _]. by destruct s.
  - split; [done|intros _]. by destruct s.
  - split; [done|by intros []].
  - split; [done|intros _].
    cbn [is_finite andb SFsub SFabs].
    rewrite Z.sub_diag. cbn [binary_normalize SFabs].
    set (p := float_mul (float_of_ratio 1 100000) (S754_finite false m e)).
    assert (Hp : SFleb (S754_zero false) p = true).
    { subst p. unfold float_mul.
      destruct (float_of_ratio 1 100000) as [| | |[] mr er] eqn:Hr;
        try (vm_compute in Hr; discriminate Hr).
      cbn [SFmul xorb]. by apply binary_round_aux_positive. }
    destruct (float_of_ratio 1 100000000) as [| | |[] ma ea] eqn:Ha;
      try (vm_compute in Ha; discriminate Ha).
    destruct p as [[]|[]| |[] mp ep]; try done.
    cbn [SFadd cond_Zopp]. cbn [Z.add binary_normalize].
    apply binary_round_positive.
Qed.

(** ** Dictionaries in insertion order *)

Lemma dict_set_keys {V} k (v : V) d x :
  x ∈ List.map fst (dict_set k v d) -> x = k \/ x ∈ List.map fst d.
Proof.
  induction d as [|[k' v'] d IH]; simpl.
  - intros ->%list_elem_of_singleton. by left.
  - destruct (decide (k' = k)) as [->|Hne]; simpl.
    + intros [->|Hx]%elem_of_cons; [by left | right; by right].
    + intros [->|Hx]%elem_of_cons; [right; left|].
      destruct (IH Hx) as [->|?]; [by left | right; by right].
Qed.

Lemma dict_set_NoDup {V} k (v : V) d :
  NoDup (List.map fst d) -> NoDup (List.map fst (dict_set k v d)).
Proof.
  induction d as [|[k' v'] d IH]; simpl; intros Hnd.
  - apply NoDup_singleton.
  - apply NoDup_cons in Hnd as [Hk' Hnd].
    destruct (decide (k' = k)) as [->|Hne]; simpl.
    + by apply NoDup_cons.
    + apply NoDup_cons. split; [|by apply IH].
      intros [->|Hx]%dict_set_keys; done.
Qed.

Lemma get_functional_groups_NoDup index FG :
  get_functional_groups index = inr FG -> NoDup (List.map fst FG).
Proof.
  unfold get_functional_groups.
  apply (fold_result_invariant _ (fun FG => NoDup (List.map fst FG)));
    [|apply NoDup_nil_2].
  intros FG0 fg FG1 _ Hnd (dat & _ & H)%bind_inr.
  apply bind_inr in H as (positive & _ & H).
  destruct positive; injection H as <-; [by apply dict_set_NoDup | done].
Qed.

Lemma get_dataset_FG_NoDup xanes index conditions d :
  get_dataset xanes index conditions = inr d ->
  NoDup (List.map fst (ds_FG d)).
Proof.
  unfold get_dataset.
  intros (index' & _ & H)%bind_inr.
  apply bind_inr in H as (smiles & _ & H).
  apply bind_inr in H as (fx & _ & H).
  apply bind_inr in H as (fgr & _ & H).
  apply bind_inr in H as (FG & HFG & [= <-]). simpl.
  by apply get_functional_groups_NoDup in HFG.
Qed.

(** ** Slices and positions *)

Lemma py_slice_length {A} o1 o2 (l l' : list A) :
  length l = length l' ->
  length (py_slice o1 o2 l) = length (py_slice o1 o2 l').
Proof.
  intros H. unfold py_slice. by rewrite !length_take, !length_drop, H.
Qed.

Lemma map_result_getitem_map {A B} (f : A -> B) (l : list A) combo names :
  map_result (list_getitem (List.map f l)) combo = inr names ->
  exists picked,
    map_result (list_getitem l) combo = inr picked
    /\ names = List.map f picked.
Proof.
  revert names. induction combo as [|i combo IH]; intros names; simpl.
  - intros [= <-]. by exists [].
  - intros (b & Hb & H)%bind_inr. apply bind_inr in H as (bs & Hbs & [= <-]).
    destruct (IH bs Hbs) as (picked & -> & ->).
    unfold list_getitem in *. rewrite list_lookup_fmap in Hb.
    destruct (l !! i) as [a|]; [|done]. injection Hb as <-.
    by exists (a :: picked).
Qed.

Lemma map_result_getitem_Forall {A} (P : A -> Prop) (l : list A) combo picked :
  Forall P l -> map_result (list_getitem l) combo = inr picked ->
  Forall P picked.
Proof.
  intros Hl. revert picked. induction combo as [|i combo IH]; intros picked; simpl.
  - by intros [= <-].
  - intros (b & Hb & H)%bind_inr. apply bind_inr in H as (bs & Hbs & [= <-]).
    constructor; [|by apply IH].
    unfold list_getitem in Hb. destruct (l !! i) as [a|] eqn:Hi; [|done].
    injection Hb as <-. by apply (Forall_lookup_1 _ _ _ _ Hl Hi).
Qed.

(** The arrays of the tokens picked at [combo] are the arrays of all the
    tokens picked at [combo]. *)
Lemma map_result_picked {A B} (f : A -> result B) (l : list A) bs combo names :
  map_result f l = inr bs ->
  map_result (list_getitem l) combo = inr names ->
  exists bl,
    map_result f names = inr bl
    /\ map_result (list_getitem bs) combo = inr bl.
Proof.
  intros [_ Hl]%map_result_lookup.
  revert names. induction combo as [|i combo IH]; intros names; simpl.
  - intros [= <-]. by exists [].
  - intros (b & Hb & H)%bind_inr. apply bind_inr in H as (ns & Hns & [= <-]).
    destruct (IH ns Hns) as (bl & Hbl & Hpick).
    unfold list_getitem in Hb.
    destruct (l !! i) as [a|] eqn:Hi; [|done]. injection Hb as <-.
    destruct (Hl i a Hi) as (y & Hy & Hfa).
    assert (Hget : list_getitem bs i = inr y)
      by (unfold list_getitem; by rewrite Hy).
    exists (y :: bl). simpl. by rewrite Hfa, Hbl, Hget, Hpick.
Qed.

Lemma map_column_blocks (w : nat) (x : matrix) (bs : list matrix) combo bl :
  (forall i b, bs !! i = Some b -> column_block (w * i) (w * (i + 1)) x = b) ->
  map_result (list_getitem bs) combo = inr bl ->
  List.map (fun ii => column_block (w * ii) (w * (ii + 1)) x) combo = bl.
Proof.
  intros Hb. revert bl. induction combo as [|i combo IH]; intros bl; simpl.
  - by intros [= <-].
  - intros (b & Hi & H)%bind_inr. apply bind_inr in H as (bl' & Hbl & [= <-]).
    unfold list_getitem in Hi. destruct (bs !! i) as [y|] eqn:Hy; [|done].
    injection Hi as <-. by rewrite (Hb i y Hy), (IH bl' Hbl).
Qed.

(** ** [validate] after [run_experiments] *)

Lemma py_in_append_r sub u s :
  py_in sub s = true -> py_in sub (String.append u s) = true.
Proof.
  intros Hs. induction u as [|c u IH].
  - by rewrite string_append_nil_l.
  - rewrite string_append_cons. cbn [py_in]. by rewrite IH, orb_true_r.
Qed.

Lemma has_xanes_tag t : has_xanes (String.append t "-XANES") = true.
Proof. unfold has_xanes. by apply py_in_append_r. Qed.

Lemma filter_has_xanes_tags tags :
  List.filter has_xanes (List.map (fun t => String.append t "-XANES") tags)
  = List.map (fun t => String.append t "-XANES") tags.
Proof.
  induction tags as [|t tags IH]; [done|].
  cbn [List.map List.filter]. by rewrite has_xanes_tag, IH.
Qed.

Section ValidateScores.
Context {RS : RandomState} {SK : Sklearn RS}.

Lemma train_test_indexes_fields (a b : Results) :
  _data_size a = _data_size b ->
  _random_state a = _random_state b ->
  _test_size a = _test_size b ->
  train_test_indexes a = train_test_indexes b.
Proof. unfold train_test_indexes. by intros -> -> ->. Qed.

(** One model of the store under [validate]: the score is recomputed from
    the same rows, so that the assertion compares the stored score with
    itself. *)
Lemma validate_model_scored (results : Results) (data : dataset)
  (test_idx : list nat) (tags : list string) (bs : list matrix) (n w : nat)
  (x : matrix) (key : string) (model : classifier) (r : experiment_record) :
  Forall plain_tag tags ->
  Forall (fun kv => py_in "XANES" (fst kv) = false) (ds_FG data) ->
  NoDup (List.map fst (ds_FG data)) ->
  map_result
    (fun key =>
       m ← map_getitem (ds_xanes data) key;
       slice_columns (_offset_left results) (_offset_right results) m)
    (List.map (fun t => String.append t "-XANES") tags) = inr bs ->
  Forall (has_shape n w) bs ->
  np_concatenate_axis1 bs = inr x ->
  scored data x w test_idx
    (List.map (fun t => String.append t "-XANES") tags) key model r ->
  _report results !! key = Some r ->
  validate_model results data test_idx key model
  = py_assert (np_allclose (test_balanced_accuracy r)
                 (test_balanced_accuracy r)).
Proof.
  intros Htags Hfg Hnd Hbs Hshape Hx
    (combo & names & fg & targets & current & x_test & y_test & preds
     & Hnames & Hcur & Hin & -> & Hxt & Hyt & Hp & Hb) Hr.
  destruct (map_result_getitem_map _ _ _ _ Hnames) as (picked & Hpicked & ->).
  assert (Hplain : Forall plain_tag picked)
    by (by eapply map_result_getitem_Forall).
  assert (Hne : picked <> []).
  { intros ->. destruct combo as [|i combo]; [done|].
    simpl in Hpicked. apply bind_inr in Hpicked as (b & _ & H).
    by apply bind_inr in H as (bs' & _ & [=]). }
  assert (Hfg' : py_in "XANES" fg = false).
  { rewrite Forall_forall in Hfg. exact (Hfg _ Hin). }
  destruct (map_result_picked _ _ _ _ _ Hbs Hnames) as (bl & Hbl & Hpick).
  assert (Hblocks : forall i b, bs !! i = Some b ->
                                column_block (w * i) (w * (i + 1)) x = b).
  { destruct bs as [|m ms]; [done|].
    destruct (np_concatenate_blocks n w m ms Hshape) as (x' & Hx' & _ & Hrec).
    simpl in Hx. assert (x' = x) as -> by congruence. exact Hrec. }
  rewrite (map_column_blocks w x bs combo bl Hblocks Hpick) in Hcur.
  change (experiment_name
            (py_join "_" (List.map (fun t => String.append t "-XANES") picked))
            fg) with (key_of picked fg) in *.
  unfold validate_model.
  rewrite (validate_xanes_keys_key_of picked fg Hne Hplain Hfg').
  rewrite (validate_fg_key_of picked fg Hne Hplain Hfg').
  rewrite Hbl. simpl. rewrite Hcur. simpl. rewrite Hxt. simpl.
  rewrite Hp. simpl. rewrite (dict_get_NoDup _ _ _ Hnd Hin). simpl.
  rewrite Hyt. simpl. rewrite Hb. simpl.
  unfold map_getitem. by rewrite Hr.
Qed.

Lemma fold_result_asserts {A} (f : A -> result unit) (c : A -> bool)
  (l : list A) :
  (forall a, a ∈ l -> f a = py_assert (c a)) ->
  fold_result (fun _ a => f a) l tt
  = if forallb c l then inr tt else inl AssertionError.
Proof.
  induction l as [|a l IH]; intros Hf; simpl; [done|].
  rewrite (Hf a) by left. unfold py_assert.
  destruct (c a); simpl; [|done].
  apply IH. intros ??. apply Hf. by right.
Qed.
End ValidateScores.

Section Scores.
Context {RS : RandomState} {SK : Sklearn RS}.

(** What an experiment that trains records: the model, and in the report
    the score of that model on the test rows. *)
Lemma experiment_scored train_indexes test_indexes name data dir n_jobs debug
  cfi ii fg_name targets st st' c :
  experiment train_indexes test_indexes name data (Some dir) n_jobs debug cfi
    ii fg_name targets st = (st', inr c) ->
  in_sweet_spot (rs_self st) targets = true ->
  exists x_test y_test model preds r,
    take_rows data test_indexes = inr x_test
    /\ take_rows targets test_indexes = inr y_test
    /\ rf_predict model x_test = inr preds
    /\ balanced_accuracy_score y_test preds = inr (test_balanced_accuracy r)
    /\ st' = put_report
               (<[experiment_name name fg_name := r]> (_report (rs_self st)))
               (put_models
                  (<[experiment_name name fg_name := model]> (rs_models st))
                  st).
Proof.
  unfold experiment. intros H Hspot.
  apply stateful_bind_inr in H as (st0 & st1 & [= <- <-] & H).
  rewrite Hspot in H. cbn [negb] in H.
  apply stateful_bind_inr in H as (x_train & st1 & [Hxtr ->]%lift_inr & H).
  apply stateful_bind_inr in H as (x_test & st1 & [Hxte ->]%lift_inr & H).
  apply stateful_bind_inr in H as (y_train & st1 & [Hytr ->]%lift_inr & H).
  apply stateful_bind_inr in H as (y_test & st1 & [Hyte ->]%lift_inr & H).
  apply stateful_bind_inr in H as (model & st1 & [Hfit ->]%lift_inr & H).
  apply stateful_bind_inr in H as ([] & st1 & Hmodels & H).
  apply stateful_bind_inr in H as (y_test_pred & st2 & [Hpred ->]%lift_inr & H).
  apply stateful_bind_inr in H as (y_train_pred & st2 & [_ ->]%lift_inr & H).
  apply stateful_bind_inr in H as (test_acc & st2 & [_ ->]%lift_inr & H).
  apply stateful_bind_inr in H as (train_acc & st2 & [_ ->]%lift_inr & H).
  apply stateful_bind_inr in H as (test_bal & st2 & [Hbal ->]%lift_inr & H).
  apply stateful_bind_inr in H as (train_bal & st2 & [_ ->]%lift_inr & H).
  apply stateful_bind_inr in H as ([] & st2 & Hreport & H).
  apply stateful_bind_inr in H as ([] & st3 & Hcfi & H).
  destruct cfi.
  { exfalso.
    apply stateful_bind_inr in Hcfi as (fi & st4 & _ & Hcfi).
    apply stateful_bind_inr in Hcfi as ([] & st5 & _ & Hcfi).
    apply stateful_bind_inr in Hcfi as (b & st6 & _ & Hcfi).
    apply stateful_bind_inr in Hcfi as (popped & st7 & _ & Hcfi).
    apply stateful_bind_inr in Hcfi as (mean & st8 & [Hmean _]%lift_inr & _).
    unfold bunch_call in Hmean. by destruct (popped.2 !! "mean"). }
  apply mret_inr in Hcfi as [_ ->].
  assert (st' = st2) as ->
    by (destruct ((0 <? debug) && (debug <=? Z.of_nat ii))%Z;
        by apply mret_inr in H as [_ ->]).
  unfold report_setitem, modify_self in Hreport. injection Hreport as <-.
  unfold models_setitem in Hmodels.
  apply stateful_bind_inr in Hmodels as (st4 & st5 & [= <- <-] & Hmodels).
  unfold set_models in Hmodels. injection Hmodels as <-.
  eexists x_test, y_test, model, y_test_pred, _.
  split; [done|]. split; [done|]. split; [done|].
  refine (conj _ eq_refl). exact Hbal.
Qed.

Lemma for_combo_scored data xanes_data ssl train_indexes test_indexes
  conditions_list dir n_jobs debug cfi combo st st' :
  for_combo data xanes_data ssl train_indexes test_indexes conditions_list
    (Some dir) n_jobs debug cfi combo st = (st', inr tt) ->
  models_scored data xanes_data ssl test_indexes conditions_list st ->
  models_scored data xanes_data ssl test_indexes conditions_list st'.
Proof.
  unfold for_combo.
  intros (names & st1 & [Hnames ->]%lift_inr & H)%stateful_bind_inr.
  apply stateful_bind_inr in H as (current & st1 & [Hcur ->]%lift_inr & H).
  eapply for_functional_groups_invariant_in; [|exact H].
  intros ii fg targets s s' c Hin Hc Hs.
  apply elem_of_enumerate in Hin. apply list_elem_of_lookup_2 in Hin.
  destruct (in_sweet_spot (rs_self s) targets) eqn:Hspot.
  2:{ apply experiment_inr in Hc as [(_ & -> & _) | (Hyes & _)];
        [done | congruence]. }
  apply experiment_scored in Hc
    as (x_test & y_test & model & preds & r & Hxt & Hyt & Hp & Hb & ->);
    [|done].
  intros key model' Hkey. simpl in Hkey |- *.
  destruct (decide (key = experiment_name (py_join "_" names) fg)) as [->|Hne].
  - rewrite lookup_insert_eq in Hkey. injection Hkey as <-.
    exists r. rewrite lookup_insert_eq. split; [done|].
    exists combo, names, fg, targets, current, x_test, y_test, preds.
    by split_and!.
  - rewrite lookup_insert_ne in Hkey by done.
    rewrite lookup_insert_ne by done. by apply Hs.
Qed.

(** The steps of a call that returns. *)
Lemma run_experiments_body_steps input out n_jobs debug cfi st st' files :
  run_experiments_body input out n_jobs debug cfi st = (st', inr files) ->
  exists data xanes_data ssl st2 indexes,
    get_data (rs_self st) input = inr data
    /\ _get_xanes_data (rs_self st) data
       = inr (xanes_data, length (xanes_keys_avail (rs_self st)))
    /\ floor_div (width xanes_data) (length (xanes_keys_avail (rs_self st)))
       = inr ssl
    /\ self_train_test_indexes
         {| rs_self :=
              set_data_size (Z.of_nat (length xanes_data)) (rs_self st);
            rs_models := rs_models st; rs_rng := rs_rng st |}
       = (st2, inr indexes)
    /\ for_each
         (for_combo data xanes_data ssl (fst indexes) (snd indexes)
            (py_split "_" (base_name (rs_self st))) out n_jobs debug cfi)
         (get_all_combinations (length (xanes_keys_avail (rs_self st))))
         (put_models ∅ st2) = (st', inr tt)
    /\ match out with
       | None => files = None
       | Some _ =>
           exists f, files = Some f
                     /\ report_json f = to_json (rs_self st')
                     /\ models_pkl f = rs_models st'
       end.
Proof.
  unfold run_experiments_body.
  intros (s & st1 & [= <- <-] & H)%stateful_bind_inr.
  apply stateful_bind_inr in H as (data & st1 & [Hdata ->]%lift_inr & H).
  apply stateful_bind_inr in H as (xn & st1 & [Hxn ->]%lift_inr & H).
  apply stateful_bind_inr in H as ([] & st1 & Hsize & H).
  apply stateful_bind_inr in H as (ssl & st2 & [Hssl ->]%lift_inr & H).
  apply stateful_bind_inr in H as (indexes & st2 & Hidx & H).
  apply stateful_bind_inr in H as ([] & st3 & Hmodels & H).
  apply stateful_bind_inr in H as ([] & st4 & Hloop & H).
  unfold modify_self in Hsize. injection Hsize as <-.
  unfold set_models in Hmodels. injection Hmodels as <-.
  assert (Hn : snd xn = length (xanes_keys_avail (rs_self st))).
  { unfold _get_xanes_data in Hxn.
    apply bind_inr in Hxn as (blocks & Hblocks & Hxn).
    by apply bind_inr in Hxn as (x & Hx & [= <-]). }
  destruct xn as [xanes_data n]. simpl in *. subst n.
  exists data, xanes_data, ssl, st2, indexes.
  assert (st' = st4) as ->.
  { destruct out as [root|].
    - apply stateful_bind_inr in H as (s4 & st5 & [= <- <-] & H).
      by apply mret_inr in H as [_ ->].
    - by apply mret_inr in H as [_ ->]. }
  split_and!; [done | done | done | done | exact Hloop |].
  destruct out as [root|].
  - apply stateful_bind_inr in H as (s4 & st5 & [= <- <-] & H).
    apply mret_inr in H as [-> _]. eexists. split; [reflexivity|]. by split.
  - by apply mret_inr in H as [-> _].
Qed.
End Scores.

Section ValidateAfterRun.
Context {RS : RandomState} {SK : Sklearn RS}.

Lemma for_combo_frame data xanes_data ssl train_indexes test_indexes
  conditions_list out n_jobs debug cfi combo st st' :
  for_combo data xanes_data ssl train_indexes test_indexes conditions_list
    out n_jobs debug cfi combo st = (st', inr tt) ->
  same_settings (rs_self st') (rs_self st)
  /\ _data_size (rs_self st') = _data_size (rs_self st)
  /\ cached_train_test_indexes (rs_self st')
     = cached_train_test_indexes (rs_self st).
Proof.
  unfold for_combo.
  intros (names & st1 & [_ ->]%lift_inr & H)%stateful_bind_inr.
  apply stateful_bind_inr in H as (current & st1 & [_ ->]%lift_inr & H).
  eapply (for_functional_groups_invariant
            (fun s => same_settings (rs_self s) (rs_self st)
                      /\ _data_size (rs_self s) = _data_size (rs_self st)
                      /\ cached_train_test_indexes (rs_self s)
                         = cached_train_test_indexes (rs_self st)));
    [|exact H|split; [apply same_settings_refl | done]].
  intros ii fg targets s s' c Hc (Hset & Hsize & Hcached).
  split_and!.
  - eapply same_settings_trans; [|exact Hset]. by eapply experiment_self.
  - apply experiment_frame in Hc as [-> _]. exact Hsize.
  - apply experiment_frame in Hc as [_ ->]. exact Hcached.
Qed.

(** What the loops of a run leave of the object as it was when they
    began. *)
Lemma for_each_combo_frame data xanes_data ssl train_indexes test_indexes
  conditions_list out n_jobs debug cfi combos st st' :
  for_each
    (for_combo data xanes_data ssl train_indexes test_indexes conditions_list
       out n_jobs debug cfi) combos st = (st', inr tt) ->
  same_settings (rs_self st') (rs_self st)
  /\ _data_size (rs_self st') = _data_size (rs_self st)
  /\ cached_train_test_indexes (rs_self st')
     = cached_train_test_indexes (rs_self st).
Proof.
  intros H.
  eapply (for_each_invariant
            (fun s => same_settings (rs_self s) (rs_self st)
                      /\ _data_size (rs_self s) = _data_size (rs_self st)
                      /\ cached_train_test_indexes (rs_self s)
                         = cached_train_test_indexes (rs_self st)));
    [|exact H|split; [apply same_settings_refl | done]].
  intros combo s s' (Hset & Hsize & Hcached)%for_combo_frame (Hs1 & Hs2 & Hs3).
  split_and!; [by eapply same_settings_trans | congruence | congruence].
Qed.

(** The arrays [_get_xanes_data] packs, for conditions that are all
    modalities and spectra of one length: one block per token, all of one
    shape. *)
Lemma get_xanes_data_blocks (self : Results) (input : xanes_store * DataFrame)
  (data : dataset) (tags : list string) (w : nat) (xanes_data : matrix)
  (k : nat) :
  py_split "," (_conditions self)
  = List.map (fun t => String.append t "-XANES") tags ->
  get_data self input = inr data ->
  (forall key m, ds_xanes data !! key = Some m ->
                 Forall (fun row => length row = w) m) ->
  _get_xanes_data self data = inr (xanes_data, k) ->
  exists bs n w',
    map_result
      (fun key =>
         m ← map_getitem (ds_xanes data) key;
         slice_columns (_offset_left self) (_offset_right self) m)
      (List.map (fun t => String.append t "-XANES") tags) = inr bs
    /\ np_concatenate_axis1 bs = inr xanes_data
    /\ Forall (has_shape n w') bs
    /\ length xanes_data = n
    /\ floor_div (width xanes_data) k = inr w'.
Proof.
  intros Htok Hdata Hw Hxn.
  assert (Hkeys : xanes_keys_avail self
                  = List.map (fun t => String.append t "-XANES") tags).
  { unfold xanes_keys_avail. rewrite Htok. apply filter_has_xanes_tags. }
  unfold get_data in Hdata.
  apply get_dataset_inr in Hdata as (smiles & _ & Hin & _).
  unfold _get_xanes_data in Hxn.
  apply bind_inr in Hxn as (bs & Hbs & Hxn).
  apply bind_inr in Hxn as (x & Hx & [= <- <-]).
  set (n := length (to_keys smiles)).
  set (w' := length (py_slice (_offset_left self) (_offset_right self)
                       (replicate w (S754_zero false)))).
  assert (Hshape : Forall (fun b => has_shape n w' b /\ b <> []) bs).
  { apply Forall_lookup. intros i b Hb.
    apply map_result_lookup in Hbs as [Hlen Hrows].
    destruct (lookup_lt_is_Some_2 (xanes_keys_avail self) i) as [key Hkey];
      [rewrite <- Hlen; by eapply lookup_lt_Some|].
    destruct (Hrows i key Hkey) as (b' & Hb' & Hblock).
    assert (b' = b) as -> by congruence.
    apply bind_inr in Hblock as (m & Hm & Hslice).
    unfold map_getitem in Hm.
    destruct (ds_xanes data !! key) as [m0|] eqn:Hlook; [|done].
    injection Hm as <-.
    destruct (Hin key) as (m1 & gr & Hm1 & Hrowsm & _).
    { apply elem_of_xanes_keys_avail. by eapply list_elem_of_lookup_2. }
    unfold matrix in *. rewrite Hlook in Hm1. injection Hm1 as <-.
    apply map_result_lookup in Hrowsm as [Hlenm _].
    pose proof (Hw key m0 Hlook) as Hwm.
    assert (Hsl : Forall (fun row => length row = w')
                    (List.map (py_slice (_offset_left self)
                                 (_offset_right self)) m0)).
    { apply Forall_fmap. eapply Forall_impl; [exact Hwm|].
      intros r Hr. simpl. subst w'. apply py_slice_length.
      by rewrite length_replicate. }
    unfold slice_columns in Hslice.
    destruct m0 as [|row m0]; [done|]. injection Hslice as <-.
    split; [|done]. split; [|exact Hsl].
    subst n. rewrite <- Hlenm. simpl. by rewrite length_map. }
  exists bs, n, w'. rewrite <- Hkeys.
  destruct bs as [|m ms]; [done|].
  assert (Hall : Forall (has_shape n w') (m :: ms)).
  { eapply Forall_impl; [exact Hshape|]. by intros ? [? _]. }
  destruct (np_concatenate_blocks n w' m ms Hall) as (x' & Hx' & [Hlx Hrx] & _).
  simpl in Hx. assert (x' = x) as -> by congruence.
  split_and!; try done.
  apply Forall_cons in Hshape as [[[Hlm _] Hm] _].
  assert (Hk : length (xanes_keys_avail self) = S (length ms)).
  { apply map_result_lookup in Hbs as [Hlen _]. by rewrite <- Hlen. }
  assert (Hwx : width x = w' * S (length ms)).
  { destruct x as [|row x]; [destruct m; simpl in *; [done|lia]|].
    simpl. by apply Forall_cons in Hrx as [-> _]. }
  unfold floor_div. rewrite Hwx, Hk. cbn [Nat.eqb].
  unfold mret, result_ret. f_equal. by apply Nat.div_mul.
Qed.

(** X23. [validate] after [run_experiments]. For an object whose conditions
    are all modalities with plain tags, that holds no split yet, on a
    dataset whose spectra have one length and whose functional groups have
    no ["XANES"] in their names: when a run with an output directory
    returns, [validate] on the object read back from the report it wrote and
    on models of the file it wrote recomputes for every model exactly the
    test balanced accuracy the report holds. So it returns normally, unless
    a stored score is [nan], which [np.allclose] does not take as close to
    itself: then it raises [AssertionError]. *)
Theorem validate_recomputes_stored_scores (self : Results) (g : rng)
  (input_data : xanes_store * DataFrame) (dir parent : string)
  (n_jobs debug : Z) (cfi : bool) (st' : run_state) (files : saved_files)
  (tags : list string) (w : nat) (data : dataset)
  (models : list (string * classifier)) (ms : gmap string classifier)
  (g' : rng) :
  cached_train_test_indexes self = None ->
  py_join "," (sorted_str (py_split "," (_conditions self)))
  = _conditions self ->
  py_split "," (_conditions self)
  = List.map (fun t => String.append t "-XANES") tags ->
  Forall plain_tag tags ->
  get_data self input_data = inr data ->
  (forall key m, ds_xanes data !! key = Some m ->
                 Forall (fun row => length row = w) m) ->
  Forall (fun kv => py_in "XANES" (fst kv) = false) (ds_FG data) ->
  run_experiments self g input_data (Some dir) n_jobs debug cfi
  = (st', inr (Some files)) ->
  (forall key model,
      (key, model) ∈ models -> models_pkl files !! key = Some model) ->
  (forall key model,
      (key, model) ∈ models ->
      is_Some (doc_report (report_json files) !! key))
  /\ exists st2 outcome,
       validate input_data models
         {| rs_self := from_file (report_json files) parent;
            rs_models := ms; rs_rng := g' |} = (st2, outcome)
       /\ (outcome = inr tt \/ outcome = inl AssertionError)
       /\ (outcome = inr tt <->
           forall key model r,
             (key, model) ∈ models ->
             doc_report (report_json files) !! key = Some r ->
             test_balanced_accuracy r <> S754_nan).
Proof.
  intros Hcache Hcanon Htok Htags Hdata Hw Hfg Hrun Hmodels.
  unfold run_experiments in Hrun.
  apply run_experiments_body_steps in Hrun
    as (data' & xanes_data & ssl & st2 & indexes & Hdata' & Hxn & Hssl
        & Hidx & Hloop & (f & [= <-] & Hjson & Hpkl)).
  simpl in Hdata', Hxn, Hssl, Hidx, Hloop.
  rewrite Hdata in Hdata'. injection Hdata' as <-.
  destruct (get_xanes_data_blocks self input_data data tags w xanes_data _
              Htok Hdata Hw Hxn) as (bs & n & w' & Hbs & Hx & Hshape & Hn & Hw').
  rewrite Hssl in Hw'. injection Hw' as <-.
  (* the positions of the names *)
  assert (Hlist : py_split "_" (base_name self)
                  = List.map (fun t => String.append t "-XANES") tags).
  { unfold base_name. rewrite py_split_replace; [done|].
    rewrite <- Hcanon. apply has_char_join; [done|].
    rewrite sorted_str_tokens, Htok. apply Forall_fmap.
    eapply Forall_impl; [exact Htags|].
    intros t (_ & _ & Ht). simpl. by rewrite has_char_append, Ht. }
  rewrite Hlist in Hloop.
  (* the split of the run *)
  set (N := Z.of_nat (length xanes_data)) in *.
  assert (Hsplit : snd (train_test_indexes (set_data_size N self) g)
                   = inr indexes
                   /\ rs_self st2
                      = set_cached_train_test_indexes indexes
                          (set_data_size N self)
                   /\ rs_models st2 = ∅).
  { unfold self_train_test_indexes in Hidx.
    apply stateful_bind_inr in Hidx as (s & st0 & [= <- <-] & H).
    simpl in H. rewrite Hcache in H.
    apply stateful_bind_inr in H as (v' & st3 & Hrng & H).
    apply stateful_bind_inr in H as ([] & st4 & Hmod & H).
    apply mret_inr in H as [-> ->].
    unfold modify_self in Hmod. injection Hmod as <-.
    unfold with_rng in Hrng. simpl in Hrng.
    destruct (train_test_indexes (set_data_size N self) g) as [g1 r1].
    injection Hrng as <- ->. by simpl. }
  destruct Hsplit as (Hsplit & Hself2 & Hmodels2).
  (* what the loops keep *)
  assert (Hinv : (same_settings (rs_self st') self
                  /\ _data_size (rs_self st') = Some N)
                 /\ models_scored data xanes_data ssl (snd indexes)
                      (List.map (fun t => String.append t "-XANES") tags) st').
  { split.
    - apply for_each_combo_frame in Hloop as (Hset & Hsize & _).
      simpl in Hset, Hsize. rewrite Hself2 in Hset, Hsize.
      split; [|exact Hsize].
      eapply same_settings_trans; [exact Hset|]. by repeat split.
    - eapply (for_each_invariant
                (models_scored data xanes_data ssl (snd indexes)
                   (List.map (fun t => String.append t "-XANES") tags)));
        [|exact Hloop|].
      + intros combo s s'. apply for_combo_scored.
      + intros key model Hkey. simpl in Hkey.
        by rewrite lookup_empty in Hkey. }
  destruct Hinv as ((Hset & Hsize) & Hscored).
  destruct Hset as (Hc & Hol & Hor & Hts & Hrs & _ & _).
  (* the object read back *)
  set (results := from_file (report_json files) parent).
  assert (Hres : _conditions results = _conditions self
                 /\ _offset_left results = _offset_left self
                 /\ _offset_right results = _offset_right self
                 /\ _report results = _report (rs_self st')
                 /\ cached_train_test_indexes results = None
                 /\ train_test_indexes results
                    = train_test_indexes (set_data_size N self)).
  { subst results. rewrite Hjson. unfold from_file. simpl.
    rewrite Hc, Hcanon. split_and!; try done.
    apply train_test_indexes_fields; simpl; congruence. }
  destruct Hres as (Hrc & Hrl & Hrr & Hrrep & Hrcache & Hrsplit).
  assert (Hentry : forall key model,
             (key, model) ∈ models ->
             exists r,
               _report (rs_self st') !! key = Some r
               /\ validate_model results data (snd indexes) key model
                  = py_assert (np_allclose (test_balanced_accuracy r)
                                 (test_balanced_accuracy r))).
  { intros key model Hin. apply Hmodels in Hin. rewrite Hpkl in Hin.
    destruct (Hscored key model Hin) as (r & Hr & Hsc).
    exists r. split; [done|].
    apply (validate_model_scored results data (snd indexes) tags bs n ssl
             xanes_data key model r); try done.
    - unfold get_data in Hdata. by apply get_dataset_FG_NoDup in Hdata.
    - by rewrite Hrl, Hrr.
    - by rewrite Hrrep. }
  assert (Hdoc : doc_report (report_json files) = _report (rs_self st'))
    by (by rewrite Hjson).
  rewrite Hdoc.
  split.
  { intros key model Hin. destruct (Hentry key model Hin) as (r & -> & _).
    by eexists. }
  set (close := fun km : string * classifier =>
                  match _report (rs_self st') !! fst km with
                  | Some r => np_allclose (test_balanced_accuracy r)
                                (test_balanced_accuracy r)
                  | None => false
                  end).
  assert (Hfold : fold_result
                    (fun _ km =>
                       validate_model results data (snd indexes)
                         (fst km) (snd km)) models tt
                  = if forallb close models then inr tt
                    else inl AssertionError).
  { apply (fold_result_asserts
             (fun km => validate_model results data (snd indexes)
                          (fst km) (snd km)) close).
    intros [key model] Hin. simpl.
    destruct (Hentry key model Hin) as (r & Hr & ->).
    unfold close. simpl. by rewrite Hr. }
  destruct (train_test_indexes results g') as [g2 r2] eqn:Hv.
  assert (Hr2 : r2 = inr indexes).
  { change r2 with (snd (g2, r2)). rewrite <- Hv, Hrsplit.
    rewrite (train_test_indexes_independent _ g' g). exact Hsplit. }
  subst r2.
  eexists _, (if forallb close models then inr tt else inl AssertionError).
  split.
  { unfold validate, mbind, stateful_bind, get_state, lift.
    cbn [rs_self]. fold results. rewrite Hrc.
    unfold get_data in Hdata. rewrite Hdata.
    unfold self_train_test_indexes, mbind, stateful_bind, get_state.
    cbn [rs_self]. rewrite Hrcache.
    unfold with_rng. cbn [rs_rng rs_self]. rewrite Hv.
    unfold modify_self, mret, stateful_ret. cbn [snd rs_self].
    rewrite Hfold. reflexivity. }
  split; [destruct (forallb close models); [by left | by right]|].
  destruct (forallb close models) eqn:Hall.
  - split; [intros _|done].
    intros key model r Hin Hr. rewrite forallb_forall in Hall.
    specialize (Hall (key, model)). unfold close in Hall. simpl in Hall.
    rewrite Hr in Hall. apply np_allclose_refl, Hall.
    by apply list_elem_of_In.
  - split; [done|]. intros Hnan. exfalso.
    assert (forallb close models = true); [|congruence].
    apply forallb_forall. intros [key model] Hin%list_elem_of_In.
    destruct (Hentry key model Hin) as (r & Hr & _).
    unfold close. simpl. rewrite Hr. apply np_allclose_refl.
    by apply (Hnan key model).
Qed.

(** X24. The report read back. When a run with an output directory returns,
    the object [from_file] builds from the report it wrote has the settings
    of the object that ran (the conditions, the offsets, the test fraction,
    the seed and the bounds of the sweet spot), the data size the run set
    and the report the run left, and it records the directory it was read
    from; the split, which the object that ran keeps, is not in the file,
    so that the object read back holds none and derives it anew. *)
Theorem report_read_back (self : Results) (g : rng)
  (input_data : xanes_store * DataFrame) (dir parent : string)
  (n_jobs debug : Z) (cfi : bool) (st' : run_state) (files : saved_files) :
  py_join "," (sorted_str (py_split "," (_conditions self)))
  = _conditions self ->
  run_experiments self g input_data (Some dir) n_jobs debug cfi
  = (st', inr (Some files)) ->
  same_settings (from_file (report_json files) parent) self
  /\ _data_size (from_file (report_json files) parent)
     = _data_size (rs_self st')
  /\ is_Some (_data_size (rs_self st'))
  /\ _report (from_file (report_json files) parent) = _report (rs_self st')
  /\ _data_loaded_from (from_file (report_json files) parent) = Some parent
  /\ is_Some (cached_train_test_indexes (rs_self st'))
  /\ cached_train_test_indexes (from_file (report_json files) parent) = None.
Proof.
  intros Hcanon Hrun. unfold run_experiments in Hrun.
  apply run_experiments_body_steps in Hrun
    as (data & xanes_data & ssl & st2 & indexes & _ & _ & _
        & Hidx & Hloop & (f & [= <-] & Hjson & _)).
  simpl in Hidx.
  apply for_each_combo_frame in Hloop as (Hset & Hsize & Hcached).
  simpl in Hset, Hsize, Hcached.
  assert (Hst2 : same_settings (rs_self st2) self
                 /\ is_Some (_data_size (rs_self st2))
                 /\ is_Some (cached_train_test_indexes (rs_self st2))).
  { unfold self_train_test_indexes in Hidx.
    apply stateful_bind_inr in Hidx as (s & st0 & [= <- <-] & H).
    simpl in H.
    destruct (cached_train_test_indexes self) as [v0|] eqn:Hc.
    - apply mret_inr in H as [_ ->]. simpl. rewrite Hc.
      split_and!; [by repeat split | by eexists | by eexists].
    - apply stateful_bind_inr in H as (v' & st3 & Hrng & H).
      apply stateful_bind_inr in H as ([] & st4 & Hmod & H).
      apply mret_inr in H as [_ ->].
      unfold modify_self in Hmod. injection Hmod as <-.
      unfold with_rng in Hrng. simpl in Hrng.
      destruct (train_test_indexes _ g) as [g1 r1].
      injection Hrng as <- _. simpl.
      split_and!; [by repeat split | by eexists | by eexists]. }
  destruct Hst2 as (Hset2 & Hsize2 & Hcached2).
  pose proof (same_settings_trans _ _ _ Hset Hset2) as Hall.
  rewrite Hjson. unfold from_file. simpl.
  split_and!; try done.
  - destruct Hall as (Hc & ? & ? & ? & ? & ? & ?).
    unfold same_settings. simpl. rewrite Hc, Hcanon. by split_and!.
  - by rewrite Hsize.
  - by rewrite Hcached.
Qed.
End ValidateAfterRun.

(** ** The further properties on the example data *)

(** X3, witness: the conditions ["C-XANES,!N"]. *)
Lemma conditions_list_is_sorted_tokens_witness :
  py_split "_" (base_name (Results_default "C-XANES,!N"))
  = sorted_str (py_split "," "C-XANES,!N").
Proof.
  apply (conditions_list_is_sorted_tokens "221205_xanes.pkl"
           "221205_index.csv" None None (float_of_ratio 6 10) 42
           (float_of_ratio 2 100) (float_of_ratio 98 100) None None None
           "C-XANES,!N").
  reflexivity.
Defined.

(** X4, witness: the two orders of the tokens ["C-XANES"] and ["!N"]. *)
Lemma get_dataset_order_insensitive_witness :
  exists d,
    get_dataset example_store example_index "C-XANES,!N" = inr d
    /\ get_dataset example_store example_index "!N,C-XANES" = inr d.
Proof.
  assert (Hok : match get_dataset example_store example_index
                        "C-XANES,!N" with
                | inr _ => true
                | inl _ => false
                end = true) by (vm_compute; reflexivity).
  destruct (get_dataset example_store example_index "C-XANES,!N")
    as [e|d] eqn:Hd; [discriminate Hok|].
  assert (Hp : py_split "," "C-XANES,!N" ≡ₚ py_split "," "!N,C-XANES")
    by (vm_compute; apply perm_swap).
  destruct (get_dataset_order_insensitive example_store example_index
              "C-XANES,!N" "!N,C-XANES" d Hp) as [Hfwd _].
  exists d. split; [reflexivity | exact (Hfwd Hd)].
Defined.

(** X6, witness: the example table, of five rows. *)
Lemma refine_index_single_pass_witness :
  refine_index ["C-XANES"; "!N"] example_index
  = masks ← map_result (condition_mask example_index) ["C-XANES"; "!N"];
    mret (df_select (fold_left (zip_with andb) masks (repeat true 5))
            example_index).
Proof.
  apply (refine_index_single_pass 5 ["C-XANES"; "!N"] example_index).
  repeat (apply Forall_cons_2; [reflexivity|]). apply Forall_nil_2.
Defined.

(** X8, witness: the example data under ["C-XANES"]. *)
Lemma get_dataset_spectra_aligned_witness :
  exists d smiles,
    get_dataset example_store example_index "C-XANES" = inr d
    /\ df_getitem (ds_index d) "SMILES" = inr smiles
    /\ (forall key,
           key ∈ xanes_conditions "C-XANES" ->
           exists m g,
             ds_xanes d !! key = Some m
             /\ length m = length (to_keys smiles)
             /\ (forall i smile,
                    to_keys smiles !! i = Some smile ->
                    exists row, m !! i = Some row
                                /\ spectrum_of example_store key smile
                                   = inr row)
             /\ ds_grid d !! key = Some g
             /\ xs_grids example_store !! cc_of key = Some g)
    /\ (forall key,
           key ∉ xanes_conditions "C-XANES" ->
           ds_xanes d !! key = None /\ ds_grid d !! key = None).
Proof.
  assert (Hok : match get_dataset example_store example_index "C-XANES" with
                | inr _ => true
                | inl _ => false
                end = true) by (vm_compute; reflexivity).
  destruct (get_dataset example_store example_index "C-XANES") as [e|d] eqn:Hd;
    [discriminate Hok|].
  destruct (get_dataset_spectra_aligned example_store example_index
              "C-XANES" d Hd) as (smiles & Hsm & Hin & Hout).
  exists d, smiles. split_and!; done.
Defined.

(** X9, witness: two blocks of one row and two columns. *)
Lemma blocks_recovered_witness :
  exists x,
    np_concatenate_axis1 [[example_spectrum 1 2]; [example_spectrum 3 4]]
    = inr x
    /\ length x = 1
    /\ floor_div (width x) 2 = inr 2
    /\ forall i b,
         [[example_spectrum 1 2]; [example_spectrum 3 4]] !! i = Some b ->
         column_block (2 * i) (2 * (i + 1)) x = b.
Proof.
  apply (blocks_recovered 1 2 [[example_spectrum 1 2]; [example_spectrum 3 4]]).
  - lia.
  - simpl. lia.
  - repeat (apply Forall_cons_2;
            [split; [reflexivity|];
             repeat (apply Forall_cons_2; [reflexivity|]); apply Forall_nil_2|]).
    apply Forall_nil_2.
Defined.

(** X10, witness: one row and the test fraction 2.0; the generator has been
    reseeded with 42 when the draw raises. *)
Lemma train_test_indexes_failures_witness :
  (ValueError = RuntimeError
   /\ _data_size (results_of "C-XANES" (float_of_ratio 2 1) 42 (Some 1%Z))
      = None
   /\ 42%Z = 0%Z)
  \/ (ValueError = ValueError /\ 42%Z = 0%Z
      /\ ~ (0 <= 42 < 2 ^ 32)%Z)
  \/ (42%Z = 42%Z
      /\ (0 <= 42 < 2 ^ 32)%Z
      /\ exists N,
           Some 1%Z = Some N
           /\ (((x ← float_mul_int (float_of_ratio 2 1) N; py_int x)
                = inl ValueError
                /\ (ValueError = OverflowError \/ ValueError = ValueError))
               \/ (exists size,
                     (x ← float_mul_int (float_of_ratio 2 1) N; py_int x)
                     = inr size
                     /\ ValueError = ValueError /\ ~ (0 <= size <= N)%Z))).
Proof.
  apply (@train_test_indexes_failures rot_generator
           (results_of "C-XANES" (float_of_ratio 2 1) 42 (Some 1%Z))
           0%Z 42%Z ValueError).
  vm_compute. reflexivity.
Defined.

(** X12, witness: the conditions ["C"], which name no modality. *)
Lemma run_without_modality_raises_witness :
  exists data,
    get_data (Results_default "C") (example_store, example_index) = inr data
    /\ @run_experiments rot_generator majority_classifier
         (Results_default "C") 0%Z (example_store, example_index)
         (Some "out") 2 (-1) false
       = (example_state (Results_default "C"), inl ValueError).
Proof.
  assert (Hok : match get_data (Results_default "C")
                        (example_store, example_index) with
                | inr _ => true
                | inl _ => false
                end = true) by (vm_compute; reflexivity).
  destruct (get_data (Results_default "C") (example_store, example_index))
    as [e|data] eqn:Hd; [discriminate Hok|].
  exists data. split; [reflexivity|].
  apply (@run_without_modality_raises rot_generator majority_classifier
           (Results_default "C") 0%Z (example_store, example_index)
           (Some "out") 2 (-1) false data).
  - vm_compute. reflexivity.
  - exact Hd.
Defined.

(** X13, witness: the example data under ["C-XANES"], three molecules. *)
Lemma get_xanes_data_on_loaded_dataset_witness :
  exists d smiles,
    get_data (Results_default "C-XANES") (example_store, example_index)
    = inr d
    /\ df_getitem (ds_index d) "SMILES" = inr smiles
    /\ match xanes_keys_avail (Results_default "C-XANES"),
             length (to_keys smiles) with
       | [], _ =>
           _get_xanes_data (Results_default "C-XANES") d = inl ValueError
       | _ :: _, 0 =>
           _get_xanes_data (Results_default "C-XANES") d = inl IndexError
       | _ :: _, S _ =>
           exists x,
             _get_xanes_data (Results_default "C-XANES") d
             = inr (x, length (xanes_keys_avail (Results_default "C-XANES")))
             /\ length x = length (to_keys smiles)
       end.
Proof.
  assert (Hok : match get_data (Results_default "C-XANES")
                        (example_store, example_index) with
                | inr d =>
                    match df_getitem (ds_index d) "SMILES" with
                    | inr _ =>
                        forallb (fun km => rectangular (snd km))
                          (map_to_list (ds_xanes d))
                    | inl _ => false
                    end
                | inl _ => false
                end = true) by (vm_compute; reflexivity).
  destruct (get_data (Results_default "C-XANES")
              (example_store, example_index)) as [e|d] eqn:Hd;
    [discriminate Hok|].
  destruct (df_getitem (ds_index d) "SMILES") as [e|smiles] eqn:Hsm;
    [discriminate Hok|].
  exists d, smiles. split; [reflexivity|]. split; [exact Hsm|].
  apply (get_xanes_data_on_loaded_dataset (Results_default "C-XANES")
           example_store example_index d smiles Hd Hsm).
  intros key m Hm. rewrite forallb_forall in Hok.
  apply (Hok (key, m)). apply list_elem_of_In. by apply elem_of_map_to_list.
Defined.

(** X14, witness: a run on the example data. *)
Lemma run_sets_data_size_witness :
  exists st' files d smiles v,
    example_run "C-XANES" None (-1) = (st', inr files)
    /\ get_data (Results_default "C-XANES") (example_store, example_index)
       = inr d
    /\ df_getitem (ds_index d) "SMILES" = inr smiles
    /\ 0 < length (to_keys smiles)
    /\ _data_size (rs_self st')
       = Some (Z.of_nat (length (to_keys smiles)))
    /\ cached_train_test_indexes (rs_self st') = Some v
    /\ match cached_train_test_indexes (Results_default "C-XANES") with
       | Some v0 => v = v0
       | None =>
           snd (@train_test_indexes rot_generator
                  (set_data_size (Z.of_nat (length (to_keys smiles)))
                     (Results_default "C-XANES")) 0%Z)
           = inr v
       end.
Proof.
  assert (Hok : match snd (example_run "C-XANES" None (-1)) with
                | inr _ => true
                | inl _ => false
                end = true) by (vm_compute; reflexivity).
  destruct (example_run "C-XANES" None (-1)) as [st' [e|files]] eqn:Hrun;
    [discriminate Hok|].
  destruct (@run_sets_data_size rot_generator majority_classifier _ 0%Z
              example_store example_index (Some "out") 2 (-1) false st' files
              Hrun) as (d & smiles & v & H).
  exists st', files, d, smiles, v. split; [reflexivity | exact H].
Defined.

(** X15, witness: an object whose sweet spot holds no label of the example,
    run with the feature importances. *)
Lemma feature_importance_run_trains_nothing_witness :
  exists st' files data,
    @run_experiments rot_generator majority_classifier example_narrow 0%Z
      (example_store, example_index) None 2 (-1) true
    = (st', inr files)
    /\ get_data example_narrow (example_store, example_index) = inr data
    /\ Forall (fun kv => in_sweet_spot example_narrow (snd kv) = false)
         (ds_FG data)
    /\ _report (rs_self st') = _report example_narrow
    /\ rs_models st' = ∅.
Proof.
  assert (Hok : match snd (@run_experiments rot_generator majority_classifier
                             example_narrow 0%Z
                             (example_store, example_index) None 2 (-1)
                             true) with
                | inr _ => true
                | inl _ => false
                end = true) by (vm_compute; reflexivity).
  destruct (@run_experiments rot_generator majority_classifier example_narrow
              0%Z (example_store, example_index) None 2 (-1) true)
    as [st' [e|files]] eqn:Hrun; [discriminate Hok|].
  destruct (@feature_importance_run_trains_nothing rot_generator
              majority_classifier example_narrow 0%Z
              (example_store, example_index) None 2 (-1) st' files Hrun)
    as (data & H).
  exists st', files, data. split; [reflexivity | exact H].
Defined.

(** X16, witness: a run on the example data. *)
Lemma run_adds_only_trained_pairs_witness :
  exists st' files data,
    example_run "C-XANES,O-XANES" None (-1) = (st', inr files)
    /\ get_data (Results_default "C-XANES,O-XANES")
         (example_store, example_index) = inr data
    /\ (forall k,
           _report (rs_self st') !! k
           <> _report (Results_default "C-XANES,O-XANES") !! k ->
           trained_pair (Results_default "C-XANES,O-XANES") data k)
    /\ (forall k,
           k ∈ dom (rs_models st') ->
           trained_pair (Results_default "C-XANES,O-XANES") data k)
    /\ (Some "out" = None -> rs_models st' = ∅ /\ files = None).
Proof.
  assert (Hok : match snd (example_run "C-XANES,O-XANES" None (-1)) with
                | inr _ => true
                | inl _ => false
                end = true) by (vm_compute; reflexivity).
  destruct (example_run "C-XANES,O-XANES" None (-1))
    as [st' [e|files]] eqn:Hrun; [discriminate Hok|].
  destruct (@run_adds_only_trained_pairs rot_generator majority_classifier _
              0%Z (example_store, example_index) (Some "out") 2 (-1) false
              st' files Hrun) as (data & H).
  exists st', files, data. split; [reflexivity | exact H].
Defined.

(** X17, witness: the same run, without a limit. *)
Lemma run_records_every_trained_pair_witness :
  exists st' files data,
    example_run "C-XANES,O-XANES" None (-1) = (st', inr files)
    /\ get_data (Results_default "C-XANES,O-XANES")
         (example_store, example_index) = inr data
    /\ forall k,
         k ∈ dom (_report (rs_self st'))
         <-> k ∈ dom (_report (Results_default "C-XANES,O-XANES"))
             \/ trained_pair (Results_default "C-XANES,O-XANES") data k.
Proof.
  assert (Hok : match snd (example_run "C-XANES,O-XANES" None (-1)) with
                | inr _ => true
                | inl _ => false
                end = true) by (vm_compute; reflexivity).
  destruct (example_run "C-XANES,O-XANES" None (-1))
    as [st' [e|files]] eqn:Hrun; [discriminate Hok|].
  destruct (@run_records_every_trained_pair rot_generator majority_classifier
              _ 0%Z (example_store, example_index) (Some "out") 2 (-1) false
              st' files ltac:(lia) Hrun) as (data & H).
  exists st', files, data. split; [reflexivity | exact H].
Defined.

(** X19, witness: the example data under ["C-XANES"], on an object whose
    data size is the three molecules it selects. *)
Lemma get_train_test_split_aligned_witness :
  exists d st' res train_idx test_idx,
    get_dataset example_store example_index "C-XANES" = inr d
    /\ get_train_test_split d "C"
         (example_state (results_of "C-XANES" (float_of_ratio 6 10) 42
                           (Some 3%Z)))
       = (st', inr res)
    /\ self_train_test_indexes
         (example_state (results_of "C-XANES" (float_of_ratio 6 10) 42
                           (Some 3%Z)))
       = (st', inr (train_idx, test_idx))
    /\ length (TrainTestSplit.x_train res) = length train_idx
    /\ length (TrainTestSplit.x_test res) = length test_idx
    /\ TrainTestSplit.unique_functional_groups res
       = List.map fst (ds_FG d)
    /\ List.map fst (TrainTestSplit.y_train res) = List.map fst (ds_FG d)
    /\ List.map fst (TrainTestSplit.y_test res) = List.map fst (ds_FG d)
    /\ forall fg col,
         (fg, col) ∈ ds_FG d ->
         exists tr te,
           dict_get fg (TrainTestSplit.y_train res) = inr tr
           /\ take_rows col train_idx = inr tr
           /\ length tr = length (TrainTestSplit.x_train res)
           /\ dict_get fg (TrainTestSplit.y_test res) = inr te
           /\ take_rows col test_idx = inr te
           /\ length te = length (TrainTestSplit.x_test res).
Proof.
  assert (Hok : match get_dataset example_store example_index "C-XANES" with
                | inr d =>
                    match snd (get_train_test_split d "C"
                                 (example_state
                                    (results_of "C-XANES"
                                       (float_of_ratio 6 10) 42
                                       (Some 3%Z)))) with
                    | inr _ => bool_decide (NoDup (List.map fst (ds_FG d)))
                    | inl _ => false
                    end
                | inl _ => false
                end = true) by (vm_compute; reflexivity).
  destruct (get_dataset example_store example_index "C-XANES") as [e|d] eqn:Hd;
    [discriminate Hok|].
  destruct (get_train_test_split d "C"
              (example_state
                 (results_of "C-XANES" (float_of_ratio 6 10) 42 (Some 3%Z))))
    as [st' [e|res]] eqn:Hsplit; [discriminate Hok|].
  simpl in Hok. apply bool_decide_eq_true_1 in Hok.
  destruct (@get_train_test_split_aligned rot_generator majority_classifier
              d "C" _ st' res Hok Hsplit) as (train_idx & test_idx & H).
  exists d, st', res, train_idx, test_idx. split; [reflexivity|].
  split; [exact Hsplit | exact H].
Defined.

(** X20, witness: a fresh object and the modality it was built with, on
    the example data. *)
Lemma get_train_test_split_before_run_witness :
  get_train_test_split
    {| ds_xanes := ∅; ds_grid := ∅; ds_FG := []; ds_index := example_index |}
    "C" (example_state (Results_default "C-XANES"))
  = (example_state (Results_default "C-XANES"), inl RuntimeError).
Proof.
  exact (@get_train_test_split_before_run rot_generator majority_classifier
           {| ds_xanes := ∅; ds_grid := ∅; ds_FG := [];
              ds_index := example_index |}
           "C" (Results_default "C-XANES") ∅ 0%Z eq_refl eq_refl).
Defined.

(** X21, witness: the key of the carbon and oxygen spectra for the
    functional group ["FG1"]. *)
Lemma validate_reads_key_back_witness :
  validate_xanes_keys (key_of ["C"; "O"] "FG1")
  = List.map (fun t => String.append t "-XANES") ["C"; "O"]
  /\ validate_fg (key_of ["C"; "O"] "FG1") = "FG1".
Proof.
  apply (validate_reads_key_back ["C"; "O"] "FG1").
  - discriminate.
  - repeat (apply Forall_cons_2; [repeat split|]). apply Forall_nil_2.
  - reflexivity.
Defined.

(** X22, witness: the key ["!N-FG1"], which a run under ["C-XANES,!N"]
    writes. *)
Lemma validate_key_without_modality_raises_witness :
  exists data st1 idx,
    get_dataset example_store example_index
      (_conditions (results_of "C-XANES,!N" (float_of_ratio 6 10) 42
                      (Some 2%Z)))
    = inr data
    /\ self_train_test_indexes
         (example_state (results_of "C-XANES,!N" (float_of_ratio 6 10) 42
                           (Some 2%Z)))
       = (st1, inr idx)
    /\ validate_xanes_keys "!N-FG1" = []
    /\ @validate rot_generator majority_classifier
         (example_store, example_index) [("!N-FG1", 0%Z)]
         (example_state (results_of "C-XANES,!N" (float_of_ratio 6 10) 42
                           (Some 2%Z)))
       = (st1, inl ValueError).
Proof.
  assert (Hok : match get_dataset example_store example_index
                        (_conditions
                           (results_of "C-XANES,!N" (float_of_ratio 6 10) 42
                              (Some 2%Z))) with
                | inr _ =>
                    match snd (self_train_test_indexes
                                 (example_state
                                    (results_of "C-XANES,!N"
                                       (float_of_ratio 6 10) 42
                                       (Some 2%Z)))) with
                    | inr _ => true
                    | inl _ => false
                    end
                | inl _ => false
                end = true) by (vm_compute; reflexivity).
  destruct (get_dataset example_store example_index
              (_conditions
                 (results_of "C-XANES,!N" (float_of_ratio 6 10) 42
                    (Some 2%Z)))) as [e|data] eqn:Hd; [discriminate Hok|].
  destruct (self_train_test_indexes
              (example_state
                 (results_of "C-XANES,!N" (float_of_ratio 6 10) 42
                    (Some 2%Z)))) as [st1 [e|idx]] eqn:Hidx;
    [discriminate Hok|].
  exists data, st1, idx. split; [reflexivity|]. split; [reflexivity|].
  exact (@validate_key_without_modality_raises rot_generator
           majority_classifier (example_store, example_index) "!N-FG1" 0%Z
           [] data
           (example_state
              (results_of "C-XANES,!N" (float_of_ratio 6 10) 42 (Some 2%Z)))
           st1 idx eq_refl Hd Hidx).
Defined.

(** X23, witness: a run on the example data under two modalities, then
    [validate] on what it wrote. *)
Lemma validate_recomputes_stored_scores_witness :
  exists st' files,
    example_run "C-XANES,O-XANES" None (-1) = (st', inr (Some files))
    /\ (forall key model,
           (key, model) ∈ map_to_list (models_pkl files) ->
           is_Some (doc_report (report_json files) !! key))
    /\ exists st2 outcome,
         @validate rot_generator majority_classifier
           (example_store, example_index) (map_to_list (models_pkl files))
           (@Build_run_state rot_generator majority_classifier
              (from_file (report_json files) "out") ∅ 0%Z) = (st2, outcome)
         /\ (outcome = inr tt \/ outcome = inl AssertionError)
         /\ (outcome = inr tt <->
             forall key model r,
               (key, model) ∈ map_to_list (models_pkl files) ->
               doc_report (report_json files) !! key = Some r ->
               test_balanced_accuracy r <> S754_nan).
Proof.
  assert (Hok : match snd (example_run "C-XANES,O-XANES" None (-1)) with
                | inr (Some _) => true
                | _ => false
                end = true) by (vm_compute; reflexivity).
  assert (Hd : match get_data (Results_default "C-XANES,O-XANES")
                       (example_store, example_index) with
               | inr d =>
                   forallb
                     (fun km => forallb (fun row => length row =? 2) (snd km))
                     (map_to_list (ds_xanes d))
                   && forallb (fun kv => negb (py_in "XANES" (fst kv)))
                        (ds_FG d)
               | inl _ => false
               end = true) by (vm_compute; reflexivity).
  destruct (example_run "C-XANES,O-XANES" None (-1))
    as [st' [e|[files|]]] eqn:Hrun; try discriminate Hok.
  destruct (get_data (Results_default "C-XANES,O-XANES")
              (example_store, example_index)) as [e|data] eqn:Hdata;
    [discriminate Hd|].
  apply andb_prop in Hd as [Hw Hfg].
  rewrite forallb_forall in Hw. rewrite forallb_forall in Hfg.
  exists st', files. split; [reflexivity|].
  apply (@validate_recomputes_stored_scores rot_generator majority_classifier
           (Results_default "C-XANES,O-XANES") 0%Z
           (example_store, example_index) "out" "out" 2 (-1) false st' files
           ["C"; "O"]%string 2 data (map_to_list (models_pkl files)) ∅ 0%Z).
  - reflexivity.
  - vm_compute. reflexivity.
  - vm_compute. reflexivity.
  - repeat constructor.
  - exact Hdata.
  - intros key m Hm. apply Forall_forall. intros row Hrow.
    apply Nat.eqb_eq.
    assert (Hkm : forallb (fun row => length row =? 2) m = true).
    { apply (Hw (key, m)). apply list_elem_of_In. by apply elem_of_map_to_list. }
    rewrite forallb_forall in Hkm. apply Hkm. by apply list_elem_of_In.
  - apply Forall_forall. intros kv Hkv.
    apply negb_true_iff. apply Hfg. by apply list_elem_of_In.
  - exact Hrun.
  - intros key model Hin. by apply elem_of_map_to_list.
Defined.

(** X24, witness: the report of a run on the example data, read back. *)
Lemma report_read_back_witness :
  exists st' files,
    example_run "C-XANES,O-XANES" None (-1) = (st', inr (Some files))
    /\ same_settings (from_file (report_json files) "out")
         (Results_default "C-XANES,O-XANES")
    /\ _data_size (from_file (report_json files) "out")
       = _data_size (rs_self st')
    /\ is_Some (_data_size (rs_self st'))
    /\ _report (from_file (report_json files) "out") = _report (rs_self st')
    /\ _data_loaded_from (from_file (report_json files) "out") = Some "out"%string
    /\ is_Some (cached_train_test_indexes (rs_self st'))
    /\ cached_train_test_indexes (from_file (report_json files) "out") = None.
Proof.
  assert (Hok : match snd (example_run "C-XANES,O-XANES" None (-1)) with
                | inr (Some _) => true
                | _ => false
                end = true) by (vm_compute; reflexivity).
  destruct (example_run "C-XANES,O-XANES" None (-1))
    as [st' [e|[files|]]] eqn:Hrun; try discriminate Hok.
  exists st', files. split; [reflexivity|].
  apply (@report_read_back rot_generator majority_classifier
           (Results_default "C-XANES,O-XANES") 0%Z
           (example_store, example_index) "out" "out" 2 (-1) false st' files).
  - vm_compute. reflexivity.
  - exact Hrun.
Defined.
